(** * Wight-Budget: the daily budget calculator and the spreadsheet mirror

    A shallow embedding of the backend of the diet tracker: the budget
    heuristic, the accounts and the HTTP handlers of [backend/src/index.ts],
    and the spreadsheet adapter of [backend/src/gsheets.ts]; and of the base
    address of the client, [frontend/src/api.ts].

    JavaScript numbers are IEEE-754 binary64 values, so they are modelled by
    Rocq's primitive [float]; integers that the code obtains from digit strings
    or from the Date algorithms are [Z]; strings are [string], one character
    per code unit, for text whose code units lie below 256 (Latin-1). *)

From Stdlib Require Import ZArith Floats Ascii String List Bool Lia Sorted.
From stdpp Require Import base option list strings pretty.

Set Default Proof Using "Type".
Set Warnings "-inexact-float".

(* ===================================================================== *)
(** ** Part I. The model                                                  *)
(* ===================================================================== *)

(** *** JavaScript numbers *)

Module JsNum.
Local Open Scope float_scope.

Definition number := float.

(** [ToBoolean] on a number: [0], [-0] and [NaN] are falsy. *)
Definition truthy (x : number) : bool := negb (is_zero x || is_nan x).

(** [x || y] on numbers. *)
Definition or_else (x y : number) : number := if truthy x then x else y.

Definition two52 : number := 0x1p52.

(** [Math.floor]. Below 2^52 in magnitude, adding and subtracting 2^52 rounds
    to an integer (to nearest); one step down repairs a round-up. *)
Definition Math_floor (x : number) : number :=
  if is_nan x || (two52 <=? abs x) then x
  else
    let r := if 0 <=? x then (x + two52) - two52 else (x - two52) + two52 in
    if r =? x then x else if x <? r then r - 1 else r.

(** [Math.round]: the nearest integer, ties towards +infinity; a result of
    zero keeps the sign of a negative argument. *)
Definition Math_round (x : number) : number :=
  let f := Math_floor x in
  if f =? x then x
  else if 0.5 <=? x - f then (if f + 1 =? 0 then -0 else f + 1) else f.

(** The mathematical value of a finite number, truncated towards zero
    ([ToIntegerOrInfinity] on finite arguments); [None] for NaN and the
    infinities. *)
Definition truncZ (x : number) : option Z :=
  match Prim2SF x with
  | S754_zero _ => Some 0%Z
  | S754_finite s m e =>
      let v := if (0 <=? e)%Z then (Z.pos m * 2 ^ e)%Z
               else (Z.pos m / 2 ^ (- e))%Z in
      Some (if s then (- v)%Z else v)
  | S754_infinity _ | S754_nan => None
  end.


(** The number of a whole number from 0 to [2^53], which it holds exactly. *)
Definition Number_of_Z (k : Z) : number := PrimFloat.of_uint63 (Uint63.of_Z k).

(** [Number.isInteger]. *)
Definition isInteger (x : number) : bool :=
  negb (is_nan x) && negb (is_infinity x) && (Math_floor x =? x).

End JsNum.
Export JsNum.

(** *** JavaScript strings *)

Module JsStr.
Local Open Scope char_scope.

(** The code units below 256 that have a lower case: A to Z and, past 127,
    the capital letters from 192 to 222 (215, the multiplication sign, is
    none). Each has its lower case 32 further on. *)
Definition isUpper (c : ascii) : bool :=
  let n := N_of_ascii c in
  (((65 <=? n) && (n <=? 90))
   || ((192 <=? n) && (n <=? 222) && negb (n =? 215)))%N.

Definition toLowerChar (c : ascii) : ascii :=
  if isUpper c then ascii_of_N (N_of_ascii c + 32) else c.

(** [String.prototype.toLowerCase]: on the code units of the model it works
    one character at a time. *)
Fixpoint toLowerCase (s : string) : string :=
  match s with
  | EmptyString => EmptyString
  | String c r => String (toLowerChar c) (toLowerCase r)
  end.

(** [s.startsWith(p)]. *)
Definition startsWith (s p : string) : bool := String.prefix p s.

End JsStr.
Export JsStr.

(** *** The budget calculator ([index.ts]) *)

Module Budget.
Local Open Scope float_scope.

Inductive ActivityLevel := sedentary | light | moderate | intense.

(** [computeDailyDuby(bmr, activity, wwPoints?)]. *)
Definition computeDailyDuby (bmr : number) (activity : ActivityLevel)
    (wwPoints : option number) : number :=
  let fallback :=
    let factor := match activity with
                  | sedentary => 1.2 | light => 1.375
                  | moderate => 1.55 | intense => 1.725 end in
    let tdee := bmr * factor in
    Math_round (tdee / 300) in
  match wwPoints with
  | Some p => if truthy p && (0 <? p) then p * 9 + 2 else fallback
  | None => fallback
  end.

(** [estimateWWPoints(gender, age, heightCm, weightKg)]. *)
Definition estimateWWPoints (gender : string) (age heightCm weightKg : number)
    : number :=
  let isMale := startsWith (toLowerCase gender) "m" in
  let pts := 0 in
  let pts := pts + (if isMale then 15 else 7) in
  let pts := pts + (if 90 <=? weightKg then 5 else if 75 <=? weightKg then 4
                    else if 60 <=? weightKg then 3 else 2) in
  let pts := pts + (if 175 <=? heightCm then 2 else if 160 <=? heightCm then 1
                    else 0) in
  let pts := pts + (if age <? 26 then 4 else if age <? 37 then 3
                    else if age <? 47 then 2 else if age <? 58 then 1 else 0) in
  pts.

(** The value [bmr] of the profile handler (Mifflin-St Jeor). *)
Definition bmrOf (gender : string) (age heightCm weightKg : number) : number :=
  let isMale := startsWith (toLowerCase gender) "m" in
  if isMale then 10 * weightKg + 6.25 * heightCm - 5 * age + 5
  else 10 * weightKg + 6.25 * heightCm - 5 * age - 161.

(** The value [daily] of the profile handler: [bmr], [ww] and the call of
    [computeDailyDuby]. *)
Definition dailyOf (gender : string) (age heightCm weightKg : number)
    (activity : ActivityLevel) : number :=
  let bmr := bmrOf gender age heightCm weightKg in
  let ww := estimateWWPoints gender age heightCm weightKg in
  computeDailyDuby bmr activity (Some ww).

(** The budget rule in the specification's words. *)
Definition spec_activity_factor (a : ActivityLevel) : number :=
  match a with
  | sedentary => 1.2 | light => 1.375 | moderate => 1.55 | intense => 1.725
  end.

Definition spec_first_is_m (gender : string) : bool :=
  match gender with
  | String c _ => (Ascii.eqb c "m" || Ascii.eqb c "M")%char
  | EmptyString => false
  end.

Definition spec_score (gender : string) (age heightCm weightKg : number)
    : number :=
  (if spec_first_is_m gender then 15 else 7)
  + (if 90 <=? weightKg then 5 else if 75 <=? weightKg then 4
     else if 60 <=? weightKg then 3 else 2)
  + (if 175 <=? heightCm then 2 else if 160 <=? heightCm then 1 else 0)
  + (if age <? 26 then 4 else if age <? 37 then 3 else if age <? 47 then 2
     else if age <? 58 then 1 else 0).

Definition spec_budget (gender : string) (age heightCm weightKg : number)
    (activity : ActivityLevel) : number :=
  let score := spec_score gender age heightCm weightKg in
  if 0 <? score then score * 9 + 2
  else Math_round (bmrOf gender age heightCm weightKg
                   * spec_activity_factor activity / 300).

End Budget.
Export Budget.

(** *** The host: what the JavaScript engine and its libraries decide

    The local time zone is a fixed offset from UTC (in milliseconds), as in
    a zone whose clocks do not change;
    [Date_parse] is [Date.parse] ([None] for NaN), whose reading of strings
    outside the ISO format is left to the engine; [StringToNumber] and
    [NumberToString] are the conversions between strings and numbers;
    [JSON_parse_ok] tells whether [JSON.parse] accepts a string;
    [jwt_verify] is [jwt.verify] with the server's secret, giving the [uid]
    of the payload ([None] when it throws or there is none).
    [Decimal_accepts] tells whether the store takes a number for a DECIMAL
    column (it refuses the infinities), and [Decimal_read] is the number
    [Number(x)] yields for the Decimal [x] that the store gives back for a
    number written, which may have lost digits on the way. The last three
    fields are the variables of [process.env] the backend reads. *)

Class Host := {
  LocalTZA : Z;
  Date_parse : string -> option Z;
  StringToNumber : string -> number;
  NumberToString : number -> string;
  JSON_parse_ok : string -> bool;
  jwt_verify : string -> option string;
  Decimal_accepts : number -> bool;
  Decimal_read : number -> number;
  GOOGLE_SHEETS_ID : option string;
  GOOGLE_SERVICE_ACCOUNT_JSON : option string;
  GOOGLE_APPLICATION_CREDENTIALS : option string
}.

(** *** JavaScript values (what a JSON body or a sheet cell can hold) *)

Module JsVal.

(** The primitives, and [JObject str] for any other value (an array or an
    object), known by the string its own [toString] conversion yields. *)
Inductive JsValue :=
| JUndefined
| JNull
| JBool (b : bool)
| JNum (x : number)
| JStr (s : string)
| JObject (str : string).

Definition isEmptyStr (s : string) : bool :=
  match s with EmptyString => true | _ => false end.

(** [ToBoolean]. *)
Definition ToBoolean (v : JsValue) : bool :=
  match v with
  | JUndefined | JNull => false
  | JBool b => b
  | JNum x => truthy x
  | JStr s => negb (isEmptyStr s)
  | JObject _ => true
  end.

(** [v || d]. *)
Definition orElse (v d : JsValue) : JsValue := if ToBoolean v then v else d.

Section Conversions.
Context `{Host}.

(** [String(v)]. *)
Definition ToString (v : JsValue) : string :=
  match v with
  | JUndefined => "undefined"
  | JNull => "null"
  | JBool true => "true"
  | JBool false => "false"
  | JNum x => NumberToString x
  | JStr s => s
  | JObject str => str
  end.

(** [Number(v)]. *)
Definition ToNumber (v : JsValue) : number :=
  match v with
  | JUndefined => nan
  | JNull => 0
  | JBool true => 1
  | JBool false => 0
  | JNum x => x
  | JStr s => StringToNumber s
  | JObject str => StringToNumber str
  end%float.

End Conversions.

(** [r[i]] on an array of cells: [undefined] out of range. *)
Definition at_index (r : list JsValue) (i : nat) : JsValue :=
  default JUndefined (r !! i).

End JsVal.
Export JsVal.

(** *** Dates (ECMAScript's time values and calendar algorithms) *)

Module JsDate.
Local Open Scope Z_scope.

(** A Date object holds a time value: milliseconds since the epoch, or NaN
    ([None]: an "Invalid Date"). *)
Definition Date := option Z.

Definition isNaN_Date (d : Date) : bool :=
  match d with Some _ => false | None => true end.

Definition msPerDay : Z := 86400000.
Definition Day (t : Z) : Z := t / msPerDay.
Definition TimeWithinDay (t : Z) : Z := t mod msPerDay.

(** Day number of the civil date [y]-[m]-[d] (months 1..12), proleptic
    Gregorian calendar, day 0 being 1 January 1970. *)
Definition DaysFromCivil (y m d : Z) : Z :=
  let y := if m <=? 2 then y - 1 else y in
  let era := y / 400 in
  let yoe := y - era * 400 in
  let mp := if 2 <? m then m - 3 else m + 9 in
  let doy := (153 * mp + 2) / 5 + d - 1 in
  let doe := yoe * 365 + yoe / 4 - yoe / 100 + doy in
  era * 146097 + doe - 719468.

(** The civil date (year, month 1..12, day) of a day number. *)
Definition CivilFromDays (z : Z) : Z * Z * Z :=
  let z := z + 719468 in
  let era := z / 146097 in
  let doe := z - era * 146097 in
  let yoe := (doe - doe / 1460 + doe / 36524 - doe / 146096) / 365 in
  let y := yoe + era * 400 in
  let doy := doe - (365 * yoe + yoe / 4 - yoe / 100) in
  let mp := (5 * doy + 2) / 153 in
  let d := doy - (153 * mp + 2) / 5 + 1 in
  let m := if mp <? 10 then mp + 3 else mp - 9 in
  (if m <=? 2 then y + 1 else y, m, d).

Definition YearFromTime (t : Z) : Z := (CivilFromDays (Day t)).1.1.
(** Months count from 0. *)
Definition MonthFromTime (t : Z) : Z := (CivilFromDays (Day t)).1.2 - 1.
Definition DateFromTime (t : Z) : Z := (CivilFromDays (Day t)).2.
Definition WeekDay (t : Z) : Z := (Day t + 4) mod 7.
Definition HourFromTime (t : Z) : Z := (t / 3600000) mod 24.
Definition MinFromTime (t : Z) : Z := (t / 60000) mod 60.

(** [MakeDay(year, month, date)]: months outside 0..11 carry into the year,
    days outside the month carry into the following months. *)
Definition MakeDay (year month date : Z) : Z :=
  let ym := year + month / 12 in
  let mn := month mod 12 in
  DaysFromCivil ym (mn + 1) 1 + date - 1.

Definition MakeTime (hour min sec ms : Z) : Z :=
  hour * 3600000 + min * 60000 + sec * 1000 + ms.

Definition MakeDate (day time : Z) : Z := day * msPerDay + time.

Definition TimeClip (t : Z) : Date :=
  if 8640000000000000 <? Z.abs t then None else Some t.

(** [new Date(ms)] for a number. *)
Definition Date_of_number (x : number) : Date :=
  match truncZ x with
  | Some t => TimeClip t
  | None => None
  end.

Definition strictEq (x y : option Z) : bool :=
  match x, y with
  | Some a, Some b => a =? b
  | _, _ => false
  end.

Section Local.
Context `{Host}.

Definition LocalTime (t : Z) : Z := t + LocalTZA.
Definition UTC (t : Z) : Z := t - LocalTZA.

(** [new Date(s)] for a string. *)
Definition Date_of_string (s : string) : Date :=
  t ← Date_parse s; TimeClip t.

(** [new Date(year, month, date)], integer arguments, local time. *)
Definition Date_of_ymd (year month date : Z) : Date :=
  let yr := if (0 <=? year) && (year <=? 99) then 1900 + year else year in
  TimeClip (UTC (MakeDate (MakeDay yr month date) (MakeTime 0 0 0 0))).

Definition getFullYear (d : Date) : option Z :=
  t ← d; Some (YearFromTime (LocalTime t)).
Definition getMonth (d : Date) : option Z :=
  t ← d; Some (MonthFromTime (LocalTime t)).
Definition getDate (d : Date) : option Z :=
  t ← d; Some (DateFromTime (LocalTime t)).
Definition getDay (d : Date) : option Z :=
  t ← d; Some (WeekDay (LocalTime t)).

(** [d.setHours(0, 0, 0, 0)]. *)
Definition setHours0 (d : Date) : Date :=
  t ← d;
  TimeClip (UTC (MakeDate (Day (LocalTime t)) (MakeTime 0 0 0 0))).

(** [d.setDate(dt)]. *)
Definition setDate (d : Date) (dt : Z) : Date :=
  t ← d;
  let tl := LocalTime t in
  TimeClip (UTC (MakeDate (MakeDay (YearFromTime tl) (MonthFromTime tl) dt)
                          (TimeWithinDay tl))).

End Local.

Definition digitChar (n : Z) : ascii := ascii_of_N (48 + Z.to_N n).

Definition pad2 (n : Z) : string :=
  String (digitChar (n / 10 mod 10)) (String (digitChar (n mod 10)) "").

Definition pad4 (n : Z) : string := pad2 (n / 100) +:+ pad2 n.

(** The ISO string of a time value: UTC fields; years outside 0..9999 take a
    sign and six digits. *)
Definition isoOfTime (t : Z) : string :=
  let y := YearFromTime t in
  let ys := if (0 <=? y) && (y <=? 9999) then pad4 y
            else (if y <? 0 then "-" else "+") +:+ pad2 (Z.abs y / 10000)
                 +:+ pad4 (Z.abs y) in
  ys +:+ "-" +:+ pad2 (MonthFromTime t + 1) +:+ "-"
  +:+ pad2 (DateFromTime t) +:+ "T" +:+ pad2 (HourFromTime t) +:+ ":"
  +:+ pad2 (MinFromTime t) +:+ ":" +:+ pad2 (t / 1000 mod 60) +:+ "."
  +:+ String (digitChar (t / 100 mod 10)) (pad2 t) +:+ "Z".

(** [d.toISOString()]; [None] stands for the RangeError thrown on an invalid
    date. *)
Definition toISOString (d : Date) : option string := isoOfTime <$> d.

(** [s.slice(a, b)] for [0 <= a <= b]. *)
Definition slice (a b : nat) (s : string) : string :=
  String.substring a (Nat.min b (String.length s) - a) s.

End JsDate.
Export JsDate.

(** *** Reading a date out of a cell ([gsheets.ts], date helpers) *)

Module DateCells.
Local Open Scope Z_scope.

Definition isDigit (c : ascii) : bool :=
  let n := N_of_ascii c in ((48 <=? n) && (n <=? 57))%N.

(** The longest prefix of digits, and what follows it. *)
Fixpoint takeDigits (s : string) : string * string :=
  match s with
  | String c r =>
      if isDigit c then let '(ds, rest) := takeDigits r in (String c ds, rest)
      else (EmptyString, s)
  | EmptyString => (EmptyString, EmptyString)
  end.

(** [Number(ds)] for a string of digits. *)
Fixpoint digitsValue_from (acc : Z) (ds : string) : Z :=
  match ds with
  | String c r => digitsValue_from (10 * acc + (Z.of_N (N_of_ascii c) - 48)) r
  | EmptyString => acc
  end.
Definition digitsValue (ds : string) : Z := digitsValue_from 0 ds.

Definition isSep (c : ascii) : bool :=
  (Ascii.eqb c "/" || Ascii.eqb c "-")%char.

Definition lenBetween (lo hi : nat) (s : string) : bool :=
  (lo <=? String.length s)%nat && (String.length s <=? hi)%nat.

(** [s.match(/^(\d{1,2})[\/\-](\d{1,2})[\/\-](\d{2,4})$/)]: the three
    captured groups as numbers. *)
Definition matchSlashDate (s : string) : option (Z * Z * Z) :=
  let '(g1, r1) := takeDigits s in
  if negb (lenBetween 1 2 g1) then None else
  match r1 with
  | String c1 r2 =>
      if negb (isSep c1) then None else
      let '(g2, r3) := takeDigits r2 in
      if negb (lenBetween 1 2 g2) then None else
      match r3 with
      | String c2 r4 =>
          if negb (isSep c2) then None else
          let '(g3, r5) := takeDigits r4 in
          if negb (lenBetween 2 4 g3) then None else
          if isEmptyStr r5
          then Some (digitsValue g1, digitsValue g2, digitsValue g3)
          else None
      | EmptyString => None
      end
  | EmptyString => None
  end.

(** [serialToDate(n)]: days since 1899-12-30 to a Date. *)
Definition serialToDate (n : number) : Date :=
  let ms := (Math_round ((n - 25569) * 86400) * 1000)%float in
  Date_of_number ms.


Section WithHost.
Context `{Host}.

(** [sameDay(a, b)]: the comparisons are [===], false on NaN. *)
Definition sameDay (a b : Date) : bool :=
  strictEq (getFullYear a) (getFullYear b)
  && strictEq (getMonth a) (getMonth b)
  && strictEq (getDate a) (getDate b).

(** [parseAnyDateValue(v)]: [None] is [null]. *)
Definition parseAnyDateValue (v : JsValue) : option Date :=
  match v with
  | JNum n => Some (serialToDate n)
  | _ =>
      let s := ToString (orElse v (JStr "")) in
      if isEmptyStr s then None else
      let d1 := Date_of_string s in
      if negb (isNaN_Date d1) then Some d1 else
      match matchSlashDate s with
      | Some (a, b, c) =>
          let dmy := Date_of_ymd (if c <? 100 then 2000 + c else c) (b - 1) a in
          if negb (isNaN_Date dmy) then Some dmy else
          let mdy := Date_of_ymd (if c <? 100 then 2000 + c else c) (a - 1) b in
          if negb (isNaN_Date mdy) then Some mdy else None
      | None => None
      end
  end.

(** The test [d && sameDay(d, today)] of both scans. *)
Definition cellIsDay (v : JsValue) (today : Date) : bool :=
  match parseAnyDateValue v with
  | Some d => sameDay d today
  | None => false
  end.

Record BudgetRow := {
  surplus : number; price : number; food : string;
  dailyBudget : number; date : string
}.

Definition budgetRowOf (r : list JsValue) : BudgetRow :=
  {| date := ToString (orElse (at_index r 0) (JStr ""));
     dailyBudget := ToNumber (orElse (at_index r 1) (JNum 0%float));
     food := ToString (orElse (at_index r 2) (JStr ""));
     price := ToNumber (orElse (at_index r 3) (JNum 0%float));
     surplus := ToNumber (orElse (at_index r 4) (JNum 0%float)) |}.

(** The loop of [findBudgetToday] over the rows read. *)
Fixpoint scanBudgetToday (rows : list (list JsValue)) (today : Date)
    : option BudgetRow :=
  match rows with
  | r :: rest =>
      if cellIsDay (at_index r 0) today then Some (budgetRowOf r)
      else scanBudgetToday rest today
  | [] => None
  end.

(** The loop of [findBudgetRowIndex]: [6 + i] for the first matching [i]. *)
Fixpoint scanBudgetRowIndex (rows : list (list JsValue)) (today : Date)
    (i : Z) : option Z :=
  match rows with
  | r :: rest =>
      if cellIsDay (at_index r 0) today then Some (6 + i)
      else scanBudgetRowIndex rest today (i + 1)
  | [] => None
  end.

End WithHost.
End DateCells.
Export DateCells.

(** *** Effects: calls that may throw, over the state of the outside world *)

Module Effects.

Inductive outcome (A : Type) := Ok (a : A) | Throw (e : string).
Arguments Ok {A} a.
Arguments Throw {A} e.

(** An awaited computation: it runs on the world's state and returns a value
    or throws, leaving a new state. *)
Definition IO (W A : Type) : Type := W -> outcome A * W.

Definition ret {W A} (a : A) : IO W A := fun w => (Ok a, w).
Definition throw {W A} (e : string) : IO W A := fun w => (Throw e, w).
Definition lift {W A} (o : outcome A) : IO W A := fun w => (o, w).
Definition bind {W A B} (m : IO W A) (k : A -> IO W B) : IO W B :=
  fun w => match m w with
           | (Ok a, w') => k a w'
           | (Throw e, w') => (Throw e, w')
           end.

(** [try { m } catch {}]: the error, if any, is dropped. *)
Definition swallow {W} (m : IO W unit) : IO W unit :=
  fun w => (Ok tt, (m w).2).

End Effects.
Export Effects.

Declare Scope io_scope.
Delimit Scope io_scope with io.
Notation "x <- m ;; k" := (bind m (fun x => k))
  (at level 100, m at next level, right associativity) : io_scope.
Notation "m ;;; k" := (bind m (fun _ => k))
  (at level 100, right associativity) : io_scope.

(** *** The spreadsheet adapter ([gsheets.ts]) *)

Module GSheets.

Record SheetProps := { sp_title : string; sp_sheetId : Z }.

Inductive ValueRender := FORMATTED_VALUE | UNFORMATTED_VALUE.

(** An A1 range [`${tab}!${c1}${r1}:${c2}${r2}`], kept as its parts. *)
Record A1 := a1 {
  a1_tab : string; a1_c1 : string; a1_r1 : Z; a1_c2 : string; a1_r2 : Z
}.

(** The calls of the spreadsheet service's client that the adapter makes, over
    a world [W] the service lives in. Each takes the spreadsheet id first. *)
Class SheetsApi (W : Type) := {
  spreadsheets_get : string -> IO W (list SheetProps);
  values_get : string -> A1 -> ValueRender -> IO W (list (list JsValue));
  (** with [valueInputOption: 'RAW'] *)
  values_update : string -> A1 -> list (list JsValue) -> IO W unit;
  (** with [valueInputOption: 'RAW'], [insertDataOption: 'INSERT_ROWS'] *)
  values_append : string -> A1 -> list (list JsValue) -> IO W unit;
  (** [batchUpdate] with one [duplicateSheet] request *)
  duplicateSheet : string -> Z -> string -> IO W unit
}.

Definition truthyEnv (v : option string) : bool :=
  match v with Some s => negb (isEmptyStr s) | None => false end.

(** Characters a tab title may not hold: [: \ / ? * [ ]]. *)
Definition isForbidden (c : ascii) : bool :=
  let n := N_of_ascii c in
  ((n =? 58) || (n =? 92) || (n =? 47) || (n =? 63) || (n =? 42)
   || (n =? 91) || (n =? 93))%N.

(** The class [\s], which is also what [trim] removes: among the code units
    below 256 these are tab to carriage return (9 to 13), the space (32) and
    the no-break space (160). *)
Definition isSpace (c : ascii) : bool :=
  let n := N_of_ascii c in
  (((9 <=? n) && (n <=? 13)) || (n =? 32) || (n =? 160))%N.

(** [.replace(/[:\\/\?\*\[\]]/g, ' ')]. *)
Fixpoint replaceForbidden (s : string) : string :=
  match s with
  | String c r => String (if isForbidden c then " "%char else c)
                         (replaceForbidden r)
  | EmptyString => EmptyString
  end.

Fixpoint dropSpaces (s : string) : string :=
  match s with
  | String c r => if isSpace c then dropSpaces r else s
  | EmptyString => EmptyString
  end.

(** [.replace(/\s+/g, ' ')]: [inRun] tells that the previous character
    belonged to the run being replaced. *)
Fixpoint collapseSpaces (inRun : bool) (s : string) : string :=
  match s with
  | String c r =>
      if isSpace c then
        if inRun then collapseSpaces true r
        else String " "%char (collapseSpaces true r)
      else String c (collapseSpaces false r)
  | EmptyString => EmptyString
  end.

(** [.trim()]. *)
Definition trim (s : string) : string :=
  String.rev (dropSpaces (String.rev (dropSpaces s))).

(** [sanitizeSheetTitle(input)]. *)
Definition sanitizeSheetTitle (input : string) : string :=
  let t := trim (collapseSpaces false (replaceForbidden input)) in
  let t := if isEmptyStr t then "User" else t in
  let t := if (80 <? String.length t)%nat then slice 0 80 t else t in
  t.

(** The title the sanitiser is specified to give, stated on the words of the
    name rather than by the three replacements of the code. A character that
    is white space or one of [: \ / ? * [ ]] is a gap; the words of a name
    are its longest runs of characters that are no gaps, so that gaps at
    either end of the name belong to no word. The title is made of the words
    joined by single spaces, is ["User"] when there is no word, and is cut to
    its first 80 characters. *)
Definition isGap (c : ascii) : bool := isForbidden c || isSpace c.

Fixpoint spec_words (s : string) : list string :=
  match s with
  | EmptyString => []
  | String c r =>
      if isGap c then spec_words r
      else match r with
           | String c' _ =>
               if isGap c' then String c "" :: spec_words r
               else match spec_words r with
                    | w :: ws => String c w :: ws
                    | [] => [String c ""]
                    end
           | EmptyString => [String c ""]
           end
  end.

Definition spec_title (name : string) : string :=
  let t := String.concat " " (spec_words name) in
  substring 0 80 (if isEmptyStr t then "User" else t).

(** Characters of a string, as a property of all of them. *)
Fixpoint allChars (P : ascii -> bool) (s : string) : Prop :=
  match s with
  | String c r => P c = true /\ allChars P r
  | EmptyString => True
  end.

(** A word: not empty, and without white space. *)
Definition wordLike (w : string) : Prop :=
  w <> "" /\ allChars (fun c => negb (isSpace c)) w.

(** A character a tab title may hold. *)
Definition allowed (c : ascii) : bool := negb (isForbidden c).

(** [titles.includes(t)]. *)
Definition includes (titles : list string) (t : string) : bool :=
  existsb (String.eqb t) titles.

(** The title [`${base} (${i})`]. *)
Definition numbered (base : string) (i : N) : string :=
  base +:+ " (" +:+ pretty i +:+ ")".

(** The loop [while (titles.includes(`${base} (${i})`)) i++] and the return
    after it; [fuel] bounds the iterations. *)
Fixpoint uniqueTitle_loop (titles : list string) (base : string)
    (fuel : nat) (i : N) : string :=
  match fuel with
  | S fuel' =>
      if includes titles (numbered base i)
      then uniqueTitle_loop titles base fuel' (i + 1)
      else numbered base i
  | O => numbered base i
  end.

Section Adapter.
Context `{Host} {W : Type} `{SheetsApi W}.
Local Open Scope io_scope.

(** [getSheetsClient()]: it throws when no credential is configured. *)
Definition getSheetsClient : IO W unit :=
  let byKeyFile : IO W unit :=
    if truthyEnv GOOGLE_APPLICATION_CREDENTIALS then ret tt
    else throw ("Missing credentials: set GOOGLE_SERVICE_ACCOUNT_JSON or "
                +:+ "GOOGLE_APPLICATION_CREDENTIALS") in
  match GOOGLE_SERVICE_ACCOUNT_JSON with
  | Some inlineJson =>
      if isEmptyStr inlineJson then byKeyFile
      else if JSON_parse_ok inlineJson then ret tt
      else throw "Unexpected token in JSON"
  | None => byKeyFile
  end.

Definition readDailyBudget (spreadsheetId tabTitle : string) : IO W number :=
  getSheetsClient ;;;
  values <- values_get spreadsheetId (a1 tabTitle "H" 2 "H" 2)
              FORMATTED_VALUE ;;
  let cell := at_index (default [] (values !! 0%nat)) 0 in
  let v := ToString (match cell with
                     | JUndefined | JNull => JStr ""
                     | c => c
                     end) in
  let n := StringToNumber v in
  ret (if is_nan n then 0%float else n).

Definition listSheetTitles (spreadsheetId : string) : IO W (list string) :=
  getSheetsClient ;;;
  meta <- spreadsheets_get spreadsheetId ;;
  ret (List.filter (fun t => negb (isEmptyStr t)) (map sp_title meta)).

Definition getSheetIdByTitle (spreadsheetId title : string)
    : IO W (option Z) :=
  getSheetsClient ;;;
  meta <- spreadsheets_get spreadsheetId ;;
  ret (sp_sheetId <$> List.find (fun s => String.eqb (sp_title s) title) meta).

Definition uniqueTitle (spreadsheetId base : string) : IO W string :=
  titles <- listSheetTitles spreadsheetId ;;
  if negb (includes titles base) then ret base
  else ret (uniqueTitle_loop titles base (length titles) 1).

Definition duplicateUserTemplate (spreadsheetId userName templateName : string)
    : IO W string :=
  sourceSheetId <- getSheetIdByTitle spreadsheetId templateName ;;
  match sourceSheetId with
  | None => throw ("Template sheet not found: " +:+ templateName)
  | Some sourceSheetId =>
      let baseTitle := sanitizeSheetTitle userName in
      newTitle <- uniqueTitle spreadsheetId baseTitle ;;
      getSheetsClient ;;;
      duplicateSheet spreadsheetId sourceSheetId newTitle ;;;
      ret newTitle
  end.

(** The predicate of [titles.find] in [ensureUserTab]. *)
Definition isUserTab (baseTitle t : string) : bool :=
  String.eqb t baseTitle || startsWith t (baseTitle +:+ " (").

Definition ensureUserTab (spreadsheetId userName templateName : string)
    : IO W string :=
  let baseTitle := sanitizeSheetTitle userName in
  titles <- listSheetTitles spreadsheetId ;;
  match List.find (isUserTab baseTitle) titles with
  | Some exact =>
      if negb (isEmptyStr exact) then ret exact
      else duplicateUserTemplate spreadsheetId userName templateName
  | None => duplicateUserTemplate spreadsheetId userName templateName
  end.

Record GeneralInfo := {
  gi_name : string; gi_heightCm : number; gi_startWeightKg : number;
  gi_gender : string; gi_age : number; gi_targetWeightKg : number;
  gi_targetDateIso : option string; gi_dailyBudget : option number
}.

Definition writeGeneralInfo (spreadsheetId tabTitle : string)
    (info : GeneralInfo) : IO W unit :=
  getSheetsClient ;;;
  let values := [[
    JStr (gi_name info);
    JNum (gi_heightCm info);
    JNum (gi_startWeightKg info);
    JStr (gi_gender info);
    JNum (gi_age info);
    JNum (gi_targetWeightKg info);
    JStr (match gi_targetDateIso info with Some d => d | None => "" end);
    match gi_dailyBudget info with Some b => JNum b | None => JStr "" end
  ]] in
  values_update spreadsheetId (a1 tabTitle "A" 2 "H" 2) values.

Definition readRange (spreadsheetId : string) (a1Range : A1)
    : IO W (list (list JsValue)) :=
  getSheetsClient ;;;
  values_get spreadsheetId a1Range FORMATTED_VALUE.

Definition readRangeUnformatted (spreadsheetId : string) (a1Range : A1)
    : IO W (list (list JsValue)) :=
  getSheetsClient ;;;
  values_get spreadsheetId a1Range UNFORMATTED_VALUE.

Definition findBudgetToday (spreadsheetId tabTitle : string) (today : Date)
    : IO W (option BudgetRow) :=
  rows <- readRange spreadsheetId (a1 tabTitle "D" 6 "H" 1000) ;;
  ret (scanBudgetToday rows today).

Definition findBudgetRowIndex (spreadsheetId tabTitle : string) (today : Date)
    : IO W (option Z) :=
  rows <- readRangeUnformatted spreadsheetId (a1 tabTitle "D" 6 "D" 1000) ;;
  ret (scanBudgetRowIndex rows today 0).

Definition upsertBudgetRow (spreadsheetId tabTitle dateIso : string)
    (dailyBudget price : number) (foodJoined : string) : IO W unit :=
  getSheetsClient ;;;
  let surplus := (dailyBudget - price)%float in
  rowIndex <- findBudgetRowIndex spreadsheetId tabTitle
                (Date_of_string dateIso) ;;
  let values := [[JStr dateIso; JNum dailyBudget; JStr foodJoined;
                  JNum price; JNum surplus]] in
  match rowIndex with
  | Some rowIndex =>
      values_update spreadsheetId (a1 tabTitle "D" rowIndex "H" rowIndex)
        values
  | None =>
      values_append spreadsheetId (a1 tabTitle "D" 6 "H" 6) values
  end.

Definition appendProgressRow (spreadsheetId tabTitle dateIso : string)
    (weightKg : number) : IO W unit :=
  getSheetsClient ;;;
  let values := [[JStr dateIso; JNum weightKg]] in
  values_append spreadsheetId (a1 tabTitle "A" 6 "B" 6) values.

End Adapter.
End GSheets.
Export GSheets.

(** *** The relational store (the Prisma client's calls) *)

Module Db.

Record User := {
  u_id : string; u_name : string; u_email : string; u_passwordHash : string
}.

Record Profile := {
  pr_userId : string; pr_heightCm : number; pr_currentWeightKg : number;
  pr_goalWeightKg : number; pr_targetDate : option Date; pr_gender : string;
  pr_age : number; pr_activityLevel : ActivityLevel;
  pr_dailyDubyBudget : number
}.

Record FoodItem := {
  fi_id : string; fi_name : string; fi_duby : number; fi_unit : string
}.

(** The rows hold the numbers that were written. A DECIMAL column gives them
    back as Decimal objects: such an object is truthy, so [x || 0] is [x], and
    [Number(x || 0)] is [Decimal_read] of the number written. *)
Record FoodLog := {
  fl_id : string; fl_userId : string; fl_foodItemId : string;
  fl_portion : number; fl_occurredAt : Z; fl_dubyCost : number
}.

Record WeightLog := {
  wl_id : string; wl_userId : string; wl_weightKg : number; wl_date : Z
}.

(** The tables, and the seed of the generated primary keys. *)
Record Store := {
  users : list User; profiles : list Profile; foodItems : list FoodItem;
  foodLogs : list FoodLog; weightLogs : list WeightLog; idSeed : N
}.

Definition freshId (st : Store) : string := "c" +:+ pretty (idSeed st).

Definition user_findUnique (st : Store) (id : string) : option User :=
  List.find (fun u => String.eqb (u_id u) id) (users st).

Definition foodItem_findFirst (st : Store) (name : string) : option FoodItem :=
  List.find (fun f => String.eqb (fi_name f) name) (foodItems st).

Definition foodItem_byId (st : Store) (id : string) : option FoodItem :=
  List.find (fun f => String.eqb (fi_id f) id) (foodItems st).

Definition foodLog_findUnique (st : Store) (id : string) : option FoodLog :=
  List.find (fun l => String.eqb (fl_id l) id) (foodLogs st).

(** [user.upsert({ where: { id: 'demo' }, update: {}, create: ... })]. *)
Definition user_upsertDemo : IO Store unit := fun st =>
  match user_findUnique st "demo" with
  | Some _ => (Ok tt, st)
  | None =>
      if existsb (fun u => String.eqb (u_email u) "demo@example.com") (users st)
      then (Throw "Unique constraint failed on the fields: (`email`)", st)
      else (Ok tt,
            {| users := users st ++ [{| u_id := "demo"; u_name := "Demo";
                                        u_email := "demo@example.com";
                                        u_passwordHash := "x" |}];
               profiles := profiles st; foodItems := foodItems st;
               foodLogs := foodLogs st; weightLogs := weightLogs st;
               idSeed := idSeed st |})
  end.

Section Writes.
Context `{Host}.

(** [profile.upsert({ where: { userId }, update, create })]: a full replace
    of the user's row, or a new row, which needs the user to exist. The target
    date is [null] ([None]) or a Date, which must be a valid one; the two
    weights go to DECIMAL columns. *)
Definition profile_upsert (p : Profile) : IO Store unit := fun st =>
  let mine (q : Profile) := String.eqb (pr_userId q) (pr_userId p) in
  if match pr_targetDate p with Some None => true | _ => false end
  then (Throw "Invalid value for argument `targetDate`", st)
  else if negb (Decimal_accepts (pr_currentWeightKg p)
                && Decimal_accepts (pr_goalWeightKg p))
  then (Throw "Invalid value for a Decimal argument", st)
  else if existsb mine (profiles st) then
    (Ok tt,
     {| users := users st;
        profiles := map (fun q => if mine q then p else q) (profiles st);
        foodItems := foodItems st; foodLogs := foodLogs st;
        weightLogs := weightLogs st; idSeed := idSeed st |})
  else
    match user_findUnique st (pr_userId p) with
    | Some _ =>
        (Ok tt,
         {| users := users st; profiles := profiles st ++ [p];
            foodItems := foodItems st; foodLogs := foodLogs st;
            weightLogs := weightLogs st; idSeed := idSeed st |})
    | None => (Throw "Foreign key constraint failed", st)
    end.

(** [foodItem.update({ where: { id }, data: { duby, unit } })]; [duby] goes
    to a DECIMAL column, here and in [foodItem.create]. *)
Definition foodItem_update (id : string) (duby : number) (unit : string)
    : IO Store FoodItem := fun st =>
  if negb (Decimal_accepts duby)
  then (Throw "Invalid value for a Decimal argument", st) else
  match foodItem_byId st id with
  | Some f =>
      let f' := {| fi_id := fi_id f; fi_name := fi_name f; fi_duby := duby;
                   fi_unit := unit |} in
      (Ok f',
       {| users := users st; profiles := profiles st;
          foodItems := map (fun g => if String.eqb (fi_id g) id then f' else g)
                           (foodItems st);
          foodLogs := foodLogs st; weightLogs := weightLogs st;
          idSeed := idSeed st |})
  | None => (Throw "Record to update not found.", st)
  end.

Definition foodItem_create (name : string) (duby : number) (unit : string)
    : IO Store FoodItem := fun st =>
  let f := {| fi_id := freshId st; fi_name := name; fi_duby := duby;
              fi_unit := unit |} in
  if negb (Decimal_accepts duby)
  then (Throw "Invalid value for a Decimal argument", st) else
  match foodItem_byId st (freshId st) with
  | Some _ => (Throw "Unique constraint failed on the fields: (`id`)", st)
  | None =>
      (Ok f,
       {| users := users st; profiles := profiles st;
          foodItems := foodItems st ++ [f]; foodLogs := foodLogs st;
          weightLogs := weightLogs st; idSeed := (idSeed st + 1)%N |})
  end.

(** [foodLog.create]: the user and the food item must exist, the time must be
    a valid date, the portion and the cost go to DECIMAL columns, and the
    generated key must be new. *)
Definition foodLog_create (userId foodItemId : string) (portion : number)
    (occurredAt : Date) (dubyCost : number) : IO Store FoodLog := fun st =>
  match occurredAt with
  | None => (Throw "Invalid value for argument `occurredAt`", st)
  | Some t =>
      if negb (Decimal_accepts portion && Decimal_accepts dubyCost)
      then (Throw "Invalid value for a Decimal argument", st) else
      match user_findUnique st userId, foodItem_byId st foodItemId with
      | Some _, Some _ =>
          let l := {| fl_id := freshId st; fl_userId := userId;
                      fl_foodItemId := foodItemId; fl_portion := portion;
                      fl_occurredAt := t; fl_dubyCost := dubyCost |} in
          match foodLog_findUnique st (freshId st) with
          | Some _ =>
              (Throw "Unique constraint failed on the fields: (`id`)", st)
          | None =>
              (Ok l,
               {| users := users st; profiles := profiles st;
                  foodItems := foodItems st; foodLogs := foodLogs st ++ [l];
                  weightLogs := weightLogs st; idSeed := (idSeed st + 1)%N |})
          end
      | _, _ => (Throw "Foreign key constraint failed", st)
      end
  end.

(** [foodLog.delete({ where: { id } })]. *)
Definition foodLog_delete (id : string) : IO Store unit := fun st =>
  match foodLog_findUnique st id with
  | Some _ =>
      (Ok tt,
       {| users := users st; profiles := profiles st;
          foodItems := foodItems st;
          foodLogs := List.filter (fun l => negb (String.eqb (fl_id l) id))
                                  (foodLogs st);
          weightLogs := weightLogs st; idSeed := idSeed st |})
  | None => (Throw "Record to delete does not exist.", st)
  end.

(** [weightLog.create]; the weight goes to a DECIMAL column. *)
Definition weightLog_create (userId : string) (weightKg : number)
    (date : Date) : IO Store unit := fun st =>
  match date with
  | None => (Throw "Invalid value for argument `date`", st)
  | Some t =>
      if negb (Decimal_accepts weightKg)
      then (Throw "Invalid value for a Decimal argument", st) else
      match user_findUnique st userId with
      | Some _ =>
          if existsb (fun l => String.eqb (wl_id l) (freshId st))
                     (weightLogs st)
          then (Throw "Unique constraint failed on the fields: (`id`)", st)
          else
            (Ok tt,
             {| users := users st; profiles := profiles st;
                foodItems := foodItems st; foodLogs := foodLogs st;
                weightLogs := weightLogs st
                  ++ [{| wl_id := freshId st; wl_userId := userId;
                         wl_weightKg := weightKg; wl_date := t |}];
                idSeed := (idSeed st + 1)%N |})
      | None => (Throw "Foreign key constraint failed", st)
      end
  end.

End Writes.

(** Insertion into a list ordered by [occurredAt], after the entries that are
    not later. *)
Fixpoint insertByTime (l : FoodLog) (ls : list FoodLog) : list FoodLog :=
  match ls with
  | l' :: rest =>
      if (fl_occurredAt l' <=? fl_occurredAt l)%Z
      then l' :: insertByTime l rest
      else l :: ls
  | [] => [l]
  end.

Definition sortByTime (ls : list FoodLog) : list FoodLog :=
  fold_left (fun acc l => insertByTime l acc) ls [].

(** [foodLog.findMany({ where: { userId, occurredAt: { gte, lt } },
    include: { foodItem: true }, orderBy: { occurredAt: 'asc' } })]. *)
Definition foodLog_findMany (st : Store) (userId : string) (gte lt : Date)
    : outcome (list (FoodLog * option FoodItem)) :=
  match gte, lt with
  | Some a, Some b =>
      let mine (l : FoodLog) :=
        String.eqb (fl_userId l) userId
        && (a <=? fl_occurredAt l)%Z && (fl_occurredAt l <? b)%Z in
      Ok (map (fun l => (l, foodItem_byId st (fl_foodItemId l)))
              (sortByTime (List.filter mine (foodLogs st))))
  | _, _ => Throw "Invalid value for argument `occurredAt`"
  end.

End Db.
Export Db.

(** *** The HTTP handlers ([index.ts]) *)

Module Api.
Local Open Scope float_scope.

(** A request: the session cookie, the parsed JSON body (an object's fields,
    or [None] when the body is no object), and the [:id] of the route. *)
Record Request := {
  session : option string;
  body : option (list (string * JsValue));
  param_id : string
}.


Record Item := {
  item_id : string; item_time : string; item_food : string;
  item_price : number
}.

Record Entry := {
  entry_time : string; entry_food : string; entry_dubyCost : number
}.

Record Dashboard := {
  remainingDubyToday : number; entries : list Entry; items : list Item;
  nextWeighIn : string
}.

Inductive Payload :=
| ErrorJson (error : string)
| OkJson
| IdJson (id : string)
| DailyJson (daily_duby_budget : number)
| DashboardJson (d : Dashboard).

(** What the client gets: a status with a JSON payload, or nothing when the
    handler's promise is rejected outside any [try]. *)
Inductive Response :=
| Respond (status : Z) (payload : Payload)
| Unanswered (e : string).

(** [e?.message || fallback]. *)
Definition messageOr (e fallback : string) : string :=
  if isEmptyStr e then fallback else e.

(** **** The request schemas (zod) *)

Definition field (o : list (string * JsValue)) (k : string) : JsValue :=
  match List.find (fun kv => String.eqb kv.1 k) o with
  | Some kv => kv.2
  | None => JUndefined
  end.

Definition check (b : bool) : option unit := if b then Some tt else None.

Definition z_string (v : JsValue) : option string :=
  match v with JStr s => Some s | _ => None end.

(** [z.number()]: a number that is not NaN. *)
Definition z_number (v : JsValue) : option number :=
  match v with JNum x => if is_nan x then None else Some x | _ => None end.

Definition z_string_optional (v : JsValue) : option (option string) :=
  match v with
  | JUndefined => Some None
  | JStr s => Some (Some s)
  | _ => None
  end.

Definition z_activity (v : JsValue) : option ActivityLevel :=
  match v with
  | JStr s =>
      if String.eqb s "sedentary" then Some sedentary
      else if String.eqb s "light" then Some light
      else if String.eqb s "moderate" then Some moderate
      else if String.eqb s "intense" then Some intense
      else None
  | _ => None
  end.

Record ProfileInput := {
  height_cm : number; current_weight_kg : number; goal_weight_kg : number;
  target_date : option string; gender : string; age : number;
  activity_level : ActivityLevel
}.

Definition ProfileSchema (b : option (list (string * JsValue)))
    : option ProfileInput :=
  o ← b;
  h ← z_number (field o "height_cm");
  _ ← check (isInteger h && (0 <? h));
  cw ← z_number (field o "current_weight_kg");
  _ ← check (0 <? cw);
  gw ← z_number (field o "goal_weight_kg");
  _ ← check (0 <? gw);
  td ← z_string_optional (field o "target_date");
  g ← z_string (field o "gender");
  a ← z_number (field o "age");
  _ ← check (isInteger a && (0 <? a));
  al ← z_activity (field o "activity_level");
  Some {| height_cm := h; current_weight_kg := cw; goal_weight_kg := gw;
          target_date := td; gender := g; age := a; activity_level := al |}.

Record FoodLogInput := {
  fl_name : string; fl_duby : number; fl_unit : string; fl_portion_in : number;
  fl_occurred_at : option string
}.

Definition FoodLogSchema (b : option (list (string * JsValue)))
    : option FoodLogInput :=
  o ← b;
  n ← z_string (field o "name");
  d ← z_number (field o "duby");
  u ← z_string (field o "unit");
  p ← z_number (field o "portion");
  _ ← check (0 <? p);
  oa ← z_string_optional (field o "occurred_at");
  Some {| fl_name := n; fl_duby := d; fl_unit := u; fl_portion_in := p;
          fl_occurred_at := oa |}.

Record WeightLogInput := { wl_weight_kg : number; wl_date_in : option string }.

Definition WeightLogSchema (b : option (list (string * JsValue)))
    : option WeightLogInput :=
  o ← b;
  wk ← z_number (field o "weight_kg");
  _ ← check (0 <? wk);
  d ← z_string_optional (field o "date");
  Some {| wl_weight_kg := wk; wl_date_in := d |}.

(** [(Number(duby) || 0) * (Number(portion) || 1)]. *)
Definition dubyCostOf (duby portion : number) : number :=
  or_else duby 0 * or_else portion 1.

Definition truthyStr (s : option string) : bool :=
  match s with Some s => negb (isEmptyStr s) | None => false end.

Section Handlers.
Context `{Host} {W : Type} `{SheetsApi W}.
Local Open Scope io_scope.

(** [requireUser(req)]. *)
Definition requireUser (req : Request) : option string :=
  match session req with
  | Some raw =>
      if isEmptyStr raw then None
      else match jwt_verify raw with
           | Some uid => if isEmptyStr uid then None else Some uid
           | None => None
           end
  | None => None
  end.

(** The guard [sheetId && hasSheetsAuth && user?.name] of every mirror
    block: the spreadsheet id and the user's name when it passes. *)
Definition mirrorTarget (user : option User) : option (string * string) :=
  match GOOGLE_SHEETS_ID, user with
  | Some sheetId, Some u =>
      let hasSheetsAuth :=
        negb (isEmptyStr sheetId)
        && (truthyEnv GOOGLE_SERVICE_ACCOUNT_JSON
            || truthyEnv GOOGLE_APPLICATION_CREDENTIALS) in
      if negb (isEmptyStr sheetId) && hasSheetsAuth
         && negb (isEmptyStr (u_name u))
      then Some (sheetId, u_name u) else None
  | _, _ => None
  end.

(** [start] and [end] of the local day of [t]. *)
Definition dayStart (t : Z) : Date := setHours0 (Some t).
Definition dayEnd (t : Z) : Date :=
  let start := dayStart t in
  match getDate start with
  | Some d => setDate start (d + 1)
  | None => None
  end.

Definition foodNameOf (fi : option FoodItem) : string :=
  match fi with
  | Some f => if isEmptyStr (fi_name f) then "" else fi_name f
  | None => ""
  end.

(** **** PUT /api/me/profile *)

Definition profileMirror (user : option User) (p : ProfileInput)
    (daily : number) : IO W unit :=
  match mirrorTarget user with
  | Some (sheetId, name) =>
      tab <- ensureUserTab sheetId name "UserTemplate" ;;
      writeGeneralInfo sheetId tab
        {| gi_name := name; gi_heightCm := height_cm p;
           gi_startWeightKg := current_weight_kg p; gi_gender := gender p;
           gi_age := age p; gi_targetWeightKg := goal_weight_kg p;
           gi_targetDateIso := if truthyStr (target_date p)
                               then target_date p else None;
           gi_dailyBudget := Some daily |}
  | None => ret tt
  end.

(** The row the handler upserts ([update] and [create] hold the same data). *)
Definition profileRow (uid : string) (p : ProfileInput) (daily : number)
    : Profile :=
  {| pr_userId := uid; pr_heightCm := height_cm p;
     pr_currentWeightKg := current_weight_kg p;
     pr_goalWeightKg := goal_weight_kg p;
     pr_targetDate := if truthyStr (target_date p)
                      then Date_of_string <$> target_date p
                      else None;
     pr_gender := gender p; pr_age := age p;
     pr_activityLevel := activity_level p;
     pr_dailyDubyBudget := daily |}.

Definition putProfile (req : Request) (st : Store) (w : W)
    : Response * Store * W :=
  match requireUser req with
  | None => (Respond 401 (ErrorJson "unauthorized"), st, w)
  | Some uid =>
      match ProfileSchema (body req) with
      | None => (Respond 400 (ErrorJson "Invalid profile"), st, w)
      | Some p =>
          let user := user_findUnique st uid in
          let daily := dailyOf (gender p) (age p) (height_cm p)
                         (current_weight_kg p) (activity_level p) in
          match profile_upsert (profileRow uid p daily) st with
          | (Throw e, st') => (Unanswered e, st', w)
          | (Ok _, st') =>
              let w' := (swallow (profileMirror user p daily) w).2 in
              (Respond 200 (DailyJson daily), st', w')
          end
      end
  end.

(** **** The ledger mirror of the two food-log handlers *)

Definition budgetMirror (st : Store) (uid : string) (day : Z) : IO W unit :=
  let user := user_findUnique st uid in
  match mirrorTarget user with
  | Some (sheetId, name) =>
      tab <- ensureUserTab sheetId name "UserTemplate" ;;
      let start := dayStart day in
      let end_ := dayEnd day in
      logs <- lift (foodLog_findMany st uid start end_) ;;
      let foodJoined :=
        String.concat " | " (map (fun l => foodNameOf l.2) logs) in
      let price :=
        fold_left (fun s l => s + Decimal_read (fl_dubyCost l.1)) logs 0 in
      dailyBudget <- readDailyBudget sheetId tab ;;
      match toISOString start with
      | Some iso =>
          upsertBudgetRow sheetId tab (slice 0 10 iso) dailyBudget price
            foodJoined
      | None => throw "Invalid time value"
      end
  | None => ret tt
  end.

(** **** POST /api/food-log *)

Definition reading {A} (f : Store -> A) : IO Store A := fun st => (Ok (f st), st).

Definition createFoodLog (p : FoodLogInput) (uid : string) (now : Z)
    : IO Store FoodLog :=
  (if String.eqb uid "demo" then user_upsertDemo else ret tt) ;;;
  existing <- reading (fun st => foodItem_findFirst st (fl_name p)) ;;
  foodId <- match existing with
            | Some e =>
                updated <- foodItem_update (fi_id e) (fl_duby p) (fl_unit p) ;;
                ret (fi_id updated)
            | None =>
                created <- foodItem_create (fl_name p) (fl_duby p) (fl_unit p) ;;
                ret (fi_id created)
            end ;;
  foodLog_create uid foodId (fl_portion_in p)
    (if truthyStr (fl_occurred_at p)
     then match fl_occurred_at p with
          | Some s => Date_of_string s
          | None => Some now
          end
     else Some now)
    (dubyCostOf (fl_duby p) (fl_portion_in p)).

Definition postFoodLog (req : Request) (now : Z) (st : Store) (w : W)
    : Response * Store * W :=
  match FoodLogSchema (body req) with
  | None => (Respond 400 (ErrorJson "Invalid input"), st, w)
  | Some p =>
      let uid := default "demo" (requireUser req) in
      match createFoodLog p uid now st with
      | (Throw e, st') =>
          (Respond 500 (ErrorJson (messageOr e "Failed to create log")), st', w)
      | (Ok entry, st') =>
          let w' := (swallow (budgetMirror st' uid now) w).2 in
          (Respond 201 (IdJson (fl_id entry)), st', w')
      end
  end.

(** **** DELETE /api/food-log/:id *)

Definition deleteFoodLog (req : Request) (st : Store) (w : W)
    : Response * Store * W :=
  let uid := default "demo" (requireUser req) in
  let id := param_id req in
  match foodLog_findUnique st id with
  | None => (Respond 404 (ErrorJson "not found"), st, w)
  | Some entry =>
      if negb (String.eqb (fl_userId entry) uid)
      then (Respond 404 (ErrorJson "not found"), st, w)
      else
        match foodLog_delete id st with
        | (Throw e, st') =>
            (Respond 500 (ErrorJson (messageOr e "Failed to delete")), st', w)
        | (Ok _, st') =>
            let w' :=
              (swallow (budgetMirror st' uid (fl_occurredAt entry)) w).2 in
            (Respond 200 OkJson, st', w')
        end
  end.

(** **** POST /api/weight-log *)

Definition weightDate (p : WeightLogInput) (now : Z) : Date :=
  if truthyStr (wl_date_in p)
  then match wl_date_in p with
       | Some s => Date_of_string s
       | None => Some now
       end
  else Some now.

Definition progressMirror (st : Store) (uid : string) (p : WeightLogInput)
    (now : Z) : IO W unit :=
  let user := user_findUnique st uid in
  match mirrorTarget user with
  | Some (sheetId, name) =>
      tab <- ensureUserTab sheetId name "UserTemplate" ;;
      match toISOString (weightDate p now) with
      | Some iso =>
          appendProgressRow sheetId tab (slice 0 10 iso) (wl_weight_kg p)
      | None => throw "Invalid time value"
      end
  | None => ret tt
  end.

Definition createWeightLog (p : WeightLogInput) (uid : string) (now : Z)
    : IO Store unit :=
  (if String.eqb uid "demo" then user_upsertDemo else ret tt) ;;;
  weightLog_create uid (wl_weight_kg p) (weightDate p now).

Definition postWeightLog (req : Request) (now : Z) (st : Store) (w : W)
    : Response * Store * W :=
  match WeightLogSchema (body req) with
  | None => (Respond 400 (ErrorJson "Invalid input"), st, w)
  | Some p =>
      let uid := default "demo" (requireUser req) in
      match createWeightLog p uid now st with
      | (Throw e, st') =>
          (Respond 500 (ErrorJson (messageOr e "Failed to log weight")), st', w)
      | (Ok _, st') =>
          let w' := (swallow (progressMirror st' uid p now) w).2 in
          (Respond 201 OkJson, st', w')
      end
  end.

(** **** GET /api/dashboard *)

Definition itemOf (l : FoodLog * option FoodItem) : Item :=
  {| item_id := fl_id l.1;
     item_time := slice 11 16 (isoOfTime (fl_occurredAt l.1));
     item_food := foodNameOf l.2;
     item_price := Decimal_read (fl_dubyCost l.1) |}.

(** The [try] block of the dashboard: the values of [remaining], [foodList]
    and [price] when it completes. *)
Definition dashboardSheet (user : option User) (now : Z) (foodList : string)
    (price : number) : IO W (number * string * number) :=
  match mirrorTarget user with
  | Some (sheetId, name) =>
      tab <- ensureUserTab sheetId name "UserTemplate" ;;
      today <- findBudgetToday sheetId tab (Some now) ;;
      match today with
      | Some row => ret (surplus row, food row, DateCells.price row)
      | None =>
          dailyBudget <- readDailyBudget sheetId tab ;;
          ret (dailyBudget - price, foodList, price)
      end
  | None => ret (24, foodList, price)
  end.

(** [(5 - day + 7) % 7 || 7]. *)
Definition daysToFriday (day : Z) : Z :=
  let add := ((5 - day + 7) mod 7)%Z in
  if (add =? 0)%Z then 7%Z else add.

Definition nextFriday (now : Z) : option string :=
  let d := Some now in
  day ← getDay d;
  dt ← getDate d;
  iso ← toISOString (setDate d (dt + daysToFriday day));
  Some (slice 0 10 iso).

Definition getDashboard (req : Request) (now : Z) (st : Store) (w : W)
    : Response * Store * W :=
  let failed (e : string) (w' : W) :=
    (Respond 500 (ErrorJson (messageOr e "Failed to load dashboard")), st, w') in
  let uid := requireUser req in
  let user := match uid with
              | Some u => user_findUnique st u
              | None => None
              end in
  match foodLog_findMany st (default "demo" uid) (dayStart now) (dayEnd now)
  with
  | Throw e => failed e w
  | Ok dayLogs =>
      let items := map itemOf dayLogs in
      let foodList0 := String.concat " | " (map item_food items) in
      let price0 := fold_left (fun s l => s + item_price l) items 0 in
      let '(r, w') := dashboardSheet user now foodList0 price0 w in
      let '(remaining, foodList, price) :=
        match r with
        | Ok v => v
        | Throw _ => (24, foodList0, price0)
        end in
      match nextFriday now with
      | None => failed "Invalid time value" w'
      | Some friday =>
          (Respond 200 (DashboardJson
             {| remainingDubyToday := remaining;
                entries := [{| entry_time := slice 0 10 (isoOfTime now);
                               entry_food := foodList;
                               entry_dubyCost := price |}];
                items := items;
                nextWeighIn := friday |}), st, w')
      end
  end.

End Handlers.
End Api.
Export Api.

(** *** An in-memory spreadsheet service

    A model of the service behind the client: tabs with the three areas the
    adapter touches (the general-info row 2, the progress table from A6 and
    the ledger from D6). [faults] schedules the outcome of the coming calls
    ([true]: the call fails), [insertAt] is where a duplicated tab lands, and
    [render] is how a cell's value shows when read formatted. *)

Module MemSheets.
Local Open Scope Z_scope.

Record Tab := {
  t_title : string; t_id : Z;
  t_info : list JsValue;
  t_progress : list (list JsValue);
  t_ledger : list (list JsValue)
}.

Record Doc := {
  tabs : list Tab;
  faults : list bool;
  insertAt : nat;
  render : JsValue -> JsValue
}.

Definition withTabs (d : Doc) (ts : list Tab) : Doc :=
  {| tabs := ts; faults := faults d; insertAt := insertAt d;
     render := render d |}.

Definition withFaults (d : Doc) (fs : list bool) : Doc :=
  {| tabs := tabs d; faults := fs; insertAt := insertAt d;
     render := render d |}.

(** One call to the service: it fails when the schedule says so. *)
Definition call {A} (f : Doc -> outcome A * Doc) : IO Doc A := fun d =>
  match faults d with
  | true :: fs => (Throw "The service is currently unavailable.", withFaults d fs)
  | false :: fs => f (withFaults d fs)
  | [] => f d
  end.

Inductive Region :=
| InfoRow | InfoBudget | Progress | Ledger | LedgerDates | LedgerRow (i : nat).

Definition regionOf (r : A1) : option Region :=
  let c1 := a1_c1 r in
  let c2 := a1_c2 r in
  let r1 := a1_r1 r in
  let r2 := a1_r2 r in
  if String.eqb c1 "A" && String.eqb c2 "H" && (r1 =? 2) && (r2 =? 2)
  then Some InfoRow
  else if String.eqb c1 "H" && String.eqb c2 "H" && (r1 =? 2) && (r2 =? 2)
  then Some InfoBudget
  else if String.eqb c1 "A" && String.eqb c2 "B" && (r1 =? 6) && (r2 =? 6)
  then Some Progress
  else if String.eqb c1 "D" && String.eqb c2 "H" && (r1 =? 6) && (r2 =? 1000)
  then Some Ledger
  else if String.eqb c1 "D" && String.eqb c2 "D" && (r1 =? 6) && (r2 =? 1000)
  then Some LedgerDates
  else if String.eqb c1 "D" && String.eqb c2 "H" && (r1 =? r2) && (6 <=? r1)
  then Some (LedgerRow (Z.to_nat (r1 - 6)))
  else None.

(** Position of the first tab with the title. *)
Fixpoint tabIndex (ts : list Tab) (title : string) : option nat :=
  match ts with
  | t :: rest =>
      if String.eqb (t_title t) title then Some 0%nat
      else S <$> tabIndex rest title
  | [] => None
  end.

Definition setTab (d : Doc) (k : nat) (t : Tab) : Doc :=
  withTabs d (<[k := t]> (tabs d)).

Definition withLedger (t : Tab) (rows : list (list JsValue)) : Tab :=
  {| t_title := t_title t; t_id := t_id t; t_info := t_info t;
     t_progress := t_progress t; t_ledger := rows |}.

Definition shown (d : Doc) (how : ValueRender) (v : JsValue) : JsValue :=
  match how with
  | FORMATTED_VALUE => render d v
  | UNFORMATTED_VALUE => v
  end.

(** A row put at position [i], the table growing with empty rows when [i] is
    past its end. *)
Definition putRow (i : nat) (row : list JsValue) (rows : list (list JsValue))
    : list (list JsValue) :=
  if (i <? length rows)%nat then <[i := row]> rows
  else rows ++ replicate (i - length rows) [] ++ [row].

Definition mem_spreadsheets_get (_ : string) : IO Doc (list SheetProps) :=
  call (fun d =>
    (Ok (map (fun t => {| sp_title := t_title t; sp_sheetId := t_id t |})
             (tabs d)), d)).

Definition mem_values_get (_ : string) (r : A1) (how : ValueRender)
    : IO Doc (list (list JsValue)) :=
  call (fun d =>
    match tabIndex (tabs d) (a1_tab r), regionOf r with
    | Some k, Some reg =>
        match tabs d !! k with
        | Some t =>
            let rows :=
              match reg with
              | InfoRow => [t_info t]
              | InfoBudget =>
                  match t_info t !! 7%nat with
                  | Some v => [[v]]
                  | None => []
                  end
              | Progress => take 1 (t_progress t)
              | Ledger => take 995 (t_ledger t)
              | LedgerDates => map (take 1) (take 995 (t_ledger t))
              | LedgerRow i =>
                  match t_ledger t !! i with
                  | Some row => [row]
                  | None => []
                  end
              end in
            (Ok (map (map (shown d how)) rows), d)
        | None => (Throw "Unable to parse range", d)
        end
    | _, _ => (Throw "Unable to parse range", d)
    end).

Definition mem_values_update (_ : string) (r : A1)
    (values : list (list JsValue)) : IO Doc unit :=
  call (fun d =>
    match tabIndex (tabs d) (a1_tab r), regionOf r, values with
    | Some k, Some reg, [row] =>
        match tabs d !! k, reg with
        | Some t, InfoRow =>
            (Ok tt, setTab d k
               {| t_title := t_title t; t_id := t_id t; t_info := row;
                  t_progress := t_progress t; t_ledger := t_ledger t |})
        | Some t, LedgerRow i =>
            (Ok tt, setTab d k (withLedger t (putRow i row (t_ledger t))))
        | _, _ => (Throw "Invalid update range", d)
        end
    | _, _, _ => (Throw "Unable to parse range", d)
    end).

(** Appending through an anchor in the first row of a table: the rows go after
    the table's last row. *)
Definition mem_values_append (_ : string) (r : A1)
    (values : list (list JsValue)) : IO Doc unit :=
  call (fun d =>
    match tabIndex (tabs d) (a1_tab r), regionOf r with
    | Some k, Some reg =>
        match tabs d !! k, reg with
        | Some t, Progress =>
            (Ok tt, setTab d k
               {| t_title := t_title t; t_id := t_id t; t_info := t_info t;
                  t_progress := t_progress t ++ values;
                  t_ledger := t_ledger t |})
        | Some t, LedgerRow 0 =>
            (Ok tt, setTab d k (withLedger t (t_ledger t ++ values)))
        | _, _ => (Throw "Invalid append range", d)
        end
    | _, _ => (Throw "Unable to parse range", d)
    end).

Definition freshSheetId (ts : list Tab) : Z :=
  1 + fold_right Z.max 0 (map t_id ts).

Definition mem_duplicateSheet (_ : string) (source : Z) (newName : string)
    : IO Doc unit :=
  call (fun d =>
    match List.find (fun t => t_id t =? source) (tabs d) with
    | Some t =>
        if existsb (fun t' => String.eqb (t_title t') newName) (tabs d)
        then (Throw "A sheet with that name already exists", d)
        else
          let copy := {| t_title := newName; t_id := freshSheetId (tabs d);
                         t_info := t_info t; t_progress := t_progress t;
                         t_ledger := t_ledger t |} in
          (Ok tt, withTabs d (take (insertAt d) (tabs d) ++ copy
                              :: drop (insertAt d) (tabs d)))
    | None => (Throw "No sheet with that id", d)
    end).

(** The titles [listSheetTitles] reports for a document. *)
Definition docTitles (d : Doc) : list string :=
  List.filter (fun t => negb (isEmptyStr t)) (map t_title (tabs d)).

#[export] Instance memSheets : SheetsApi Doc := {
  spreadsheets_get := mem_spreadsheets_get;
  values_get := mem_values_get;
  values_update := mem_values_update;
  values_append := mem_values_append;
  duplicateSheet := mem_duplicateSheet
}.

End MemSheets.
Export MemSheets.

(** *** A host and a world to run the model on *)

Module Samples.
Local Open Scope Z_scope.

Definition exactly (n : nat) (s : string) : bool :=
  (String.length s =? n)%nat.

(** A [Date.parse] that reads the date-only ISO form [YYYY-MM-DD] (as UTC
    midnight) and nothing else. *)
Definition isoDateOnly (s : string) : option Z :=
  let '(y, r1) := takeDigits s in
  match r1 with
  | String "-" r2 =>
      let '(m, r3) := takeDigits r2 in
      match r3 with
      | String "-" r4 =>
          let '(d, r5) := takeDigits r4 in
          let yy := digitsValue y in
          let mm := digitsValue m in
          let dd := digitsValue d in
          if exactly 4 y && exactly 2 m && exactly 2 d && isEmptyStr r5
             && (1 <=? mm) && (mm <=? 12) && (1 <=? dd)
             && (DaysFromCivil yy mm dd <? DaysFromCivil yy (mm + 1) 1)
          then Some (DaysFromCivil yy mm dd * msPerDay)
          else None
      | _ => None
      end
  | _ => None
  end.

(** Decimal integers to numbers and back; anything else is NaN. *)
Definition decimalToNumber (s : string) : number :=
  let '(ds, rest) := takeDigits s in
  if isEmptyStr s then 0%float
  else if isEmptyStr rest && (String.length ds <=? 15)%nat
  then Number_of_Z (digitsValue ds)
  else nan.

Definition numberToDecimal (x : number) : string :=
  match truncZ x with
  | Some z => pretty z
  | None => "NaN"
  end.

(** A store that takes the finite numbers for its DECIMAL columns. *)
Definition isFinite (x : number) : bool := negb (is_nan x || is_infinity x).

Fixpoint decimalDigits (fuel : nat) (q : Z) : Z :=
  match fuel with
  | S fuel' => if q <? 10 then 1 else 1 + decimalDigits fuel' (q / 10)
  | O => 1
  end.

(** The powers of ten up to [10^22], which are numbers exactly. *)
Definition pow10 (k : Z) : number :=
  if k <=? 18 then Number_of_Z (10 ^ k)
  else (Number_of_Z (10 ^ 18) * Number_of_Z (10 ^ (k - 18)))%float.

(** What a DECIMAL column that keeps 15 digits gives back for a number: the
    number nearest to its first 15 significant decimal digits (so that
    0.30000000000000004 comes back as 0.3). The sample does so for the
    magnitudes from [10^-6] up to [10^21] and leaves the others as they
    are. *)
Definition decimal15 (x : number) : number :=
  match Prim2SF x with
  | S754_finite sign m e =>
      let num := if 0 <=? e then Z.pos m * 2 ^ e else Z.pos m in
      let den := if 0 <=? e then 1 else 2 ^ (- e) in
      let q := num * 10 ^ 6 / den in
      let nd := decimalDigits 30 q in
      if (q =? 0) || (28 <? nd) then x else
      (* the leading digit stands for [10 ^ (nd - 7)]; [t] places are kept
         after the decimal point *)
      let t := 21 - nd in
      let D := if 0 <=? t then (2 * num * 10 ^ t + den) / (2 * den)
               else (2 * num + den * 10 ^ (- t)) / (2 * den * 10 ^ (- t)) in
      let '(D, t) := if 10 ^ 15 <=? D then (D / 10, t - 1) else (D, t) in
      let r := if 0 <=? t then (Number_of_Z D / pow10 t)%float
               else (Number_of_Z D * pow10 (- t))%float in
      if sign then (- r)%float else r
  | _ => x
  end.

(** Central European winter time, a key file configured, and session tokens
    that are the user's id in clear. *)
#[export] Instance sampleHost : Host := {
  LocalTZA := 3600000;
  Date_parse := isoDateOnly;
  StringToNumber := decimalToNumber;
  NumberToString := numberToDecimal;
  JSON_parse_ok := fun _ => true;
  jwt_verify := fun raw => Some raw;
  Decimal_accepts := isFinite;
  Decimal_read := decimal15;
  GOOGLE_SHEETS_ID := Some "sheet-1";
  GOOGLE_SERVICE_ACCOUNT_JSON := None;
  GOOGLE_APPLICATION_CREDENTIALS := Some "/etc/key.json"
}.



(** The same host with no spreadsheet configured. *)
Definition offlineHost : Host := {|
  LocalTZA := 3600000;
  Date_parse := isoDateOnly;
  StringToNumber := decimalToNumber;
  NumberToString := numberToDecimal;
  JSON_parse_ok := fun _ => true;
  jwt_verify := fun raw => Some raw;
  Decimal_accepts := isFinite;
  Decimal_read := decimal15;
  GOOGLE_SHEETS_ID := None;
  GOOGLE_SERVICE_ACCOUNT_JSON := None;
  GOOGLE_APPLICATION_CREDENTIALS := None
|}.

Local Open Scope float_scope.

Definition templateTab : Tab := {|
  t_title := "UserTemplate"; t_id := 7%Z;
  t_info := []; t_progress := []; t_ledger := []
|}.

Definition annTab : Tab := {|
  t_title := "Ann"; t_id := 8%Z;
  t_info := [JStr "Ann"; JNum 170; JNum 64; JStr "female"; JNum 30; JNum 60;
             JStr ""; JNum 110];
  t_progress := [];
  t_ledger := [[JStr "2024-03-13"; JNum 110; JStr "Rice 100g"; JNum 3; JNum 107];
               [JStr "14/3/2024"; JNum 110; JStr "Apple"; JNum 1; JNum 109]]
|}.

Definition sampleDoc : Doc := {|
  tabs := [templateTab; annTab]; faults := []; insertAt := 1%nat;
  render := fun v => v
|}.

(** Ann's tab with a long ledger: 995 rows of another day, in the rows 6 to
    1000 of the sheet, and the row of 14 March 2024 below them, in row 1001. *)
Definition longTab : Tab := {|
  t_title := "Ann"; t_id := 8%Z;
  t_info := t_info annTab;
  t_progress := [];
  t_ledger :=
    replicate 995 [JStr "2024-01-01"; JNum 110; JStr "Rice 100g"; JNum 3;
                   JNum 107]
    ++ [[JStr "2024-03-14"; JNum 110; JStr "Apple"; JNum 1; JNum 109]]
|}.

Definition longDoc : Doc := {|
  tabs := [templateTab; longTab]; faults := []; insertAt := 1%nat;
  render := fun v => v
|}.

(** A document with the template only, and one where a tab of another kind
    starts like Ann's. *)
Definition templateDoc : Doc := {|
  tabs := [templateTab]; faults := []; insertAt := 0%nat;
  render := fun v => v
|}.

Definition workDoc : Doc := {|
  tabs := [templateTab;
           {| t_title := "Ann (work)"; t_id := 9%Z; t_info := [];
              t_progress := []; t_ledger := [] |}];
  faults := []; insertAt := 1%nat; render := fun v => v
|}.

(** The template document after a first [ensureUserTab] for "Bob /Lee". *)
Definition bobDoc : Doc := {|
  tabs := [{| t_title := "Bob Lee"; t_id := 8%Z; t_info := [];
              t_progress := []; t_ledger := [] |};
           templateTab];
  faults := []; insertAt := 0%nat; render := fun v => v
|}.

(** 14 March 2024, 12:00 UTC. *)
Definition noon14 : Z := 1710417600000%Z.

Definition ann : User := {|
  u_id := "u1"; u_name := "Ann"; u_email := "ann@example.com";
  u_passwordHash := "h"
|}.

Definition apple : FoodItem := {|
  fi_id := "f1"; fi_name := "Apple"; fi_duby := 1; fi_unit := "piece"
|}.

Definition sampleStore : Store := {|
  users := [ann];
  profiles := [{| pr_userId := "u1"; pr_heightCm := 170;
                  pr_currentWeightKg := 64; pr_goalWeightKg := 60;
                  pr_targetDate := None; pr_gender := "female"; pr_age := 30;
                  pr_activityLevel := light; pr_dailyDubyBudget := 110 |}];
  foodItems := [apple];
  foodLogs := [{| fl_id := "l1"; fl_userId := "u1"; fl_foodItemId := "f1";
                  fl_portion := 6; fl_occurredAt := noon14;
                  fl_dubyCost := 6 |}];
  weightLogs := []; idSeed := 2%N
|}.

(** Ann alone: no profile, no food, no log. *)
Definition bareStore : Store := {|
  users := [ann]; profiles := []; foodItems := []; foodLogs := [];
  weightLogs := []; idSeed := 0%N
|}.

(** A document whose service fails the next call. *)
Definition downDoc : Doc := {|
  tabs := [templateTab; annTab]; faults := [true]; insertAt := 1%nat;
  render := fun v => v
|}.

Definition annRequest (fields : list (string * JsValue)) (id : string)
    : Request :=
  {| session := Some "u1"; body := Some fields; param_id := id |}.

(** Ann logs three portions of rice at 2 duby each. *)
Definition riceRequest : Request :=
  annRequest [("name", JStr "Rice"); ("duby", JNum 2); ("unit", JStr "100g");
              ("portion", JNum 3)] "".


Definition ricePosted : Response * Store * Doc :=
  postFoodLog (H := sampleHost) riceRequest noon14 sampleStore sampleDoc.

End Samples.
Export Samples.


(** *** Orders used in the properties *)

Module Orders.

(** An entry that is not later than another. *)
Definition notLater (a b : FoodLog) : Prop :=
  (fl_occurredAt a <= fl_occurredAt b)%Z.

End Orders.
Export Orders.

(** *** Views of the in-memory sheet *)

Module MemViews.

(** The row [writeGeneralInfo] sends for A2:H2. *)
Definition infoRow (info : GeneralInfo) : list JsValue :=
  [JStr (gi_name info); JNum (gi_heightCm info);
   JNum (gi_startWeightKg info); JStr (gi_gender info); JNum (gi_age info);
   JNum (gi_targetWeightKg info);
   JStr (match gi_targetDateIso info with Some s => s | None => "" end);
   match gi_dailyBudget info with Some b => JNum b | None => JStr "" end].

Definition withInfo (t : Tab) (row : list JsValue) : Tab :=
  {| t_title := t_title t; t_id := t_id t; t_info := row;
     t_progress := t_progress t; t_ledger := t_ledger t |}.

End MemViews.
Export MemViews.

(** *** Messages *)

Module Messages.

(** The error of [getSheetsClient]. *)
Definition missingCredentials : string :=
  "Missing credentials: set GOOGLE_SERVICE_ACCOUNT_JSON or "
  +:+ "GOOGLE_APPLICATION_CREDENTIALS".

End Messages.
Export Messages.


(** *** The client's base address ([frontend/src/api.ts]) *)

Module Client.

(** [s.endsWith(p)]: the last [p.length] characters of [s] are [p]. *)
Definition endsWith (s p : string) : bool :=
  (String.length p <=? String.length s)%nat
  && String.eqb (substring (String.length s - String.length p)
                           (String.length p) s) p.

Fixpoint allSlashes (s : string) : bool :=
  match s with
  | String c r => Ascii.eqb c "/" && allSlashes r
  | EmptyString => true
  end.

(** [s.replace(/\/+$/, '')]: the pattern matches at the first position from
    which slashes, and at least one, run to the end. *)
Fixpoint stripTrailingSlashes (s : string) : string :=
  match s with
  | String c r =>
      if Ascii.eqb c "/" && allSlashes r then EmptyString
      else String c (stripTrailingSlashes r)
  | EmptyString => EmptyString
  end.

(** [raw] and [baseURL], from the variable [VITE_API_BASE_URL]. *)
Definition rawBase (VITE_API_BASE_URL : option string) : string :=
  match VITE_API_BASE_URL with
  | Some s => if isEmptyStr s then "http://localhost:4000" else s
  | None => "http://localhost:4000"
  end.

Definition baseURL (VITE_API_BASE_URL : option string) : string :=
  let raw := rawBase VITE_API_BASE_URL in
  if endsWith raw "/api" then raw else stripTrailingSlashes raw +:+ "/api".

End Client.
Export Client.


(** *** The food list and the ledger as rows ([gsheets.ts]) *)

Module FoodSheet.

Record FoodRow := { fr_name : string; fr_duby : number; fr_unit : string }.

(** An A1 range that names no last row, as [A2:C], has this as its last
    row (rows count from 1). *)
Definition openEnd : Z := 0%Z.

(** [v ?? d]. *)
Definition nullish (v d : JsValue) : JsValue :=
  match v with
  | JUndefined | JNull => d
  | _ => v
  end.

(** [s.includes(q)]. *)
Fixpoint includesStr (s q : string) : bool :=
  String.prefix q s
  || match s with
     | String _ r => includesStr r q
     | EmptyString => false
     end.

Section Adapter.
Context `{Host} {W : Type} `{SheetsApi W}.
Local Open Scope io_scope.

(** The filter of [readFoodList]; a row is an array, which is truthy. *)
Definition keepsFoodRow (r : list JsValue) : bool :=
  (3 <=? length r)%nat
  && negb (isEmptyStr (trim (ToString (nullish (at_index r 0) (JStr ""))))).

Definition foodRowOf (r : list JsValue) : FoodRow :=
  {| fr_name := ToString (orElse (at_index r 0) (JStr ""));
     fr_duby := ToNumber (orElse (at_index r 1) (JNum 0%float));
     fr_unit := ToString (orElse (at_index r 2) (JStr "")) |}.

Definition readFoodList (spreadsheetId sheetName : string)
    : IO W (list FoodRow) :=
  rows <- readRange spreadsheetId (a1 sheetName "A" 2 "C" openEnd) ;;
  ret (map foodRowOf (List.filter keepsFoodRow rows)).

Definition searchFood (spreadsheetId query sheetName : string)
    : IO W (list FoodRow) :=
  let q := toLowerCase (trim query) in
  if isEmptyStr q then ret []
  else
    all <- readFoodList spreadsheetId sheetName ;;
    ret (take 10 (List.filter
                    (fun r => includesStr (toLowerCase (fr_name r)) q) all)).

Definition readBudgetRows (spreadsheetId tabTitle : string)
    : IO W (list BudgetRow) :=
  rows <- readRange spreadsheetId (a1 tabTitle "D" 6 "H" 1000) ;;
  ret (map budgetRowOf (List.filter (fun r => (0 <? length r)%nat) rows)).

End Adapter.

(** **** GET /api/food/search ([index.ts]) *)

Inductive ListAnswer :=
| RowsJson (rows : list FoodRow)
| FailJson (status : Z) (error : string).

Section Handlers.
Context `{Host} {W : Type} `{SheetsApi W}.

(** The handler of the search, [q] being [req.query.q]. *)
Definition getFoodSearch (q : JsValue) (w : W) : ListAnswer * W :=
  let q := ToString (orElse q (JStr "")) in
  match GOOGLE_SHEETS_ID with
  | Some sheetId =>
      if isEmptyStr sheetId then (RowsJson [], w)
      else match searchFood sheetId q "FoodList" w with
           | (Ok rows, w') => (RowsJson rows, w')
           | (Throw e, w') => (FailJson 500 e, w')
           end
  | None => (RowsJson [], w)
  end.

End Handlers.

End FoodSheet.
Export FoodSheet.


(** *** Accounts: the users' table of the sheet and of the store, and the
    handlers of /api/auth/register, /api/auth/login and /api/me
    ([gsheets.ts], [index.ts]) *)

Module Accounts.

(** What the libraries decide: [bcrypt.hash(password, 10)] with the salt it
    draws, [bcrypt.compare], [jwt.sign({ uid }, secret, { expiresIn: '7d' })]
    at an instant, and zod's test of an e-mail address. *)
Class Secrets := {
  bcrypt_hash : string -> string -> string;
  bcrypt_compare : string -> string -> bool;
  jwt_sign : Z -> string -> string;
  z_email : string -> bool
}.

Record SheetUser := {
  su_name : string; su_email : string; su_passwordHash : string
}.

Section Adapter.
Context `{Host} {W : Type} `{SheetsApi W}.
Local Open Scope io_scope.

(** One turn of the loop of [findUserByEmail]. *)
Definition sheetUserOf (r : list JsValue) : SheetUser :=
  {| su_name := trim (ToString (orElse (at_index r 0) (JStr "")));
     su_email :=
       toLowerCase (trim (ToString (orElse (at_index r 1) (JStr ""))));
     su_passwordHash := trim (ToString (orElse (at_index r 2) (JStr ""))) |}.

Fixpoint scanUsers (rows : list (list JsValue)) (email : string)
    : option SheetUser :=
  match rows with
  | r :: rest =>
      let u := sheetUserOf r in
      if negb (isEmptyStr (su_email u))
         && String.eqb (su_email u) (toLowerCase email)
      then Some u
      else scanUsers rest email
  | [] => None
  end.

Definition findUserByEmail (spreadsheetId email sheetName : string)
    : IO W (option SheetUser) :=
  rows <- readRange spreadsheetId (a1 sheetName "A" 2 "C" openEnd) ;;
  ret (scanUsers rows email).

Definition appendUser (spreadsheetId : string) (user : SheetUser)
    (sheetName : string) : IO W unit :=
  getSheetsClient ;;;
  values_append spreadsheetId (a1 sheetName "A" 2 "C" openEnd)
    [[JStr (su_name user); JStr (su_email user);
      JStr (su_passwordHash user)]].

End Adapter.

(** **** The users of the store (the Prisma client's calls) *)

Definition user_findByEmail (st : Store) (email : string) : option User :=
  List.find (fun u => String.eqb (u_email u) email) (users st).

Definition withUsers (st : Store) (us : list User) (seed : N) : Store :=
  {| users := us; profiles := profiles st; foodItems := foodItems st;
     foodLogs := foodLogs st; weightLogs := weightLogs st; idSeed := seed |}.

(** [user.create({ data: { name, email, passwordHash } })]: the address and
    the generated key must be new. *)
Definition user_create (name email passwordHash : string) : IO Store User :=
  fun st =>
    let u := {| u_id := freshId st; u_name := name; u_email := email;
                u_passwordHash := passwordHash |} in
    match user_findByEmail st email, user_findUnique st (freshId st) with
    | None, None => (Ok u, withUsers st (users st ++ [u]) (idSeed st + 1)%N)
    | Some _, _ =>
        (Throw "Unique constraint failed on the fields: (`email`)", st)
    | None, Some _ =>
        (Throw "Unique constraint failed on the fields: (`id`)", st)
    end.

(** [user.upsert({ where: { email }, update: { name, passwordHash },
    create: { name, email, passwordHash } })]. *)
Definition user_upsertByEmail (name email passwordHash : string)
    : IO Store User := fun st =>
  match user_findByEmail st email with
  | Some u =>
      let u' := {| u_id := u_id u; u_name := name; u_email := u_email u;
                   u_passwordHash := passwordHash |} in
      (Ok u',
       withUsers st
         (map (fun v => if String.eqb (u_email v) email then u' else v)
              (users st))
         (idSeed st))
  | None => user_create name email passwordHash st
  end.

Definition profile_findUnique (st : Store) (userId : string)
    : option Profile :=
  List.find (fun p => String.eqb (pr_userId p) userId) (profiles st).

(** [weightLog.findFirst({ where: { userId }, orderBy: { date: 'desc' } })]:
    a log of the user with the latest date (of several with that date, the
    one stored first). *)
Fixpoint latestOf (best : option WeightLog) (ls : list WeightLog)
    : option WeightLog :=
  match ls with
  | l :: rest =>
      latestOf (match best with
                | Some b => if (wl_date b <? wl_date l)%Z then Some l else best
                | None => Some l
                end) rest
  | [] => best
  end.

Definition weightLog_findLatest (st : Store) (userId : string)
    : option WeightLog :=
  latestOf None
    (List.filter (fun l => String.eqb (wl_userId l) userId) (weightLogs st)).

(** **** The schemas *)

Record RegisterInput := {
  rg_name : string; rg_email : string; rg_password : string
}.

Record LoginInput := { lg_email : string; lg_password : string }.

Section Schemas.
Context `{Secrets}.

Definition RegisterSchema (b : option (list (string * JsValue)))
    : option RegisterInput :=
  o ← b;
  n ← z_string (field o "name");
  _ ← check (1 <=? String.length n)%nat;
  e ← z_string (field o "email");
  _ ← check (z_email e);
  pw ← z_string (field o "password");
  _ ← check (6 <=? String.length pw)%nat;
  Some {| rg_name := n; rg_email := e; rg_password := pw |}.

Definition LoginSchema (b : option (list (string * JsValue)))
    : option LoginInput :=
  o ← b;
  e ← z_string (field o "email");
  _ ← check (z_email e);
  pw ← z_string (field o "password");
  _ ← check (1 <=? String.length pw)%nat;
  Some {| lg_email := e; lg_password := pw |}.

End Schemas.

(** **** The answers *)

Inductive CookieAction :=
| KeepCookie
| SetSession (token : string).

Record Me := {
  me_id : option string; me_name : option string; me_email : option string;
  me_profile : option Profile; me_lastWeightKg : option number
}.

Inductive AuthJson :=
| AuthError (error : string)
| AuthUser (id name email : string)
| MeJson (me : Me).

(** A status with a JSON body and what happens to the [session] cookie; or
    the handler's promise is rejected, outside any [try], with an error. *)
Inductive AuthResponse :=
| Answer (status : Z) (json : AuthJson) (cookie : CookieAction)
| Rejected (e : string).

Section Handlers.
Context `{Host} `{Secrets} {W : Type} `{SheetsApi W}.
Local Open Scope io_scope.

(** [setAuthCookie(res, userId)]. *)
Definition setAuthCookie (now : Z) (userId : string) : CookieAction :=
  SetSession (jwt_sign now userId).

(** [sheetId] when [hasSheetsAuth] holds. *)
Definition sheetsAuth : option string :=
  match GOOGLE_SHEETS_ID with
  | Some sheetId =>
      if negb (isEmptyStr sheetId)
         && (truthyEnv GOOGLE_SERVICE_ACCOUNT_JSON
             || truthyEnv GOOGLE_APPLICATION_CREDENTIALS)
      then Some sheetId else None
  | None => None
  end.

Definition userJson (u : User) : AuthJson :=
  AuthUser (u_id u) (u_name u) (u_email u).

(** **** POST /api/auth/register *)

Definition register (req : Request) (salt : string) (now : Z) (st : Store)
    (w : W) : AuthResponse * Store * W :=
  match RegisterSchema (body req) with
  | None => (Answer 400 (AuthError "Invalid input") KeepCookie, st, w)
  | Some p =>
      let name := rg_name p in
      let email := rg_email p in
      let passwordHash := bcrypt_hash salt (rg_password p) in
      match sheetsAuth with
      | Some sheetId =>
          match findUserByEmail sheetId email "Users" w with
          | (Throw e, w1) => (Rejected e, st, w1)
          | (Ok (Some _), w1) =>
              (Answer 409 (AuthError "Email already in use") KeepCookie, st, w1)
          | (Ok None, w1) =>
              match appendUser sheetId
                      {| su_name := name; su_email := email;
                         su_passwordHash := passwordHash |} "Users" w1 with
              | (Throw e, w2) => (Rejected e, st, w2)
              | (Ok _, w2) =>
                  let w3 :=
                    (swallow (duplicateUserTemplate sheetId name "UserTemplate"
                              ;;; ret tt) w2).2 in
                  match user_upsertByEmail name email passwordHash st with
                  | (Throw e, st') => (Rejected e, st', w3)
                  | (Ok user, st') =>
                      (Answer 201 (userJson user)
                         (setAuthCookie now (u_id user)), st', w3)
                  end
              end
          end
      | None =>
          match user_findByEmail st email with
          | Some _ =>
              (Answer 409 (AuthError "Email already in use") KeepCookie, st, w)
          | None =>
              match user_create name email passwordHash st with
              | (Throw e, st') => (Rejected e, st', w)
              | (Ok user, st') =>
                  (Answer 201 (userJson user)
                     (setAuthCookie now (u_id user)), st', w)
              end
          end
      end
  end.

(** **** POST /api/auth/login *)

Definition login (req : Request) (now : Z) (st : Store) (w : W)
    : AuthResponse * Store * W :=
  let refused := Answer 401 (AuthError "invalid credentials") KeepCookie in
  match LoginSchema (body req) with
  | None => (Answer 400 (AuthError "Invalid input") KeepCookie, st, w)
  | Some p =>
      let email := lg_email p in
      let password := lg_password p in
      match sheetsAuth with
      | Some sheetId =>
          match findUserByEmail sheetId email "Users" w with
          | (Throw e, w1) => (Rejected e, st, w1)
          | (Ok None, w1) => (refused, st, w1)
          | (Ok (Some u), w1) =>
              if negb (bcrypt_compare password (su_passwordHash u))
              then (refused, st, w1)
              else
                match user_upsertByEmail (su_name u) email
                        (su_passwordHash u) st with
                | (Throw e, st') => (Rejected e, st', w1)
                | (Ok user, st') =>
                    (Answer 200 (userJson user)
                       (setAuthCookie now (u_id user)), st', w1)
                end
          end
      | None =>
          match user_findByEmail st email with
          | None => (refused, st, w)
          | Some user =>
              if negb (bcrypt_compare password (u_passwordHash user))
              then (refused, st, w)
              else (Answer 200 (userJson user)
                      (setAuthCookie now (u_id user)), st, w)
          end
      end
  end.

(** **** GET /api/me *)

Definition getMe (req : Request) (st : Store) : AuthResponse :=
  match requireUser req with
  | None => Answer 401 (AuthError "unauthorized") KeepCookie
  | Some uid =>
      let user := user_findUnique st uid in
      let last := weightLog_findLatest st uid in
      Answer 200
        (MeJson {| me_id := u_id <$> user; me_name := u_name <$> user;
                   me_email := u_email <$> user;
                   me_profile := match user with
                                 | Some _ => profile_findUnique st uid
                                 | None => None
                                 end;
                   me_lastWeightKg :=
                     (fun l => Decimal_read (wl_weightKg l)) <$> last |})
        KeepCookie
  end.

End Handlers.

End Accounts.
Export Accounts.


(** *** More of the sample world: the tables of the sheet, secrets,
    requests *)

Module MoreSamples.
Local Open Scope float_scope.

(** A sheet with the two tables [FoodList] and [Users], each from its row 2
    on; strings written raw show as they were written. *)
Record Tables := { foodList : list (list JsValue); usersTable : list (list JsValue) }.

Definition tableOf (r : A1) (t : Tables) : outcome (list (list JsValue)) :=
  if String.eqb (a1_c1 r) "A" && String.eqb (a1_c2 r) "C"
     && (a1_r1 r =? 2)%Z && (a1_r2 r =? openEnd)%Z
  then if String.eqb (a1_tab r) "FoodList" then Ok (foodList t)
       else if String.eqb (a1_tab r) "Users" then Ok (usersTable t)
       else Throw "Unable to parse range"
  else Throw "Unable to parse range".

#[export] Instance tableSheets : SheetsApi Tables := {
  spreadsheets_get := fun _ t =>
    (Ok [{| sp_title := "FoodList"; sp_sheetId := 1%Z |};
         {| sp_title := "Users"; sp_sheetId := 2%Z |}], t);
  values_get := fun _ r _ t => (tableOf r t, t);
  values_update := fun _ _ _ t => (Throw "Invalid update range", t);
  values_append := fun _ r values t =>
    match tableOf r t with
    | Ok _ =>
        if String.eqb (a1_tab r) "Users"
        then (Ok tt, {| foodList := foodList t;
                        usersTable := usersTable t ++ values |})
        else (Ok tt, {| foodList := foodList t ++ values;
                        usersTable := usersTable t |})
    | Throw e => (Throw e, t)
    end;
  duplicateSheet := fun _ _ _ t => (Throw "No sheet with that id", t)
}.

Definition pantry : Tables := {|
  foodList := [[JStr "Apple"; JNum 1; JStr "piece"];
               [JStr "Rice"; JNum 2; JStr "100g"];
               [JStr " "; JNum 9; JStr "?"];
               [JStr "Pineapple juice"; JNum 3; JStr "glass"];
               [JStr "Bread"; JNum 2]];
  usersTable := [[JStr "Ann"; JStr "Ann@Example.com "; JStr "salt:secret1"]]
|}.

(** Hashes that show the salt and the password, tokens that are the user's
    id in clear, and addresses that hold an at-sign. *)
#[export] Instance sampleSecrets : Secrets := {
  bcrypt_hash := fun salt password => salt +:+ ":" +:+ password;
  bcrypt_compare := fun password hash => endsWith hash (":" +:+ password);
  jwt_sign := fun _ uid => uid;
  z_email := fun s => includesStr s "@"
}.

(** The sample host with its key file taken away. *)
Definition keylessHost : Host := {|
  LocalTZA := 3600000;
  Date_parse := isoDateOnly;
  StringToNumber := decimalToNumber;
  NumberToString := numberToDecimal;
  JSON_parse_ok := fun _ => true;
  jwt_verify := fun raw => Some raw;
  Decimal_accepts := isFinite;
  Decimal_read := decimal15;
  GOOGLE_SHEETS_ID := Some "sheet-1";
  GOOGLE_SERVICE_ACCOUNT_JSON := None;
  GOOGLE_APPLICATION_CREDENTIALS := None
|}.

Definition anonRequest (fields : list (string * JsValue)) : Request :=
  {| session := None; body := Some fields; param_id := "" |}.

(** Bob registers, and signs in. *)
Definition bobRegisters : Request :=
  anonRequest [("name", JStr "Bob"); ("email", JStr "bob@example.com");
               ("password", JStr "hunter22")].

Definition bobSignsIn : Request :=
  anonRequest [("email", JStr "bob@example.com");
               ("password", JStr "hunter22")].

(** A store in which the address of the demo user belongs to Dan. *)
Definition danStore : Store := {|
  users := [{| u_id := "u7"; u_name := "Dan"; u_email := "demo@example.com";
               u_passwordHash := "h" |}];
  profiles := []; foodItems := []; foodLogs := []; weightLogs := [];
  idSeed := 0%N
|}.

(** Ann logs tea at a time that is no date, and her weight. *)
Definition teaRequest : Request :=
  annRequest [("name", JStr "Tea"); ("duby", JNum 0); ("unit", JStr "cup");
              ("portion", JNum 1); ("occurred_at", JStr "soon")] "".

Definition teaInput : FoodLogInput := {|
  fl_name := "Tea"; fl_duby := 0; fl_unit := "cup"; fl_portion_in := 1;
  fl_occurred_at := Some "soon"
|}.

(** Ann saves her profile. *)
Definition profileRequest : Request :=
  annRequest [("height_cm", JNum 170); ("current_weight_kg", JNum 64);
              ("goal_weight_kg", JNum 60); ("gender", JStr "female");
              ("age", JNum 30); ("activity_level", JStr "light")] "".

(** Ann, who is in the sheet, registers again and signs in, spelling her
    address her own way. *)
Definition annRegisters : Request :=
  anonRequest [("name", JStr "Ann"); ("email", JStr "ANN@EXAMPLE.COM");
               ("password", JStr "secret1")].

Definition annSignsIn : Request :=
  anonRequest [("email", JStr "Ann@Example.com");
               ("password", JStr "secret1")].

Definition weighRequest : Request := annRequest [("weight_kg", JNum 63.5)] "".

Definition weighInput : WeightLogInput :=
  {| wl_weight_kg := 63.5; wl_date_in := None |}.

End MoreSamples.
Export MoreSamples.

(* ===================================================================== *)
(** ** Part II. Properties                                                *)
(* ===================================================================== *)

Section BudgetFacts.
Local Open Scope float_scope.

Lemma toLowerChar_is_m (c : ascii) :
  Ascii.eqb (toLowerChar c) "m" = (Ascii.eqb c "m" || Ascii.eqb c "M")%char.
Proof.
  destruct c as [[] [] [] [] [] [] [] []]; vm_compute; reflexivity.
Qed.

Lemma isMale_first_char (gender : string) :
  startsWith (toLowerCase gender) "m" = spec_first_is_m gender.
Proof.
  destruct gender as [|c r]; [reflexivity|].
  unfold startsWith; cbn [toLowerCase String.prefix spec_first_is_m].
  rewrite <- toLowerChar_is_m.
  destruct (Ascii.eqb_spec (toLowerChar c) "m") as [->|Hne].
  - destruct (ascii_dec "m" "m"); [|congruence].
    destruct (toLowerCase r); reflexivity.
  - destruct (ascii_dec "m" (toLowerChar c)); [congruence|reflexivity].
Qed.

Ltac split_buckets age heightCm weightKg :=
  destruct (90 <=? weightKg); [|destruct (75 <=? weightKg);
    [|destruct (60 <=? weightKg)]];
  (destruct (175 <=? heightCm); [|destruct (160 <=? heightCm)]);
  (destruct (age <? 26); [|destruct (age <? 37);
    [|destruct (age <? 47); [|destruct (age <? 58)]]]).

Lemma estimateWWPoints_spec gender age heightCm weightKg :
  estimateWWPoints gender age heightCm weightKg
  = spec_score gender age heightCm weightKg.
Proof.
  unfold estimateWWPoints, spec_score.
  rewrite isMale_first_char.
  destruct (spec_first_is_m gender);
    split_buckets age heightCm weightKg; vm_compute; reflexivity.
Qed.

Lemma score_positive gender age heightCm weightKg :
  let s := estimateWWPoints gender age heightCm weightKg in
  truthy s && (0 <? s) = true.
Proof.
  unfold estimateWWPoints.
  destruct (startsWith (toLowerCase gender) "m");
    split_buckets age heightCm weightKg; vm_compute; reflexivity.
Qed.

(** C1. For every profile input the heuristic score is the sum of the four
    buckets of the specification (15 or 7 by the first character of the
    gender, case-insensitively; weight; height; age), and the daily budget is
    [score * 9 + 2] when the score is positive and
    [round(BMR * activity_factor / 300)] otherwise. For a male of 30 years,
    175 cm and 80 kg with light activity the score is 24 and the budget 218. *)
Theorem C1_daily_budget (gender : string) (age heightCm weightKg : number)
    (activity : ActivityLevel) :
  estimateWWPoints gender age heightCm weightKg
    = spec_score gender age heightCm weightKg
  /\ (forall bmr : number,
        computeDailyDuby bmr activity
          (Some (estimateWWPoints gender age heightCm weightKg))
        = let score := spec_score gender age heightCm weightKg in
          if 0 <? score then score * 9 + 2
          else Math_round (bmr * spec_activity_factor activity / 300))
  /\ dailyOf gender age heightCm weightKg activity
     = spec_budget gender age heightCm weightKg activity
  /\ estimateWWPoints "male" 30 175 80 = 24
  /\ dailyOf "male" 30 175 80 light = 218.
Proof.
  assert (Hany : forall bmr : number,
    computeDailyDuby bmr activity
      (Some (estimateWWPoints gender age heightCm weightKg))
    = let score := spec_score gender age heightCm weightKg in
      if 0 <? score then score * 9 + 2
      else Math_round (bmr * spec_activity_factor activity / 300)).
  { intros bmr. rewrite estimateWWPoints_spec.
    unfold computeDailyDuby, spec_score.
    destruct (spec_first_is_m gender);
      split_buckets age heightCm weightKg; vm_compute; reflexivity. }
  split; [apply estimateWWPoints_spec|].
  split; [exact Hany|].
  split; [unfold dailyOf, spec_budget; apply Hany|].
  split; vm_compute; reflexivity.
Qed.

(** C2. For every gender string and every age, height and weight above zero
    the heuristic score is strictly positive, so [computeDailyDuby] returns
    [score * 9 + 2] and never reaches the BMR fallback. *)
Theorem C2_score_positive (gender : string) (age heightCm weightKg : number) :
  (0 <? age) = true -> (0 <? heightCm) = true -> (0 <? weightKg) = true ->
  (0 <? estimateWWPoints gender age heightCm weightKg) = true
  /\ forall (bmr : number) (activity : ActivityLevel),
       computeDailyDuby bmr activity
         (Some (estimateWWPoints gender age heightCm weightKg))
       = estimateWWPoints gender age heightCm weightKg * 9 + 2.
Proof.
  intros _ _ _.
  pose proof (score_positive gender age heightCm weightKg) as Hpos.
  cbv zeta in Hpos. apply andb_prop in Hpos as [Ht Hp].
  split; [exact Hp|].
  intros bmr activity. unfold computeDailyDuby. rewrite Ht, Hp. reflexivity.
Qed.

Lemma C2_score_positive_witness :
  (0 <? estimateWWPoints "female" 61 150 48) = true
  /\ forall (bmr : number) (activity : ActivityLevel),
       computeDailyDuby bmr activity
         (Some (estimateWWPoints "female" 61 150 48))
       = estimateWWPoints "female" 61 150 48 * 9 + 2.
Proof.
  apply (C2_score_positive "female" 61 150 48); reflexivity.
Defined.

(** The profile schema enforces the ranges: a body it accepts has a positive
    age, height and weight. *)
Lemma ProfileSchema_ranges (b : option (list (string * JsValue)))
    (p : ProfileInput) :
  ProfileSchema b = Some p ->
  (0 <? Api.age p) = true /\ (0 <? height_cm p) = true
  /\ (0 <? current_weight_kg p) = true.
Proof.
  unfold ProfileSchema, check. intros Hp.
  repeat match type of Hp with
  | context [mbind _ ?m] =>
      let E := fresh "E" in destruct m eqn:E; cbn in Hp; [|discriminate]
  | context [if ?c then _ else _] =>
      let E := fresh "E" in destruct c eqn:E; cbn in Hp; [|discriminate]
  end.
  injection Hp as <-; cbn.
  repeat match goal with
  | H : (if ?c then Some () else None) = Some _ |- _ =>
      destruct c eqn:?; [clear H|discriminate H]
  end.
  repeat match goal with
  | H : (_ && _) = true |- _ => apply andb_prop in H as [? ?]
  end.
  auto.
Qed.

End BudgetFacts.


Section DateFacts.
Context `{Host}.
Local Open Scope Z_scope.

Lemma strictEq_true (x y : option Z) :
  strictEq x y = true <-> exists v, x = Some v /\ y = Some v.
Proof.
  destruct x as [a|], y as [b|]; cbn; split;
    try discriminate; try (intros [v [? ?]]; discriminate).
  - intros E. apply Z.eqb_eq in E. subst. eauto.
  - intros [v [E1 E2]]. injection E1 as E1. injection E2 as E2. subst.
    apply Z.eqb_refl.
Qed.

(** [sameDay] holds exactly for two valid dates with the same local year,
    month and day of the month. *)
Lemma sameDay_true (a b : Date) :
  sameDay a b = true <->
  exists y m d,
    getFullYear a = Some y /\ getFullYear b = Some y
    /\ getMonth a = Some m /\ getMonth b = Some m
    /\ getDate a = Some d /\ getDate b = Some d.
Proof.
  unfold sameDay. rewrite !andb_true_iff, !strictEq_true. split.
  - intros [[[y [? ?]] [m [? ?]]] [d [? ?]]]. exists y, m, d.
    repeat split; assumption.
  - intros (y & m & d & ? & ? & ? & ? & ? & ?). eauto 10.
Qed.

Lemma sameDay_of_same_local_day (ta tb : Z) :
  Day (LocalTime ta) = Day (LocalTime tb) ->
  sameDay (Some ta) (Some tb) = true.
Proof.
  intros E. apply sameDay_true.
  exists (YearFromTime (LocalTime ta)), (MonthFromTime (LocalTime ta)),
    (DateFromTime (LocalTime ta)).
  cbn. unfold YearFromTime, MonthFromTime, DateFromTime. rewrite E.
  repeat split; reflexivity.
Qed.


(** The scan returns the first row whose date cell is the target day. *)
Lemma scanBudgetToday_first (rows : list (list JsValue)) (today : Date) :
  match scanBudgetToday rows today with
  | Some row =>
      exists pre r post,
        rows = pre ++ r :: post
        /\ Forall (fun r' => cellIsDay (at_index r' 0) today = false) pre
        /\ cellIsDay (at_index r 0) today = true
        /\ row = budgetRowOf r
  | None => Forall (fun r => cellIsDay (at_index r 0) today = false) rows
  end.
Proof.
  induction rows as [|r rest IH]; cbn.
  - constructor.
  - destruct (cellIsDay (at_index r 0) today) eqn:E.
    + exists [], r, rest. auto.
    + destruct (scanBudgetToday rest today) as [row|].
      * destruct IH as (pre & r0 & post & -> & Hpre & Hr & ->).
        exists (r :: pre), r0, post. auto.
      * constructor; assumption.
Qed.

Lemma ToString_JStr_or_empty (s : string) :
  ToString (orElse (JStr s) (JStr "")) = s.
Proof. destruct s; reflexivity. Qed.

Lemma parse_string_native (s : string) (t : Z) :
  isEmptyStr s = false -> Date_of_string s = Some t ->
  parseAnyDateValue (JStr s) = Some (Some t).
Proof.
  intros Hs Ht. unfold parseAnyDateValue.
  rewrite ToString_JStr_or_empty, Hs, Ht. reflexivity.
Qed.





Lemma TimeClip_in_range (t : Z) :
  Z.abs t <= 8640000000000000 -> TimeClip t = Some t.
Proof.
  intros Ht. unfold TimeClip.
  destruct (Z.ltb_spec 8640000000000000 (Z.abs t)); [lia|reflexivity].
Qed.


(** A value that is no number parses to [null] or to a valid date. *)
Lemma parse_other_valid (v : JsValue) :
  (forall n, v <> JNum n) ->
  parseAnyDateValue v = None \/ exists t, parseAnyDateValue v = Some (Some t).
Proof.
  intros Hv. unfold parseAnyDateValue.
  destruct v as [| |bb|n|s|str]; try (exfalso; eapply Hv; reflexivity);
    match goal with
    | |- context [isEmptyStr ?x] => destruct (isEmptyStr x); [left; reflexivity|]
    end;
    match goal with
    | |- context [Date_of_string ?x] =>
        destruct (Date_of_string x) as [t|];
          [right; exists t; reflexivity|cbn [isNaN_Date negb]]
    end;
    match goal with
    | |- context [matchSlashDate ?x] =>
        destruct (matchSlashDate x) as [[[a b] c]|]; [|left; reflexivity]
    end;
    (destruct (Date_of_ymd _ (b - 1) a) as [t|];
       [right; exists t; reflexivity|cbn [isNaN_Date negb]]);
    (destruct (Date_of_ymd _ (a - 1) b) as [t|];
       [right; exists t; reflexivity|left; reflexivity]).
Qed.

(** C10, at the input where the code departs from it. The number path of
    [parseAnyDateValue] has no validity check: a numeric cell holding an
    epoch-milliseconds timestamp yields a Date whose time value is NaN (an
    Invalid Date), not [null] and not a valid date; so does NaN itself. *)
Lemma C10_invalid_date_from_number :
  parseAnyDateValue (JNum 1700000000000%float) = Some None
  /\ parseAnyDateValue (JNum nan) = Some None.
Proof. split; vm_compute; reflexivity. Qed.

End DateFacts.

Section SlashDateFacts.
Context `{Host}.
Local Open Scope Z_scope.







End SlashDateFacts.

Section CalendarFacts.
Local Open Scope Z_scope.

(** Within a 400-year era the year of the era is one of 0..399 and the day of
    that year one of 0..365. *)
Lemma eraDay_ranges (doe : Z) :
  0 <= doe <= 146096 ->
  let yoe := (doe - doe / 1460 + doe / 36524 - doe / 146096) / 365 in
  0 <= yoe <= 399 /\ 0 <= doe - (365 * yoe + yoe / 4 - yoe / 100) <= 365.
Proof.
  intros Hdoe. cbv zeta.
  assert (Hq : doe / 146096 = 0 \/ doe / 146096 = 1)
    by (Z.div_mod_to_equations; lia).
  assert (Hc : doe / 36524 = 0 \/ doe / 36524 = 1 \/ doe / 36524 = 2
               \/ doe / 36524 = 3 \/ doe / 36524 = 4)
    by (Z.div_mod_to_equations; lia).
  destruct Hq as [Hq|Hq]; destruct Hc as [Hc|[Hc|[Hc|[Hc|Hc]]]];
    revert Hq Hc; Z.div_mod_to_equations; lia.
Qed.

(** [DaysFromCivil] undoes [CivilFromDays]. *)
Lemma DaysFromCivil_CivilFromDays (z : Z) :
  DaysFromCivil (CivilFromDays z).1.1 (CivilFromDays z).1.2 (CivilFromDays z).2
  = z.
Proof.
  unfold CivilFromDays. cbv zeta. cbn [fst snd].
  set (era := (z + 719468) / 146097).
  set (doe := z + 719468 - era * 146097).
  assert (Hdoe : 0 <= doe <= 146096)
    by (subst doe era; Z.div_mod_to_equations; lia).
  destruct (eraDay_ranges doe Hdoe) as [Hy Hd].
  set (yoe := (doe - doe / 1460 + doe / 36524 - doe / 146096) / 365) in *.
  set (doy := doe - (365 * yoe + yoe / 4 - yoe / 100)) in *.
  set (mp := (5 * doy + 2) / 153).
  assert (Hmp : 0 <= mp <= 11) by (subst mp; Z.div_mod_to_equations; lia).
  unfold DaysFromCivil.
  destruct (mp <? 10) eqn:E;
    [apply Z.ltb_lt in E | apply Z.ltb_ge in E].
  - replace (mp + 3 <=? 2) with false by (symmetry; apply Z.leb_gt; lia).
    replace (2 <? mp + 3) with true by (symmetry; apply Z.ltb_lt; lia).
    cbv beta iota zeta.
    replace ((yoe + era * 400) / 400) with era
      by (Z.div_mod_to_equations; lia).
    replace (yoe + era * 400 - era * 400) with yoe by lia.
    replace (mp + 3 - 3) with mp by lia.
    subst doy. clearbody mp yoe. subst doe. clearbody era. lia.
  - replace (mp - 9 <=? 2) with true by (symmetry; apply Z.leb_le; lia).
    replace (2 <? mp - 9) with false by (symmetry; apply Z.ltb_ge; lia).
    cbv beta iota zeta.
    replace (yoe + era * 400 + 1 - 1) with (yoe + era * 400) by lia.
    replace ((yoe + era * 400) / 400) with era
      by (Z.div_mod_to_equations; lia).
    replace (yoe + era * 400 - era * 400) with yoe by lia.
    replace (mp - 9 + 9) with mp by lia.
    subst doy. clearbody mp yoe. subst doe. clearbody era. lia.
Qed.

Lemma CivilFromDays_ranges (z : Z) :
  1 <= (CivilFromDays z).1.2 <= 12 /\ 1 <= (CivilFromDays z).2 <= 31.
Proof.
  unfold CivilFromDays. cbn [fst snd].
  destruct (_ <? 10) eqn:E; [apply Z.ltb_lt in E | apply Z.ltb_ge in E];
  revert E; Z.div_mod_to_equations; lia.
Qed.

Lemma DaysFromCivil_day (y m d : Z) :
  DaysFromCivil y m d = DaysFromCivil y m 1 + d - 1.
Proof. unfold DaysFromCivil. cbv zeta. lia. Qed.

(** Counting [k] days on from the date of a day number gives the day number
    [k] later: [MakeDay] carries the overflow of the day of the month. *)
Lemma MakeDay_add_days (z k : Z) :
  MakeDay (CivilFromDays z).1.1 ((CivilFromDays z).1.2 - 1)
          ((CivilFromDays z).2 + k)
  = z + k.
Proof.
  pose proof (CivilFromDays_ranges z) as [Hm _].
  pose proof (DaysFromCivil_CivilFromDays z) as Hz.
  rewrite DaysFromCivil_day in Hz.
  unfold MakeDay. cbv zeta.
  replace (((CivilFromDays z).1.2 - 1) / 12) with 0
    by (Z.div_mod_to_equations; lia).
  replace (((CivilFromDays z).1.2 - 1) mod 12 + 1) with (CivilFromDays z).1.2
    by (Z.div_mod_to_equations; lia).
  rewrite Z.add_0_r. lia.
Qed.

End CalendarFacts.

Section LocateFacts.
Context `{Host}.
Local Open Scope Z_scope.

Lemma CivilFromDays_inj (x y : Z) :
  CivilFromDays x = CivilFromDays y -> x = y.
Proof.
  intros E. rewrite <- (DaysFromCivil_CivilFromDays x),
    <- (DaysFromCivil_CivilFromDays y), E. reflexivity.
Qed.

(** Two valid dates are the same day exactly when their local day numbers
    are equal. *)
Lemma sameDay_iff_Day (x y : Z) :
  sameDay (Some x) (Some y) = true <-> Day (LocalTime x) = Day (LocalTime y).
Proof.
  split; [|apply sameDay_of_same_local_day].
  intros Hs. apply sameDay_true in Hs
    as (yy & m & d & Hy1 & Hy2 & Hm1 & Hm2 & Hd1 & Hd2).
  unfold getFullYear, getMonth, getDate in *.
  cbn [mbind option_bind] in *.
  injection Hy1 as Hy1. injection Hy2 as Hy2. injection Hm1 as Hm1.
  injection Hm2 as Hm2. injection Hd1 as Hd1. injection Hd2 as Hd2.
  unfold YearFromTime, MonthFromTime, DateFromTime in *.
  apply CivilFromDays_inj.
  destruct (CivilFromDays (Day (LocalTime x))) as [[y1 m1] d1].
  destruct (CivilFromDays (Day (LocalTime y))) as [[y2 m2] d2].
  cbn [fst snd] in *. f_equal; [f_equal|]; lia.
Qed.





End LocateFacts.


Section SanitizeFacts.

Lemma substring_0_length (m : nat) (s : string) :
  (m <= String.length s)%nat -> String.length (substring 0 m s) = m.
Proof.
  revert s. induction m as [|m IH]; intros s Hm.
  - destruct s; reflexivity.
  - destruct s as [|c r]; cbn in *; [lia|]. rewrite IH; [reflexivity|lia].
Qed.

Lemma isEmptyStr_false_length (s : string) :
  isEmptyStr s = false <-> (0 < String.length s)%nat.
Proof. destruct s; cbn; split; intros; try lia; congruence. Qed.

(** The sanitised title is never empty and never longer than 80. *)
Lemma sanitizeSheetTitle_length (input : string) :
  (0 < String.length (sanitizeSheetTitle input) <= 80)%nat.
Proof.
  unfold sanitizeSheetTitle.
  set (t := trim (collapseSpaces false (replaceForbidden input))).
  set (t' := if isEmptyStr t then "User" else t).
  assert (Hpos : (0 < String.length t')%nat).
  { subst t'. destruct (isEmptyStr t) eqn:E; [cbn; lia|].
    apply isEmptyStr_false_length. exact E. }
  cbv zeta. destruct (Nat.ltb_spec 80 (String.length t')) as [Hlt|Hle].
  - unfold slice. rewrite Nat.min_l by lia. rewrite Nat.sub_0_r.
    rewrite substring_0_length by lia. lia.
  - lia.
Qed.

Lemma sanitizeSheetTitle_nonempty (input : string) :
  isEmptyStr (sanitizeSheetTitle input) = false.
Proof.
  apply isEmptyStr_false_length. apply sanitizeSheetTitle_length.
Qed.

Lemma allChars_rev_app (P : ascii -> bool) (s1 s2 : string) :
  allChars P s1 -> allChars P s2 -> allChars P (String.rev_app s1 s2).
Proof.
  revert s2. induction s1 as [|c r IH]; intros s2 H1 H2; cbn in *.
  - exact H2.
  - destruct H1 as [Hc Hr]. apply IH; cbn; auto.
Qed.

Lemma allChars_dropSpaces (P : ascii -> bool) (s : string) :
  allChars P s -> allChars P (dropSpaces s).
Proof.
  induction s as [|c r IH]; cbn; [auto|].
  intros [Hc Hr]. destruct (isSpace c); cbn; auto.
Qed.

Lemma allChars_trim (P : ascii -> bool) (s : string) :
  allChars P s -> allChars P (trim s).
Proof.
  intros Hs. unfold trim, String.rev.
  apply allChars_rev_app; [|exact I].
  apply allChars_dropSpaces. apply allChars_rev_app; [|exact I].
  apply allChars_dropSpaces. exact Hs.
Qed.

Lemma allChars_substring (P : ascii -> bool) (s : string) (n m : nat) :
  allChars P s -> allChars P (substring n m s).
Proof.
  revert n m. induction s as [|c r IH]; intros n m Hs.
  - destruct n, m; exact I.
  - destruct Hs as [Hc Hr]. destruct n as [|n]; cbn.
    + destruct m as [|m]; cbn; auto.
    + auto.
Qed.

Lemma allChars_replaceForbidden (s : string) :
  allChars allowed (replaceForbidden s).
Proof.
  induction s as [|c r IH]; cbn; [exact I|]. split; [|exact IH].
  unfold allowed. destruct (isForbidden c) eqn:E; [reflexivity|].
  rewrite E. reflexivity.
Qed.

Lemma allChars_collapseSpaces (P : ascii -> bool) (inRun : bool) (s : string) :
  P " "%char = true -> allChars P s -> allChars P (collapseSpaces inRun s).
Proof.
  intros Hsp. revert inRun. induction s as [|c r IH]; intros inRun Hs; cbn.
  - exact I.
  - destruct Hs as [Hc Hr]. destruct (isSpace c), inRun; cbn; auto.
Qed.

(** No forbidden character survives. *)
Lemma sanitizeSheetTitle_allowed (input : string) :
  allChars allowed (sanitizeSheetTitle input).
Proof.
  unfold sanitizeSheetTitle. cbv zeta.
  set (t := trim (collapseSpaces false (replaceForbidden input))).
  assert (Ht : allChars allowed t).
  { apply allChars_trim, allChars_collapseSpaces; [reflexivity|].
    apply allChars_replaceForbidden. }
  assert (Ht' : allChars allowed (if isEmptyStr t then "User" else t)).
  { destruct (isEmptyStr t); [cbn; tauto|exact Ht]. }
  destruct (80 <? _)%nat; [|exact Ht'].
  apply allChars_substring. exact Ht'.
Qed.

End SanitizeFacts.

Section TitleFacts.

Lemma includes_In (titles : list string) (t : string) :
  includes titles t = true <-> In t titles.
Proof.
  unfold includes. rewrite existsb_exists. split.
  - intros [x [Hx E]]. apply String.eqb_eq in E. subst. exact Hx.
  - intros Hin. exists t. split; [exact Hin|apply String.eqb_refl].
Qed.

Lemma append_char_inj (s1 s2 : string) (c : ascii) :
  s1 +:+ String c "" = s2 +:+ String c "" -> s1 = s2.
Proof.
  revert s2. induction s1 as [|a r IH]; intros [|b r2] E; cbn in E.
  - reflexivity.
  - injection E as _ E. destruct r2; discriminate E.
  - injection E as _ E. destruct r; discriminate E.
  - injection E as -> E. f_equal. apply IH. exact E.
Qed.

Lemma numbered_inj (base : string) (i j : N) :
  numbered base i = numbered base j -> i = j.
Proof.
  unfold numbered. intros E.
  apply (inj (String.app base)) in E.
  apply (inj (String.app " (")) in E.
  apply append_char_inj in E.
  apply (inj pretty). exact E.
Qed.

Lemma length_append (s1 s2 : string) :
  String.length (s1 +:+ s2) = (String.length s1 + String.length s2)%nat.
Proof.
  induction s1 as [|c r IH]; [reflexivity|].
  change (S (String.length (r +:+ s2))
          = S (String.length r + String.length s2)).
  rewrite IH. reflexivity.
Qed.

Lemma append_assoc (s1 s2 s3 : string) :
  (s1 +:+ s2) +:+ s3 = s1 +:+ (s2 +:+ s3).
Proof.
  induction s1 as [|c r IH]; [reflexivity|].
  change (String c ((r +:+ s2) +:+ s3) = String c (r +:+ (s2 +:+ s3))).
  rewrite IH. reflexivity.
Qed.

Lemma numbered_longer (base : string) (i : N) : numbered base i <> base.
Proof.
  unfold numbered. intros E.
  assert (L : String.length (base +:+ " (" +:+ pretty i +:+ ")")
              = String.length base) by (rewrite E; reflexivity).
  rewrite !length_append in L. cbn in L. lia.
Qed.

(** Where the loop stops: at the first free number from [i] on, or at
    [i + fuel] when the fuel runs out. *)
Lemma uniqueTitle_loop_stop (titles : list string) (base : string)
    (fuel : nat) (i : N) :
  exists k : N,
    (i <= k <= i + N.of_nat fuel)%N
    /\ uniqueTitle_loop titles base fuel i = numbered base k
    /\ (forall j : N, (i <= j < k)%N ->
          includes titles (numbered base j) = true)
    /\ ((k < i + N.of_nat fuel)%N ->
          includes titles (numbered base k) = false).
Proof.
  revert i. induction fuel as [|fuel IH]; intros i.
  - exists i. cbn [uniqueTitle_loop].
    split; [lia|]. split; [reflexivity|].
    split; [intros j Hj; lia|intros Hlt; lia].
  - cbn [uniqueTitle_loop].
    destruct (includes titles (numbered base i)) eqn:E.
    + destruct (IH (i + 1)%N) as (k & Hk & Hr & Hbelow & Hfree).
      exists k. split; [lia|]. split; [exact Hr|]. split.
      * intros j Hj. destruct (N.eq_dec j i) as [->|Hne]; [exact E|].
        apply Hbelow. lia.
      * intros Hlt. apply Hfree. lia.
    + exists i. split; [lia|]. split; [reflexivity|].
      split; [intros j Hj; lia|intros _; exact E].
Qed.

(** With one unit of fuel per existing title the loop always ends on a title
    that no tab has (there are not enough tabs to hold every candidate). *)
Lemma uniqueTitle_loop_free (titles : list string) (base : string) (i : N) :
  exists k : N,
    (i <= k)%N
    /\ uniqueTitle_loop titles base (length titles) i = numbered base k
    /\ (forall j : N, (i <= j < k)%N ->
          includes titles (numbered base j) = true)
    /\ includes titles (numbered base k) = false.
Proof.
  destruct (uniqueTitle_loop_stop titles base (length titles) i)
    as (k & Hk & Hr & Hbelow & Hfree).
  exists k. split; [lia|]. split; [exact Hr|]. split; [exact Hbelow|].
  destruct (N.lt_ge_cases k (i + N.of_nat (length titles))) as [Hlt|Hge];
    [exact (Hfree Hlt)|].
  assert (k = (i + N.of_nat (length titles))%N) as -> by lia.
  destruct (includes titles (numbered base (i + N.of_nat (length titles))))
    eqn:E; [exfalso|reflexivity].
  set (cands := map (fun n => numbered base (i + N.of_nat n))
                    (seq 0 (S (length titles)))).
  assert (Hnd : List.NoDup cands).
  { apply Finite.Injective_map_NoDup; [|apply seq_NoDup].
    intros a b Hab. apply numbered_inj in Hab. lia. }
  assert (Hincl : incl cands titles).
  { intros t Ht. apply in_map_iff in Ht as (n & <- & Hn).
    apply in_seq in Hn. apply includes_In.
    destruct (Nat.eq_dec n (length titles)) as [->|Hne]; [exact E|].
    apply Hbelow. lia. }
  pose proof (NoDup_incl_length Hnd Hincl) as Hlen.
  unfold cands in Hlen. rewrite length_map, length_seq in Hlen. lia.
Qed.

Lemma find_first {A} (P : A -> bool) (l : list A) (x : A) :
  List.find P l = Some x ->
  exists pre post,
    l = pre ++ x :: post /\ Forall (fun y => P y = false) pre /\ P x = true.
Proof.
  induction l as [|a r IH]; cbn; [discriminate|].
  destruct (P a) eqn:E.
  - intros [= ->]. exists [], r. auto.
  - intros Hf. destruct (IH Hf) as (pre & post & -> & Hpre & Hx).
    exists (a :: pre), post. auto.
Qed.

Lemma find_none_Forall {A} (P : A -> bool) (l : list A) :
  List.find P l = None -> Forall (fun y => P y = false) l.
Proof.
  induction l as [|a r IH]; cbn; [constructor|].
  destruct (P a) eqn:E; [discriminate|]. intros Hf. constructor; auto.
Qed.

Lemma prefix_nonempty (p s : string) :
  isEmptyStr p = false -> String.prefix p s = true -> isEmptyStr s = false.
Proof. destruct p, s; cbn; congruence. Qed.

Lemma isUserTab_nonempty (base t : string) :
  isEmptyStr base = false -> isUserTab base t = true -> isEmptyStr t = false.
Proof.
  intros Hb. unfold isUserTab, startsWith. intros Ht.
  apply orb_prop in Ht as [Ht|Ht].
  - apply String.eqb_eq in Ht. subst. exact Hb.
  - eapply prefix_nonempty; [|exact Ht]. destruct base; [discriminate|reflexivity].
Qed.

Lemma prefix_append (p s : string) : String.prefix p (p +:+ s) = true.
Proof.
  induction p as [|c r IH]; simpl; [destruct s; reflexivity|].
  destruct (ascii_dec c c); [exact IH|congruence].
Qed.

(** Every suffix-numbered title [base (n)] passes the test of
    [ensureUserTab]. *)
Lemma isUserTab_numbered (base : string) (n : N) :
  isUserTab base (numbered base n) = true.
Proof.
  unfold isUserTab, numbered, startsWith. apply orb_true_intro. right.
  rewrite <- append_assoc. apply prefix_append.
Qed.

Lemma allChars_pretty_N_go (x : N) (s : string) :
  allChars isDigit s -> allChars isDigit (pretty_N_go x s).
Proof.
  revert s. induction (N.lt_wf_0 x) as [x _ IH]; intros s Hs.
  destruct (N.eq_dec x 0%N) as [->|Hx].
  - rewrite pretty_N_go_0. exact Hs.
  - rewrite pretty_N_go_step by lia. apply IH.
    + apply N.div_lt; lia.
    + split; [|exact Hs]. unfold pretty_N_char.
      repeat case_match; reflexivity.
Qed.

(** A number prints as digits. *)
Lemma allChars_pretty_N (x : N) : allChars isDigit (pretty x).
Proof.
  unfold pretty, pretty_N. case_decide.
  - cbn. auto.
  - apply allChars_pretty_N_go. exact I.
Qed.

End TitleFacts.

Section SanitizeSpecFacts.

Lemma append_empty_r (s : string) : s +:+ "" = s.
Proof.
  induction s as [|c r IH]; [reflexivity|].
  change (String c (r +:+ "") = String c r). rewrite IH. reflexivity.
Qed.

Lemma append_String (c : ascii) (r x : string) :
  String c r +:+ x = String c (r +:+ x).
Proof. reflexivity. Qed.

Lemma append_empty_l (x : string) : "" +:+ x = x.
Proof. reflexivity. Qed.

Lemma rev_app_append (s1 s2 : string) :
  String.rev_app s1 s2 = String.rev s1 +:+ s2.
Proof.
  unfold String.rev. revert s2. induction s1 as [|a r IH]; intros s2; cbn.
  - reflexivity.
  - rewrite (IH (String a s2)), (IH (String a "")), append_assoc. reflexivity.
Qed.

Lemma rev_append (s1 s2 : string) :
  String.rev (s1 +:+ s2) = String.rev s2 +:+ String.rev s1.
Proof.
  induction s1 as [|a r IH]; cbn.
  - rewrite append_empty_r. reflexivity.
  - change (String.rev_app (r +:+ s2) (String a "")
            = String.rev s2 +:+ String.rev_app r (String a "")).
    rewrite !rev_app_append, IH, append_assoc. reflexivity.
Qed.

Lemma rev_rev (s : string) : String.rev (String.rev s) = s.
Proof.
  induction s as [|a r IH]; [reflexivity|].
  change (String.rev (String.rev_app r (String a "")) = String a r).
  rewrite rev_app_append, rev_append, IH. reflexivity.
Qed.

Lemma dropSpaces_spaces (l x : string) :
  allChars isSpace l -> dropSpaces (l +:+ x) = dropSpaces x.
Proof.
  induction l as [|c r IH]; [reflexivity|].
  intros [Hc Hr]. rewrite append_String. cbn [dropSpaces]. rewrite Hc.
  exact (IH Hr).
Qed.

Lemma allChars_rev (P : ascii -> bool) (s : string) :
  allChars P s -> allChars P (String.rev s).
Proof. intros Hs. apply allChars_rev_app; [exact Hs|exact I]. Qed.

(** What [trim] leaves of a string that is white space, then a core that
    starts and ends with other characters, then white space. *)
Lemma trim_core (lead core tl x y : string) (c1 c2 : ascii) :
  allChars isSpace lead -> allChars isSpace tl ->
  core = String c1 x -> isSpace c1 = false ->
  core = y +:+ String c2 "" -> isSpace c2 = false ->
  trim (lead +:+ core +:+ tl) = core.
Proof.
  intros Hlead Htl Hx Hc1 Hy Hc2. unfold trim.
  rewrite (dropSpaces_spaces lead _ Hlead).
  rewrite Hx, append_String. cbn [dropSpaces]. rewrite Hc1.
  rewrite <- append_String, <- Hx.
  rewrite rev_append, (dropSpaces_spaces _ _ (allChars_rev _ _ Htl)).
  rewrite Hy at 1. rewrite rev_append.
  change (String.rev (String c2 "")) with (String c2 "").
  rewrite append_String, append_empty_l. cbn [dropSpaces]. rewrite Hc2.
  change (String c2 (String.rev y))
    with (String.rev (String c2 "") +:+ String.rev y).
  rewrite <- rev_append, <- Hy. apply rev_rev.
Qed.

Lemma trim_blank (l : string) : allChars isSpace l -> trim l = "".
Proof.
  intros Hl. unfold trim.
  rewrite <- (append_empty_r l), (dropSpaces_spaces l "" Hl). reflexivity.
Qed.

Lemma wordLike_first (w : string) :
  wordLike w -> exists c x, w = String c x /\ isSpace c = false.
Proof.
  intros [Hne Hall]. destruct w as [|c x]; [contradiction|].
  destruct Hall as [Hc _]. apply negb_true_iff in Hc. eauto.
Qed.

Lemma wordLike_last (w : string) :
  wordLike w -> exists y c, w = y +:+ String c "" /\ isSpace c = false.
Proof.
  intros [Hne Hall]. induction w as [|a r IH]; [contradiction|].
  destruct Hall as [Ha Hr]. destruct r as [|b r'].
  - exists "", a. apply negb_true_iff in Ha. auto.
  - destruct (IH ltac:(discriminate) Hr) as (y & c & E & Hc).
    exists (String a y), c. rewrite append_String, <- E. auto.
Qed.

Lemma concat_shape (ws : list string) :
  ws <> [] -> Forall wordLike ws ->
  exists c1 x y c2,
    String.concat " " ws = String c1 x /\ isSpace c1 = false
    /\ String.concat " " ws = y +:+ String c2 "" /\ isSpace c2 = false.
Proof.
  intros Hne Hall. induction Hall as [|w rest Hw Hrest IH]; [contradiction|].
  destruct rest as [|w' rest'].
  - cbn. destruct (wordLike_first w Hw) as (c1 & x & E1 & H1).
    destruct (wordLike_last w Hw) as (y & c2 & E2 & H2).
    exists c1, x, y, c2. auto.
  - destruct IH as (c0 & x0 & y & c2 & _ & _ & E2 & H2); [discriminate|].
    destruct (wordLike_first w Hw) as (c1 & x & E1 & H1).
    change (String.concat " " (w :: w' :: rest'))
      with (w +:+ " " +:+ String.concat " " (w' :: rest')).
    exists c1, (x +:+ " " +:+ String.concat " " (w' :: rest')),
      (w +:+ " " +:+ y), c2.
    split; [rewrite E1; reflexivity|]. split; [exact H1|].
    split; [|exact H2]. rewrite E2, <- !append_assoc. reflexivity.
Qed.

Lemma isGap_space (c : ascii) : isGap c = false -> isSpace c = false.
Proof. unfold isGap. intros E. apply orb_false_elim in E as [_ E]. exact E. Qed.

Lemma isGap_kept (c : ascii) :
  isGap c = false -> (if isForbidden c then " "%char else c) = c.
Proof. unfold isGap. intros E. apply orb_false_elim in E as [-> _]. reflexivity. Qed.

Lemma isGap_replaced (c : ascii) :
  isGap c = true -> isSpace (if isForbidden c then " "%char else c) = true.
Proof.
  unfold isGap. destruct (isForbidden c); [reflexivity|]. cbn. auto.
Qed.

Lemma spec_words_wordLike (s : string) : Forall wordLike (spec_words s).
Proof.
  induction s as [|c r IH]; cbn [spec_words]; [constructor|].
  destruct (isGap c) eqn:Ec; [exact IH|].
  assert (Hc : negb (isSpace c) = true)
    by (rewrite (isGap_space _ Ec); reflexivity).
  assert (Hone : wordLike (String c "")) by (split; [discriminate|cbn; auto]).
  destruct r as [|c' r']; [constructor; [exact Hone|constructor]|].
  destruct (isGap c'); [constructor; assumption|].
  destruct (spec_words (String c' r')) as [|w ws];
    [constructor; [exact Hone|constructor]|].
  inversion IH as [|? ? Hw Hws]; subst. constructor; [|exact Hws].
  destruct Hw as [_ Hall]. split; [discriminate|]. cbn. auto.
Qed.

(** The collapsed string: the words joined by single spaces, after one space
    when the name starts with a gap, and before one when it ends with a gap
    that follows a word. *)
Lemma collapse_words (s : string) :
  exists tl : string,
    (tl = "" \/ tl = " ") /\ (spec_words s = [] -> tl = "")
    /\ collapseSpaces true (replaceForbidden s)
       = String.concat " " (spec_words s) +:+ tl
    /\ collapseSpaces false (replaceForbidden s)
       = match s with
         | String c _ => if isGap c then " " else ""
         | EmptyString => ""
         end +:+ String.concat " " (spec_words s) +:+ tl.
Proof.
  induction s as [|c r IH].
  - exists "". cbn. auto.
  - destruct IH as (tl & Htl & Hnone & Ht & Hf).
    cbn [replaceForbidden collapseSpaces spec_words].
    destruct (isGap c) eqn:Ec.
    + rewrite (isGap_replaced _ Ec). exists tl.
      split; [exact Htl|]. split; [exact Hnone|]. split; [exact Ht|].
      rewrite Ht. reflexivity.
    + rewrite (isGap_kept _ Ec), (isGap_space _ Ec). rewrite Hf.
      destruct r as [|c' r'].
      * cbn in Hnone. rewrite (Hnone eq_refl). exists "". cbn. auto.
      * destruct (isGap c') eqn:Ec'.
        -- destruct (spec_words (String c' r')) as [|w ws] eqn:Ews.
           ++ rewrite (Hnone eq_refl). exists " ". cbn.
              split; [auto|]. split; [discriminate|]. auto.
           ++ exists tl. split; [exact Htl|]. split; [discriminate|].
              change (String.concat " " (String c "" :: w :: ws))
                with (String c "" +:+ " " +:+ String.concat " " (w :: ws)).
              cbn [append]. auto.
        -- destruct (spec_words (String c' r')) as [|w ws] eqn:Ews.
           ++ rewrite (Hnone eq_refl). exists "". cbn. auto.
           ++ exists tl. split; [exact Htl|]. split; [discriminate|].
              assert (E : String.concat " " (String c w :: ws)
                          = String c (String.concat " " (w :: ws)))
                by (destruct ws; reflexivity).
              rewrite E. cbn [append]. auto.
Qed.

Lemma substring_0_all (n : nat) (s : string) :
  (String.length s <= n)%nat -> substring 0 n s = s.
Proof.
  revert n. induction s as [|c r IH]; intros n Hn.
  - destruct n; reflexivity.
  - destruct n as [|n]; cbn in *; [lia|]. rewrite IH; [reflexivity|lia].
Qed.

(** The sanitiser computes the title of the specification. *)
Lemma sanitizeSheetTitle_spec (name : string) :
  sanitizeSheetTitle name = spec_title name.
Proof.
  unfold sanitizeSheetTitle, spec_title. cbv zeta.
  assert (Ht : trim (collapseSpaces false (replaceForbidden name))
               = String.concat " " (spec_words name)).
  { destruct (collapse_words name) as (tl & Htl & Hnone & _ & Hf).
    rewrite Hf.
    assert (Hlead : allChars isSpace
                      match name with
                      | String c _ => if isGap c then " " else ""
                      | EmptyString => ""
                      end)
      by (destruct name as [|c r]; [exact I|destruct (isGap c); cbn; auto]).
    assert (Htls : allChars isSpace tl)
      by (destruct Htl as [->| ->]; cbn; auto).
    destruct (spec_words name) as [|w ws] eqn:Ews.
    - rewrite (Hnone eq_refl). cbn [String.concat append].
      rewrite append_empty_r. apply trim_blank. exact Hlead.
    - pose proof (spec_words_wordLike name) as Hall. rewrite Ews in Hall.
      destruct (concat_shape (w :: ws) ltac:(discriminate) Hall)
        as (c1 & x & y & c2 & E1 & H1 & E2 & H2).
      eapply trim_core; eauto. }
  rewrite Ht. set (t := if isEmptyStr _ then "User" else _).
  destruct (Nat.ltb_spec 80 (String.length t)) as [Hlt|Hle].
  - unfold slice. rewrite Nat.min_l by lia. rewrite Nat.sub_0_r. reflexivity.
  - symmetry. apply substring_0_all. exact Hle.
Qed.

End SanitizeSpecFacts.

Section TabFacts.
Context `{Host} {W : Type} `{SheetsApi W}.

(** [getSheetsClient] succeeds or throws by the configuration alone. *)
Lemma getSheetsClient_cases :
  (forall w : W, getSheetsClient w = (Ok tt, w))
  \/ (exists e, forall w : W, getSheetsClient w = (Throw e, w)).
Proof.
  unfold getSheetsClient.
  destruct GOOGLE_SERVICE_ACCOUNT_JSON as [j|];
    [destruct (isEmptyStr j); [|destruct (JSON_parse_ok j)]|];
    try destruct (truthyEnv GOOGLE_APPLICATION_CREDENTIALS);
    try (left; intros w; reflexivity); right; eexists; intros w; reflexivity.
Qed.

Lemma ensureUserTab_found (sid name tpl : string) (w w1 : W)
    (titles : list string) (t : string) :
  listSheetTitles sid w = (Ok titles, w1) ->
  List.find (isUserTab (sanitizeSheetTitle name)) titles = Some t ->
  ensureUserTab sid name tpl w = (Ok t, w1).
Proof.
  intros Hl Hf. unfold ensureUserTab, bind. rewrite Hl, Hf.
  apply find_first in Hf as (pre & post & _ & _ & Ht).
  rewrite (isUserTab_nonempty _ _ (sanitizeSheetTitle_nonempty name) Ht).
  reflexivity.
Qed.

Lemma ensureUserTab_missing (sid name tpl : string) (w w1 : W)
    (titles : list string) :
  listSheetTitles sid w = (Ok titles, w1) ->
  List.find (isUserTab (sanitizeSheetTitle name)) titles = None ->
  ensureUserTab sid name tpl w = duplicateUserTemplate sid name tpl w1.
Proof.
  intros Hl Hf. unfold ensureUserTab, bind. rewrite Hl, Hf. reflexivity.
Qed.

(** [uniqueTitle] returns the base title when it is free, and otherwise the
    base title with the first number from 1 on that makes a free title. *)
Lemma uniqueTitle_free (sid base : string) (w w1 : W) (titles : list string) :
  listSheetTitles sid w = (Ok titles, w1) ->
  exists t : string,
    uniqueTitle sid base w = (Ok t, w1)
    /\ includes titles t = false
    /\ (t = base
        \/ (includes titles base = true
            /\ exists i : N,
                 (1 <= i)%N /\ t = numbered base i
                 /\ forall j : N, (1 <= j < i)%N ->
                      includes titles (numbered base j) = true)).
Proof.
  intros Hl. unfold uniqueTitle, bind. rewrite Hl.
  destruct (includes titles base) eqn:E; cbn [negb].
  - destruct (uniqueTitle_loop_free titles base 1)
      as (k & Hk & Hr & Hbelow & Hfree).
    exists (numbered base k). rewrite Hr.
    split; [reflexivity|]. split; [exact Hfree|].
    right. split; [reflexivity|]. exists k. auto.
  - exists base. split; [reflexivity|]. split; [exact E|]. left. reflexivity.
Qed.

Lemma duplicateUserTemplate_clone (sid name tpl : string) (w w1 w2 : W)
    (source : Z) (t : string) :
  getSheetIdByTitle sid tpl w = (Ok (Some source), w1) ->
  uniqueTitle sid (sanitizeSheetTitle name) w1 = (Ok t, w2) ->
  getSheetsClient w2 = (Ok tt, w2) ->
  duplicateUserTemplate sid name tpl w
  = match duplicateSheet sid source t w2 with
    | (Ok _, w3) => (Ok t, w3)
    | (Throw e, w3) => (Throw e, w3)
    end.
Proof.
  intros Hs Hu Hc. unfold duplicateUserTemplate, bind.
  rewrite Hs, Hu, Hc.
  destruct (duplicateSheet sid source t w2) as [[[]|e] w3]; reflexivity.
Qed.

(** C7 (as amended). For every name the sanitised title is the title of the
    specification, [spec_title]: each of [: \ / ? * [ ]] counts as white
    space, the words between runs of white space are joined by single
    spaces, ["User"] stands for a name without words, and the result is cut to
    its first 80 characters (["A/B: Co*mpany"] gives ["A B Co mpany"],
    [" Ann  Lee "] gives ["Ann Lee"] and [" / "] gives ["User"]); it is
    nonempty, at most 80 characters long and free of [: \ / ? * [ ]].
    [ensureUserTab] returns the first existing title that
    equals the base title or starts with [base ++ " ("], which every
    suffix-numbered title [base (n)] does; when there is none it clones the
    template under the title [uniqueTitle] gives: the base title, or the base
    title with the first number from 1 on that no tab has. *)
Theorem C7_ensureUserTab_prefix (sid name tpl : string) (w w1 : W)
    (titles : list string) :
  listSheetTitles sid w = (Ok titles, w1) ->
  let base := sanitizeSheetTitle name in
  (sanitizeSheetTitle "A/B: Co*mpany" = "A B Co mpany"
   /\ sanitizeSheetTitle " Ann  Lee " = "Ann Lee"
   /\ sanitizeSheetTitle " / " = "User")
  /\ base = spec_title name
  /\ ((0 < String.length base <= 80)%nat /\ allChars allowed base)
  /\ (forall t : string,
        List.find (isUserTab base) titles = Some t ->
        ensureUserTab sid name tpl w = (Ok t, w1)
        /\ (t = base \/ startsWith t (base +:+ " (") = true)
        /\ exists pre post,
             titles = pre ++ t :: post
             /\ Forall (fun t' => isUserTab base t' = false) pre)
  /\ (List.find (isUserTab base) titles = None ->
      ensureUserTab sid name tpl w = duplicateUserTemplate sid name tpl w1)
  /\ (forall n : N, isUserTab base (numbered base n) = true)
  /\ (forall (w2 w3 : W) (titles2 : list string),
        listSheetTitles sid w2 = (Ok titles2, w3) ->
        exists t : string,
          uniqueTitle sid base w2 = (Ok t, w3)
          /\ includes titles2 t = false
          /\ (t = base
              \/ (includes titles2 base = true
                  /\ exists i : N,
                       (1 <= i)%N /\ t = numbered base i
                       /\ forall j : N, (1 <= j < i)%N ->
                            includes titles2 (numbered base j) = true)))
  /\ (forall (w2 w3 w4 : W) (source : Z) (t : string),
        getSheetIdByTitle sid tpl w2 = (Ok (Some source), w3) ->
        uniqueTitle sid base w3 = (Ok t, w4) ->
        getSheetsClient w4 = (Ok tt, w4) ->
        duplicateUserTemplate sid name tpl w2
        = match duplicateSheet sid source t w4 with
          | (Ok _, w5) => (Ok t, w5)
          | (Throw e, w5) => (Throw e, w5)
          end).
Proof.
  intros Hl base.
  split; [repeat split; vm_compute; reflexivity|].
  split; [apply sanitizeSheetTitle_spec|].
  split; [split; [apply sanitizeSheetTitle_length
                 |apply sanitizeSheetTitle_allowed]|].
  split.
  { intros t Hf. split; [eapply ensureUserTab_found; eassumption|].
    apply find_first in Hf as (pre & post & -> & Hpre & Ht).
    split; [|eauto].
    unfold isUserTab in Ht. apply orb_prop in Ht as [Ht|Ht].
    - left. apply String.eqb_eq. exact Ht.
    - right. exact Ht. }
  split; [intros Hf; eapply ensureUserTab_missing; eassumption|].
  split; [apply isUserTab_numbered|].
  split.
  { intros w2 w3 titles2 Hl2. eapply uniqueTitle_free. exact Hl2. }
  intros w2 w3 w4 source t. apply duplicateUserTemplate_clone.
Qed.

End TabFacts.

Section MemFacts.
Context `{Host}.

Lemma call_quiet {A} (f : Doc -> outcome A * Doc) (d : Doc) :
  faults d = [] -> call f d = f d.
Proof. intros E. unfold call. rewrite E. reflexivity. Qed.

Lemma listSheetTitles_mem (sid : string) (d : Doc) :
  faults d = [] -> getSheetsClient d = (Ok tt, d) ->
  listSheetTitles sid d = (Ok (docTitles d), d).
Proof.
  intros Hq Hc. unfold listSheetTitles, bind. rewrite Hc.
  cbn [spreadsheets_get memSheets]. unfold mem_spreadsheets_get.
  rewrite (call_quiet _ _ Hq). unfold ret, docTitles.
  rewrite map_map. reflexivity.
Qed.

Lemma getSheetIdByTitle_mem (sid title : string) (d : Doc) :
  faults d = [] -> getSheetsClient d = (Ok tt, d) ->
  getSheetIdByTitle sid title d
  = (Ok (t_id <$> List.find (fun t => String.eqb (t_title t) title) (tabs d)),
     d).
Proof.
  intros Hq Hc. unfold getSheetIdByTitle, bind. rewrite Hc.
  cbn [spreadsheets_get memSheets]. unfold mem_spreadsheets_get.
  rewrite (call_quiet _ _ Hq). unfold ret. do 2 f_equal.
  induction (tabs d) as [|t r IH]; cbn; [reflexivity|].
  destruct (String.eqb (t_title t) title); [reflexivity|exact IH].
Qed.

Lemma find_by_id_of_title (ts : list Tab) (title : string) (source : Z) :
  t_id <$> List.find (fun t => String.eqb (t_title t) title) ts = Some source ->
  exists t, List.find (fun t => (t_id t =? source)%Z) ts = Some t.
Proof.
  induction ts as [|t r IH]; cbn; [discriminate|].
  destruct (String.eqb (t_title t) title); cbn.
  - intros [= <-]. rewrite Z.eqb_refl. eauto.
  - intros Hr. destruct (t_id t =? source)%Z; eauto.
Qed.

Lemma find_app_first {A} (P : A -> bool) (pre post : list A) (x : A) :
  Forall (fun y => P y = false) pre -> P x = true ->
  List.find P (pre ++ x :: post) = Some x.
Proof.
  intros Hpre Hx. induction Hpre as [|a r Ha _ IH]; cbn.
  - rewrite Hx. reflexivity.
  - rewrite Ha. exact IH.
Qed.

Lemma title_taken (ts : list Tab) (title : string) :
  isEmptyStr title = false ->
  existsb (fun t => String.eqb (t_title t) title) ts
  = includes (List.filter (fun t => negb (isEmptyStr t)) (map t_title ts))
             title.
Proof.
  intros Hne. unfold includes. induction ts as [|t r IH]; cbn; [reflexivity|].
  rewrite IH. destruct (isEmptyStr (t_title t)) eqn:E; cbn.
  - destruct (String.eqb_spec (t_title t) title) as [<-|_]; [congruence|].
    reflexivity.
  - rewrite (String.eqb_sym title). reflexivity.
Qed.

Lemma isUserTab_base (base : string) : isUserTab base base = true.
Proof. unfold isUserTab. rewrite String.eqb_refl. reflexivity. Qed.

(** C8. On a document whose service answers every call, a call of
    [ensureUserTab] that returns a title is followed by a second call, with
    the same name, that returns the same title and leaves the document as it
    is: the tab found or created by the first call is found by the second,
    and no further tab is created. *)
Theorem C8_ensureUserTab_idempotent (sid name tpl : string) (d d1 : Doc)
    (t : string) :
  faults d = [] ->
  ensureUserTab sid name tpl d = (Ok t, d1) ->
  ensureUserTab sid name tpl d1 = (Ok t, d1)
  /\ (List.find (isUserTab (sanitizeSheetTitle name)) (docTitles d) = None ->
      length (tabs d1) = S (length (tabs d))).
Proof.
  intros Hq Hfirst. set (base := sanitizeSheetTitle name) in *.
  destruct (getSheetsClient_cases (W := Doc)) as [Hc|[e Hc]].
  2:{ exfalso. unfold ensureUserTab, listSheetTitles, bind in Hfirst.
      rewrite Hc in Hfirst. discriminate Hfirst. }
  pose proof (listSheetTitles_mem sid d Hq (Hc d)) as Hl.
  destruct (List.find (isUserTab base) (docTitles d)) as [t0|] eqn:Hf.
  - rewrite (ensureUserTab_found _ _ _ _ _ _ _ Hl Hf) in Hfirst.
    injection Hfirst as <- <-.
    split; [|discriminate].
    eapply ensureUserTab_found; eassumption.
  - rewrite (ensureUserTab_missing _ _ _ _ _ _ Hl Hf) in Hfirst.
    pose proof (find_none_Forall _ _ Hf) as Hnone.
    assert (Hfree : includes (docTitles d) base = false).
    { destruct (includes (docTitles d) base) eqn:E; [|reflexivity].
      apply includes_In in E. rewrite List.Forall_forall in Hnone.
      pose proof (Hnone _ E) as Hno. rewrite isUserTab_base in Hno.
      discriminate Hno. }
    unfold duplicateUserTemplate, bind in Hfirst.
    rewrite (getSheetIdByTitle_mem _ _ _ Hq (Hc d)) in Hfirst.
    destruct (t_id <$> List.find (fun t => String.eqb (t_title t) tpl) (tabs d))
      as [source|] eqn:Hsrc; [|discriminate Hfirst].
    unfold uniqueTitle, bind in Hfirst. fold base in Hfirst.
    rewrite Hl, Hfree in Hfirst. cbn [negb] in Hfirst. unfold ret in Hfirst.
    rewrite (Hc d) in Hfirst.
    cbn [duplicateSheet memSheets] in Hfirst.
    unfold mem_duplicateSheet in Hfirst.
    rewrite (call_quiet _ _ Hq) in Hfirst.
    destruct (find_by_id_of_title _ _ _ Hsrc) as [src Hbyid].
    rewrite Hbyid in Hfirst.
    rewrite (title_taken _ _ (sanitizeSheetTitle_nonempty name)) in Hfirst.
    fold (docTitles d) in Hfirst. fold base in Hfirst.
    rewrite Hfree in Hfirst. injection Hfirst as <- <-.
    set (copy := {| t_title := base; t_id := freshSheetId (tabs d);
                    t_info := t_info src; t_progress := t_progress src;
                    t_ledger := t_ledger src |}).
    set (d1 := withTabs d (take (insertAt d) (tabs d) ++ copy
                           :: drop (insertAt d) (tabs d))).
    assert (Hq1 : faults d1 = []) by exact Hq.
    split.
    + eapply ensureUserTab_found;
        [exact (listSheetTitles_mem sid d1 Hq1 (Hc d1))|].
      unfold docTitles, d1. cbn [tabs withTabs].
      rewrite map_app, List.filter_app. cbn [map List.filter t_title copy].
      assert (Hb : isEmptyStr base = false)
        by apply sanitizeSheetTitle_nonempty.
      rewrite Hb. cbn [negb].
      apply find_app_first; [|apply isUserTab_base].
      apply List.Forall_forall. intros x Hx.
      rewrite List.Forall_forall in Hnone. apply Hnone.
      unfold docTitles. rewrite <- (firstn_skipn (insertAt d) (tabs d)).
      rewrite map_app, List.filter_app. apply in_or_app. left. exact Hx.
    + intros _. unfold d1. cbn [tabs withTabs].
      pose proof (f_equal (@length Tab) (firstn_skipn (insertAt d) (tabs d)))
        as Hlen.
      rewrite length_app in Hlen |- *. cbn [length]. lia.
Qed.

End MemFacts.

Lemma C8_ensureUserTab_idempotent_witness :
  ensureUserTab (H := sampleHost) "sheet-1" "Bob /Lee" "UserTemplate" bobDoc
  = (Ok "Bob Lee", bobDoc).
Proof.
  destruct (C8_ensureUserTab_idempotent (H := sampleHost) "sheet-1" "Bob /Lee"
              "UserTemplate" templateDoc bobDoc "Bob Lee" eq_refl
              ltac:(vm_compute; reflexivity)) as [Hsame _].
  exact Hsame.
Defined.

(** C7, as the specification states it, fails: a tab whose title merely
    starts with the base title and [" ("] is returned, although it is neither
    the base title nor a suffix-numbered one. *)
Lemma C7_prefix_match_counterexample :
  ensureUserTab (H := sampleHost) "sheet-1" "Ann" "UserTemplate" workDoc
    = (Ok "Ann (work)", workDoc)
  /\ "Ann (work)" <> sanitizeSheetTitle "Ann"
  /\ forall n : N, "Ann (work)" <> numbered (sanitizeSheetTitle "Ann") n.
Proof.
  split; [vm_compute; reflexivity|].
  split; [vm_compute; discriminate|].
  intros n E.
  change (sanitizeSheetTitle "Ann") with "Ann" in E.
  unfold numbered in E.
  change ("Ann (" +:+ ("work" +:+ ")") = "Ann (" +:+ (pretty n +:+ ")")) in E.
  apply (inj (String.app "Ann (")) in E.
  apply append_char_inj in E.
  pose proof (allChars_pretty_N n) as Hd. rewrite <- E in Hd.
  destruct Hd as [Hw _]. vm_compute in Hw. discriminate Hw.
Qed.

Lemma C7_ensureUserTab_prefix_witness :
  ensureUserTab (H := sampleHost) "sheet-1" "Ann" "UserTemplate" sampleDoc
  = (Ok "Ann", sampleDoc).
Proof.
  destruct (@C7_ensureUserTab_prefix sampleHost Doc memSheets "sheet-1" "Ann"
              "UserTemplate" sampleDoc sampleDoc ["UserTemplate"; "Ann"]
              ltac:(vm_compute; reflexivity)) as (_ & _ & _ & Hfound & _).
  destruct (Hfound "Ann" ltac:(vm_compute; reflexivity)) as [Hres _].
  exact Hres.
Defined.

Section LedgerFacts.
Context `{Host}.
Local Open Scope Z_scope.

(** The index scan returns [6 + i] for the first row [i] whose date cell is
    the target day. *)
Lemma scanBudgetRowIndex_first (rows : list (list JsValue)) (today : Date)
    (i0 : Z) :
  match scanBudgetRowIndex rows today i0 with
  | Some n =>
      exists pre r post,
        rows = pre ++ r :: post
        /\ Forall (fun r' => cellIsDay (at_index r' 0) today = false) pre
        /\ cellIsDay (at_index r 0) today = true
        /\ n = 6 + (i0 + Z.of_nat (length pre))
  | None => Forall (fun r => cellIsDay (at_index r 0) today = false) rows
  end.
Proof.
  revert i0. induction rows as [|r rest IH]; intros i0; cbn.
  - constructor.
  - destruct (cellIsDay (at_index r 0) today) eqn:E.
    + exists [], r, rest. cbn. repeat split; auto. lia.
    + specialize (IH (i0 + 1)).
      destruct (scanBudgetRowIndex rest today (i0 + 1)) as [n|].
      * destruct IH as (pre & r0 & post & -> & Hpre & Hr & ->).
        exists (r :: pre), r0, post. cbn [length].
        repeat split; auto. lia.
      * constructor; assumption.
Qed.

Lemma scanBudgetRowIndex_dates (rows : list (list JsValue)) (today : Date)
    (i0 : Z) :
  scanBudgetRowIndex (map (take 1) rows) today i0
  = scanBudgetRowIndex rows today i0.
Proof.
  revert i0. induction rows as [|r rest IH]; intros i0; cbn; [reflexivity|].
  rewrite IH. destruct r; reflexivity.
Qed.

(** The call [upsertBudgetRow] ends with, by the rows it has read. *)
Lemma upsertBudgetRow_call {W : Type} `{SheetsApi W}
    (sid tab dateIso : string) (b p : number) (f : string) (w w1 : W)
    (rows : list (list JsValue)) :
  getSheetsClient w = (Ok tt, w) ->
  values_get sid (a1 tab "D" 6 "D" 1000) UNFORMATTED_VALUE w = (Ok rows, w1) ->
  upsertBudgetRow sid tab dateIso b p f w
  = let values := [[JStr dateIso; JNum b; JStr f; JNum p;
                    JNum (b - p)%float]] in
    match scanBudgetRowIndex rows (Date_of_string dateIso) 0 with
    | Some n => values_update sid (a1 tab "D" n "H" n) values w1
    | None => values_append sid (a1 tab "D" 6 "H" 6) values w1
    end.
Proof.
  intros Hc Hr.
  unfold upsertBudgetRow, findBudgetRowIndex, readRangeUnformatted, bind.
  rewrite Hc. cbv beta iota. rewrite Hc. cbv beta iota. rewrite Hr.
  cbv beta iota. unfold ret.
  destruct (scanBudgetRowIndex rows (Date_of_string dateIso) 0); reflexivity.
Qed.

Lemma insert_middle {A} (pre post : list A) (x y : A) :
  <[length pre := y]> (pre ++ x :: post) = pre ++ y :: post.
Proof. induction pre as [|a r IH]; cbn; [reflexivity|]. f_equal. exact IH. Qed.

Lemma regionOf_ledger_row (tab : string) (n : Z) :
  6 <= n ->
  regionOf (a1 tab "D" n "H" n) = Some (LedgerRow (Z.to_nat (n - 6))).
Proof.
  intros Hn. unfold regionOf. cbn [a1_c1 a1_c2 a1_r1 a1_r2].
  change (String.eqb "D" "A") with false.
  change (String.eqb "D" "H") with false.
  change (String.eqb "D" "D") with true.
  change (String.eqb "H" "H") with true.
  change (String.eqb "H" "D") with false.
  cbn [andb].
  destruct (Z.eqb_spec n 6) as [->|H6]; [reflexivity|].
  cbn [andb]. rewrite Z.eqb_refl.
  destruct (Z.leb_spec 6 n); [reflexivity|lia].
Qed.

Lemma take_all_bounded {A} (n : nat) (l : list A) :
  (length l <= n)%nat -> take n l = l.
Proof. intros Hl. apply firstn_all2. exact Hl. Qed.

Lemma map_shown_unformatted (d : Doc) (rows : list (list JsValue)) :
  map (map (shown d UNFORMATTED_VALUE)) rows = rows.
Proof.
  induction rows as [|r rest IH]; cbn; [reflexivity|].
  rewrite IH. f_equal. induction r as [|v r' IHr]; cbn; [reflexivity|].
  rewrite IHr. reflexivity.
Qed.

(** C4 (as amended). [upsertBudgetRow] reads the date column of the rows 6
    to 1000 of the ledger and ends with one write of the five values (date,
    budget, food names, price, budget minus price): an update of the cells D
    to H of the first row read whose date is the given day, or, when no row
    read matches, an append anchored at the ledger's first data row D6:H6.
    On every in-memory sheet the first replaces exactly that row, all other
    rows staying as they are, and the second adds one row after the last,
    also when a row of the day lies below row 1000. *)
Theorem C4_upsert_row (sid tab dateIso : string) (b p : number)
    (f : string) :
  let row := [JStr dateIso; JNum b; JStr f; JNum p; JNum (b - p)%float] in
  let day := Date_of_string dateIso in
  let other (r : list JsValue) := cellIsDay (at_index r 0) day = false in
  (forall (W : Type) (api : SheetsApi W) (w w1 : W)
          (rows : list (list JsValue)),
     getSheetsClient w = (Ok tt, w) ->
     values_get sid (a1 tab "D" 6 "D" 1000) UNFORMATTED_VALUE w
       = (Ok rows, w1) ->
     (exists pre r post,
        rows = pre ++ r :: post /\ Forall other pre
        /\ cellIsDay (at_index r 0) day = true
        /\ upsertBudgetRow sid tab dateIso b p f w
           = values_update sid
               (a1 tab "D" (6 + Z.of_nat (length pre))
                       "H" (6 + Z.of_nat (length pre))) [row] w1)
     \/ (Forall other rows
         /\ upsertBudgetRow sid tab dateIso b p f w
            = values_append sid (a1 tab "D" 6 "H" 6) [row] w1))
  /\ (forall (d : Doc) (k : nat) (t : Tab),
        faults d = [] ->
        getSheetsClient d = (Ok tt, d) ->
        tabIndex (tabs d) tab = Some k ->
        tabs d !! k = Some t ->
        (exists pre r post,
           take 995 (t_ledger t) = pre ++ r :: post /\ Forall other pre
           /\ cellIsDay (at_index r 0) day = true
           /\ upsertBudgetRow sid tab dateIso b p f d
              = (Ok tt,
                 setTab d k
                   (withLedger t
                      (pre ++ row :: post ++ drop 995 (t_ledger t)))))
        \/ (Forall other (take 995 (t_ledger t))
            /\ upsertBudgetRow sid tab dateIso b p f d
               = (Ok tt, setTab d k (withLedger t (t_ledger t ++ [row]))))).
Proof.
  intros row day other.
  split.
  { intros W api w w1 rows Hc Hr.
    rewrite (upsertBudgetRow_call _ _ _ _ _ _ _ _ _ Hc Hr). cbv zeta.
    pose proof (scanBudgetRowIndex_first rows day 0) as Hscan.
    fold day. destruct (scanBudgetRowIndex rows day 0) as [n|].
    - left. destruct Hscan as (pre & r & post & -> & Hpre & Hm & ->).
      exists pre, r, post. repeat split; auto.
    - right. split; [exact Hscan|reflexivity]. }
  intros d k t Hq Hc Hk Ht.
  assert (Hread : values_get sid (a1 tab "D" 6 "D" 1000) UNFORMATTED_VALUE d
                  = (Ok (map (take 1) (take 995 (t_ledger t))), d)).
  { cbn [values_get memSheets]. unfold mem_values_get.
    rewrite (call_quiet _ _ Hq). cbn [a1_tab]. rewrite Hk.
    change (regionOf (a1 tab "D" 6 "D" 1000)) with (Some LedgerDates).
    rewrite Ht, map_shown_unformatted. reflexivity. }
  rewrite (upsertBudgetRow_call _ _ _ _ _ _ _ _ _ Hc Hread). cbv zeta.
  rewrite scanBudgetRowIndex_dates. fold day.
  pose proof (scanBudgetRowIndex_first (take 995 (t_ledger t)) day 0) as Hscan.
  destruct (scanBudgetRowIndex (take 995 (t_ledger t)) day 0) as [n|].
  - left. destruct Hscan as (pre & r & post & Hl & Hpre & Hm & ->).
    exists pre, r, post. split; [exact Hl|]. split; [exact Hpre|].
    split; [exact Hm|].
    cbn [values_update memSheets]. unfold mem_values_update.
    rewrite (call_quiet _ _ Hq). cbn [a1_tab]. rewrite Hk.
    rewrite regionOf_ledger_row by lia. rewrite Ht.
    replace (Z.to_nat (6 + (0 + Z.of_nat (length pre)) - 6))
      with (length pre) by lia.
    assert (Hall : t_ledger t
                   = pre ++ r :: (post ++ drop 995 (t_ledger t))).
    { rewrite <- (firstn_skipn 995 (t_ledger t)) at 1.
      change (firstn 995 (t_ledger t)) with (take 995 (t_ledger t)).
      change (skipn 995 (t_ledger t)) with (drop 995 (t_ledger t)).
      rewrite Hl, <- List.app_assoc. reflexivity. }
    set (below := drop 995 (t_ledger t)) in *.
    unfold putRow. rewrite Hall.
    destruct (Nat.ltb_spec (length pre)
                (length (pre ++ r :: (post ++ below))))
      as [_|Hbad]; [|rewrite length_app in Hbad; cbn in Hbad; lia].
    rewrite insert_middle. reflexivity.
  - right. split; [exact Hscan|].
    cbn [values_append memSheets]. unfold mem_values_append.
    rewrite (call_quiet _ _ Hq). cbn [a1_tab]. rewrite Hk.
    change (regionOf (a1 tab "D" 6 "H" 6)) with (Some (LedgerRow 0)).
    rewrite Ht. reflexivity.
Qed.

End LedgerFacts.

(** The upsert on the sample sheet: the row of 14 March is overwritten in
    place, the row before it is untouched. *)
Lemma C4_upsert_row_witness :
  upsertBudgetRow (H := sampleHost) "sheet-1" "Ann" "2024-03-14" 110%float
    7%float "Apple | Rice" sampleDoc
  = (Ok tt,
     setTab sampleDoc 1
       (withLedger annTab
          [[JStr "2024-03-13"; JNum 110%float; JStr "Rice 100g";
            JNum 3%float; JNum 107%float];
           [JStr "2024-03-14"; JNum 110%float; JStr "Apple | Rice";
            JNum 7%float; JNum 103%float]])).
Proof.
  destruct (C4_upsert_row (H := sampleHost) "sheet-1" "Ann" "2024-03-14"
              110%float 7%float "Apple | Rice") as [_ Hmem].
  destruct (Hmem sampleDoc 1%nat annTab eq_refl eq_refl eq_refl eq_refl)
    as [(pre & r & post & Hl & Hpre & Hm & Heq)|[Hnone _]].
  - rewrite Heq.
    change (take 995 (t_ledger annTab))
      with [[JStr "2024-03-13"; JNum 110%float; JStr "Rice 100g";
             JNum 3%float; JNum 107%float];
            [JStr "14/3/2024"; JNum 110%float; JStr "Apple"; JNum 1%float;
             JNum 109%float]] in Hl.
    destruct pre as [|x [|y pre']].
    + injection Hl as <- _. vm_compute in Hm. discriminate Hm.
    + injection Hl as <- <- <-. vm_compute. reflexivity.
    + injection Hl as _ _ Hl. destruct pre'; discriminate Hl.
  - apply Forall_inv_tail, Forall_inv in Hnone.
    vm_compute in Hnone. discriminate Hnone.
Defined.

(** C4, as the specification states it, fails on a ledger that reaches below
    row 1000: the row of 14 March 2024 lies in row 1001, the scan of the rows
    6 to 1000 does not see it, and the upsert for that day appends a second
    row for the day instead of overwriting the first, which stays as it
    was. *)
Lemma C4_row_below_1000_counterexample :
  t_ledger longTab !! 995%nat
    = Some [JStr "2024-03-14"; JNum 110%float; JStr "Apple"; JNum 1%float;
            JNum 109%float]
  /\ cellIsDay (H := sampleHost) (JStr "2024-03-14")
       (Date_of_string (H := sampleHost) "2024-03-14") = true
  /\ exists t' : Tab,
       upsertBudgetRow (H := sampleHost) "sheet-1" "Ann" "2024-03-14"
         110%float 7%float "Apple | Rice" longDoc
       = (Ok tt, setTab longDoc 1 t')
       /\ length (t_ledger t') = 997%nat
       /\ t_ledger t' !! 995%nat
          = Some [JStr "2024-03-14"; JNum 110%float; JStr "Apple";
                  JNum 1%float; JNum 109%float]
       /\ t_ledger t' !! 996%nat
          = Some [JStr "2024-03-14"; JNum 110%float; JStr "Apple | Rice";
                  JNum 7%float; JNum 103%float].
Proof.
  split; [vm_compute; reflexivity|]. split; [vm_compute; reflexivity|].
  exists (withLedger longTab
            (t_ledger longTab
             ++ [[JStr "2024-03-14"; JNum 110%float; JStr "Apple | Rice";
                  JNum 7%float; JNum 103%float]])).
  repeat split; vm_compute; reflexivity.
Qed.

Section MirrorFacts.
Context `{Host}.
Local Open Scope float_scope.

(** C5. For each write endpoint (profile save, food-log create, food-log
    delete, weight-log create) the response and the resulting relational
    store are the same whatever the spreadsheet service is and whatever state
    it is in: whether the mirror step succeeds or throws, at any of its calls,
    the handler answers alike and the store mutation stands. In particular,
    once the store mutation has succeeded the answer is the success status
    and body, for every service and state. *)
Theorem C5_mirror_failures_swallowed
    (W1 W2 : Type) (api1 : SheetsApi W1) (api2 : SheetsApi W2)
    (req : Request) (now : Z) (st : Store) (w1 : W1) (w2 : W2) :
  ((putProfile req st w1).1 = (putProfile req st w2).1
   /\ (postFoodLog req now st w1).1 = (postFoodLog req now st w2).1
   /\ (deleteFoodLog req st w1).1 = (deleteFoodLog req st w2).1
   /\ (postWeightLog req now st w1).1 = (postWeightLog req now st w2).1)
  /\ (forall (uid : string) (p : ProfileInput) (st' : Store),
        requireUser req = Some uid ->
        ProfileSchema (body req) = Some p ->
        let daily := dailyOf (gender p) (Api.age p) (height_cm p)
                       (current_weight_kg p) (activity_level p) in
        profile_upsert (profileRow uid p daily) st = (Ok tt, st') ->
        (putProfile req st w1).1 = (Respond 200 (DailyJson daily), st'))
  /\ (forall (p : FoodLogInput) (entry : FoodLog) (st' : Store),
        FoodLogSchema (body req) = Some p ->
        createFoodLog p (default "demo" (requireUser req)) now st
          = (Ok entry, st') ->
        (postFoodLog req now st w1).1
          = (Respond 201 (IdJson (fl_id entry)), st'))
  /\ (forall (entry : FoodLog) (st' : Store),
        foodLog_findUnique st (param_id req) = Some entry ->
        fl_userId entry = default "demo" (requireUser req) ->
        foodLog_delete (param_id req) st = (Ok tt, st') ->
        (deleteFoodLog req st w1).1 = (Respond 200 OkJson, st'))
  /\ (forall (p : WeightLogInput) (st' : Store),
        WeightLogSchema (body req) = Some p ->
        createWeightLog p (default "demo" (requireUser req)) now st
          = (Ok tt, st') ->
        (postWeightLog req now st w1).1 = (Respond 201 OkJson, st')).
Proof.
  split; [split; [|split; [|split]]|split; [|split; [|split]]].
  - unfold putProfile. destruct (requireUser req); [|reflexivity].
    destruct (ProfileSchema (body req)); [|reflexivity].
    destruct (profile_upsert _ st) as [[[]|e] st']; reflexivity.
  - unfold postFoodLog. destruct (FoodLogSchema (body req)); [|reflexivity].
    destruct (createFoodLog _ _ now st) as [[entry|e] st']; reflexivity.
  - unfold deleteFoodLog.
    destruct (foodLog_findUnique st (param_id req)) as [entry|];
      [|reflexivity].
    destruct (negb _); [reflexivity|].
    destruct (foodLog_delete _ st) as [[[]|e] st']; reflexivity.
  - unfold postWeightLog. destruct (WeightLogSchema (body req));
      [|reflexivity].
    destruct (createWeightLog _ _ now st) as [[[]|e] st']; reflexivity.
  - intros uid p st' Hu Hp daily Hup. unfold putProfile.
    rewrite Hu, Hp. fold daily. rewrite Hup. reflexivity.
  - intros p entry st' Hp Hc. unfold postFoodLog. rewrite Hp, Hc.
    reflexivity.
  - intros entry st' Hf Hu Hd. unfold deleteFoodLog. rewrite Hf, Hu.
    rewrite String.eqb_refl, Hd. reflexivity.
  - intros p st' Hp Hc. unfold postWeightLog. rewrite Hp, Hc. reflexivity.
Qed.

End MirrorFacts.

Section DashboardFacts.
Context `{Host} {W : Type} `{SheetsApi W}.
Local Open Scope float_scope.

(** C6 (as amended). When the dashboard answers, [remainingDubyToday] is the
    surplus of today's ledger row when the spreadsheet is configured for the
    user and reachable and a row matches; the sheet's daily budget minus
    today's relational price when no row matches; and the constant 24 when
    the spreadsheet is not configured for the user or any call to it throws.
    The itemised list is always the relational one. *)
Theorem C6_dashboard_remaining (req : Request) (now : Z) (st : Store) (w : W)
    (dayLogs : list (FoodLog * option FoodItem)) (friday : string) :
  foodLog_findMany st (default "demo" (requireUser req)) (dayStart now)
    (dayEnd now) = Ok dayLogs ->
  nextFriday now = Some friday ->
  let user := match requireUser req with
              | Some u => user_findUnique st u
              | None => None
              end in
  let price0 := fold_left (fun s l => s + item_price l) (map itemOf dayLogs) 0
  in
  exists (d : Dashboard) (w' : W),
    getDashboard req now st w = (Respond 200 (DashboardJson d), st, w')
    /\ items d = map itemOf dayLogs
    /\ nextWeighIn d = friday
    /\ match mirrorTarget user with
       | None => remainingDubyToday d = 24
       | Some (sheetId, name) =>
           match ensureUserTab sheetId name "UserTemplate" w with
           | (Throw _, _) => remainingDubyToday d = 24
           | (Ok tab, wa) =>
               match findBudgetToday sheetId tab (Some now) wa with
               | (Throw _, _) => remainingDubyToday d = 24
               | (Ok (Some row), _) => remainingDubyToday d = surplus row
               | (Ok None, wb) =>
                   match readDailyBudget sheetId tab wb with
                   | (Throw _, _) => remainingDubyToday d = 24
                   | (Ok dailyBudget, _) =>
                       remainingDubyToday d = dailyBudget - price0
                   end
               end
           end
       end.
Proof.
  intros Hlogs Hfri user price0. unfold getDashboard.
  rewrite Hlogs, Hfri. fold user. fold price0.
  unfold dashboardSheet.
  destruct (mirrorTarget user) as [[sheetId name]|].
  2:{ cbn. eauto 10. }
  unfold bind.
  destruct (ensureUserTab sheetId name "UserTemplate" w) as [[tab|e] wa].
  2:{ cbn. eauto 10. }
  destruct (findBudgetToday sheetId tab (Some now) wa) as [[[row|]|e] wb].
  - cbn. eauto 10.
  - destruct (readDailyBudget sheetId tab wb) as [[b|e] wc]; cbn; eauto 10.
  - cbn. eauto 10.
Qed.

End DashboardFacts.

(** C6, as the specification states it, fails: with no spreadsheet
    configured the dashboard reports 24 for a user whose stored budget is 110
    and whose logged price today is 6, and the same 24 for a user with no
    profile and no log; it also reports 24 when the configured spreadsheet
    does not answer. *)
Lemma C6_fallback_counterexample :
  (exists d,
     (getDashboard (H := offlineHost) (annRequest [] "") noon14 sampleStore
        sampleDoc).1.1 = Respond 200 (DashboardJson d)
     /\ remainingDubyToday d = 24%float
     /\ map item_price (items d) = [6%float]
     /\ map pr_dailyDubyBudget (profiles sampleStore) = [110%float])
  /\ (exists d,
        (getDashboard (H := offlineHost) (annRequest [] "") noon14 bareStore
           sampleDoc).1.1 = Respond 200 (DashboardJson d)
        /\ remainingDubyToday d = 24%float
        /\ items d = [])
  /\ (exists d,
        (getDashboard (H := sampleHost) (annRequest [] "") noon14 sampleStore
           downDoc).1.1 = Respond 200 (DashboardJson d)
        /\ remainingDubyToday d = 24%float).
Proof.
  split; [|split]; eexists; vm_compute; repeat split; reflexivity.
Qed.

Lemma C6_dashboard_remaining_witness :
  exists (d : Dashboard) (w' : Doc),
    getDashboard (H := sampleHost) (annRequest [] "") noon14 sampleStore
      sampleDoc = (Respond 200 (DashboardJson d), sampleStore, w')
    /\ remainingDubyToday d = 109%float.
Proof.
  destruct (@C6_dashboard_remaining sampleHost Doc memSheets
              (annRequest [] "") noon14 sampleStore sampleDoc
              [(({| fl_id := "l1"; fl_userId := "u1"; fl_foodItemId := "f1";
                    fl_portion := 6%float; fl_occurredAt := noon14;
                    fl_dubyCost := 6%float |}), Some apple)]
              "2024-03-15"
              ltac:(vm_compute; reflexivity) ltac:(vm_compute; reflexivity))
    as (d & w' & Hres & _ & _ & Hrem).
  exists d, w'. split; [exact Hres|].
  vm_compute in Hrem. exact Hrem.
Defined.

Section NumberFacts.
Local Open Scope float_scope.






End NumberFacts.

Section StoreFacts.
Context `{Host}.
Local Open Scope Z_scope.

Lemma In_insertByTime (x a : FoodLog) (ls : list FoodLog) :
  In x (insertByTime a ls) <-> x = a \/ In x ls.
Proof.
  induction ls as [|b r IH]; cbn.
  - intuition congruence.
  - destruct (fl_occurredAt b <=? fl_occurredAt a); cbn.
    + rewrite IH. intuition congruence.
    + intuition congruence.
Qed.




Lemma user_upsertDemo_logs (st st' : Store) (r : outcome unit) :
  user_upsertDemo st = (r, st') -> foodLogs st' = foodLogs st.
Proof.
  unfold user_upsertDemo. destruct (user_findUnique st "demo").
  - intros [= _ <-]. reflexivity.
  - destruct (existsb _ _); intros [= _ <-]; reflexivity.
Qed.

Lemma foodItem_update_logs (id : string) (duby : number) (unit : string)
    (st st' : Store) (r : outcome FoodItem) :
  foodItem_update id duby unit st = (r, st') -> foodLogs st' = foodLogs st.
Proof.
  unfold foodItem_update. destruct (Decimal_accepts duby); cbn [negb];
    [|intros [= _ <-]; reflexivity].
  destruct (foodItem_byId st id); intros [= _ <-]; reflexivity.
Qed.

Lemma foodItem_create_logs (name : string) (duby : number) (unit : string)
    (st st' : Store) (r : outcome FoodItem) :
  foodItem_create name duby unit st = (r, st') -> foodLogs st' = foodLogs st.
Proof.
  unfold foodItem_create. destruct (Decimal_accepts duby); cbn [negb];
    [|intros [= _ <-]; reflexivity].
  destruct (foodItem_byId st (freshId st)); intros [= _ <-]; reflexivity.
Qed.



End StoreFacts.

Section FoodLogFacts.
Context `{Host} {W : Type} `{SheetsApi W}.
Local Open Scope Z_scope.


Lemma find_none_id (ls : list FoodLog) (id : string) :
  List.find (fun l => String.eqb (fl_id l) id) ls = None ->
  forall l, In l ls -> fl_id l <> id.
Proof.
  intros Hf l Hl E. apply find_none_Forall in Hf.
  rewrite List.Forall_forall in Hf. specialize (Hf l Hl).
  rewrite E, String.eqb_refl in Hf. discriminate Hf.
Qed.

Lemma getDashboard_shape (req : Request) (now : Z) (st : Store) (w : W)
    (dayLogs : list (FoodLog * option FoodItem)) (friday : string) :
  foodLog_findMany st (default "demo" (requireUser req)) (dayStart now)
    (dayEnd now) = Ok dayLogs ->
  nextFriday now = Some friday ->
  exists (rem : number) (fl : string) (pr : number) (w' : W),
    getDashboard req now st w
    = (Respond 200 (DashboardJson
         {| remainingDubyToday := rem;
            entries := [{| entry_time := slice 0 10 (isoOfTime now);
                           entry_food := fl; entry_dubyCost := pr |}];
            items := map itemOf dayLogs;
            nextWeighIn := friday |}), st, w').
Proof.
  intros Hlogs Hfri. unfold getDashboard. rewrite Hlogs, Hfri.
  destruct (dashboardSheet _ now _ _ w) as [r wa].
  destruct (match r with Ok v => v | Throw _ => _ end) as [[rem fl] pr].
  eauto.
Qed.



End FoodLogFacts.


(** The food log is created and answered alike when the spreadsheet service
    is down. *)
Example postFoodLog_service_down :
  (postFoodLog (H := sampleHost) riceRequest noon14 sampleStore downDoc).1
  = ricePosted.1
  /\ ricePosted.1.1 = Respond 201 (IdJson "c3").
Proof. split; vm_compute; reflexivity. Qed.

(* ===================================================================== *)
(** ** Part III. Further properties of the code                           *)
(* ===================================================================== *)

(** *** The calendar *)

(** *** The day window and the next weigh-in ([index.ts]) *)

Section DayFacts.
Context `{Host}.
Local Open Scope Z_scope.

Lemma bind_Some {A B} (f : A -> option B) (x : A) : Some x ≫= f = f x.
Proof. reflexivity. Qed.

Lemma getDay_valid (t : Z) : getDay (Some t) = Some (WeekDay (LocalTime t)).
Proof. reflexivity. Qed.

Lemma getDate_valid (t : Z) :
  getDate (Some t) = Some (DateFromTime (LocalTime t)).
Proof. reflexivity. Qed.

Lemma setDate_valid (t dt : Z) :
  setDate (Some t) dt
  = TimeClip (UTC (MakeDate (MakeDay (YearFromTime (LocalTime t))
                                     (MonthFromTime (LocalTime t)) dt)
                            (TimeWithinDay (LocalTime t)))).
Proof. reflexivity. Qed.

(** [d.setDate(d.getDate() + k)] moves a date by [k] whole days. *)
Lemma setDate_add_days (t k : Z) :
  setDate (Some t) (DateFromTime (LocalTime t) + k)
  = TimeClip (t + k * msPerDay).
Proof.
  rewrite setDate_valid. f_equal.
  unfold YearFromTime, MonthFromTime, DateFromTime.
  rewrite MakeDay_add_days.
  unfold UTC, MakeDate, LocalTime, Day, TimeWithinDay, msPerDay.
  Z.div_mod_to_equations; lia.
Qed.

Lemma dayStart_value (t : Z) :
  dayStart t = TimeClip (Day (LocalTime t) * msPerDay - LocalTZA).
Proof.
  unfold dayStart, setHours0. cbn [mbind option_bind]. f_equal.
  unfold UTC, MakeDate, MakeTime. lia.
Qed.

Lemma dayEnd_value (t a : Z) :
  dayStart t = Some a -> dayEnd t = TimeClip (a + msPerDay).
Proof.
  intros Ha. unfold dayEnd. rewrite Ha. cbn [getDate mbind option_bind].
  apply setDate_add_days.
Qed.

(** The day of an instant: where it starts and where it ends. *)
Lemma dayStart_dayEnd_in_range (t : Z) :
  Z.abs t <= 8640000000000000 - msPerDay ->
  let a := Day (LocalTime t) * msPerDay - LocalTZA in
  dayStart t = Some a /\ dayEnd t = Some (a + msPerDay).
Proof.
  intros Ht a.
  assert (Hin : a <= t < a + msPerDay)
    by (unfold a, Day, LocalTime, msPerDay; Z.div_mod_to_equations; lia).
  assert (Hs : dayStart t = Some a).
  { rewrite dayStart_value. apply TimeClip_in_range.
    unfold msPerDay in *. lia. }
  split; [exact Hs|].
  rewrite (dayEnd_value _ _ Hs). apply TimeClip_in_range.
  unfold msPerDay in *. lia.
Qed.

Lemma daysToFriday_spec (day : Z) :
  0 <= day <= 6 ->
  1 <= daysToFriday day <= 7
  /\ (day + daysToFriday day) mod 7 = 5
  /\ forall j, 1 <= j < daysToFriday day -> (day + j) mod 7 <> 5.
Proof.
  intros Hd.
  assert (Hc : day = 0 \/ day = 1 \/ day = 2 \/ day = 3 \/ day = 4
               \/ day = 5 \/ day = 6) by lia.
  destruct Hc as [->|[->|[->|[->|[->|[->| ->]]]]]];
    match goal with
    | |- context [daysToFriday ?d] =>
        let v := eval vm_compute in (daysToFriday d) in
        change (daysToFriday d) with v
    end;
    (split; [lia|]); (split; [reflexivity|]); intros j Hj;
    Z.div_mod_to_equations; lia.
Qed.

Lemma nextFriday_value (now : Z) :
  nextFriday now
  = match TimeClip (now + daysToFriday (WeekDay (LocalTime now)) * msPerDay)
    with
    | Some t => Some (slice 0 10 (isoOfTime t))
    | None => None
    end.
Proof.
  unfold nextFriday. cbv zeta.
  rewrite getDay_valid, bind_Some, getDate_valid, bind_Some.
  rewrite setDate_add_days.
  destruct (TimeClip _); reflexivity.
Qed.

(** The next weigh-in of an instant a week away from the ends of the range
    of time values. *)
Lemma nextFriday_in_range (now : Z) :
  Z.abs now <= 8640000000000000 - 7 * msPerDay ->
  nextFriday now
  = Some (slice 0 10
            (isoOfTime (now + daysToFriday (WeekDay (LocalTime now))
                              * msPerDay))).
Proof.
  intros Hnow.
  assert (Hday : 0 <= WeekDay (LocalTime now) <= 6)
    by (unfold WeekDay; Z.div_mod_to_equations; lia).
  destruct (daysToFriday_spec _ Hday) as (Hk & _).
  rewrite nextFriday_value.
  rewrite TimeClip_in_range by (unfold msPerDay in *; lia).
  reflexivity.
Qed.

End DayFacts.

(** *** The dashboard's list of the day ([index.ts]) *)

Section DayListFacts.
Local Open Scope Z_scope.

Lemma insertByTime_perm (l : FoodLog) (ls : list FoodLog) :
  Permutation (insertByTime l ls) (l :: ls).
Proof.
  induction ls as [|a r IH]; cbn; [reflexivity|].
  destruct (fl_occurredAt a <=? fl_occurredAt l); [|reflexivity].
  rewrite IH. apply perm_swap.
Qed.

Lemma sortByTime_perm (ls : list FoodLog) : Permutation (sortByTime ls) ls.
Proof.
  unfold sortByTime.
  assert (Hgen : forall acc,
    Permutation (fold_left (fun acc l => insertByTime l acc) ls acc)
                (acc ++ ls)).
  { induction ls as [|a r IH]; intros acc; cbn.
    - rewrite app_nil_r. reflexivity.
    - rewrite IH, insertByTime_perm.
      change (a :: acc ++ r) with ((a :: acc) ++ r).
      rewrite (Permutation_middle acc r a). reflexivity. }
  exact (Hgen []).
Qed.

Lemma insertByTime_sorted (l : FoodLog) (ls : list FoodLog) :
  StronglySorted notLater ls -> StronglySorted notLater (insertByTime l ls).
Proof.
  induction 1 as [|a r Hr IH Ha]; cbn.
  - repeat constructor.
  - destruct (Z.leb_spec (fl_occurredAt a) (fl_occurredAt l)) as [Hle|Hgt].
    + constructor; [exact IH|].
      apply List.Forall_forall. intros x Hx.
      apply In_insertByTime in Hx as [->|Hx]; [exact Hle|].
      rewrite List.Forall_forall in Ha. exact (Ha x Hx).
    + constructor; [constructor; assumption|].
      constructor; [unfold notLater; lia|].
      eapply List.Forall_impl; [|exact Ha].
      intros x Hx. unfold notLater in *. lia.
Qed.

Lemma sortByTime_sorted (ls : list FoodLog) :
  StronglySorted notLater (sortByTime ls).
Proof.
  unfold sortByTime.
  assert (Hgen : forall acc, StronglySorted notLater acc ->
    StronglySorted notLater (fold_left (fun acc l => insertByTime l acc) ls acc)).
  { induction ls as [|a r IH]; intros acc Hacc; cbn; [exact Hacc|].
    apply IH, insertByTime_sorted, Hacc. }
  apply Hgen. constructor.
Qed.

End DayListFacts.

Section DashboardListFacts.
Context `{Host} {W : Type} `{SheetsApi W}.
Local Open Scope Z_scope.

(** The user whose entries a request reads and writes. *)
Lemma foodLog_findMany_day (st : Store) (uid : string) (a b : Z) :
  exists dayLogs,
    foodLog_findMany st uid (Some a) (Some b) = Ok dayLogs
    /\ Permutation (map fst dayLogs)
         (List.filter (fun l => String.eqb (fl_userId l) uid
                                && (a <=? fl_occurredAt l)
                                && (fl_occurredAt l <? b)) (foodLogs st))
    /\ StronglySorted notLater (map fst dayLogs)
    /\ Forall (fun x => x.2 = foodItem_byId st (fl_foodItemId x.1)) dayLogs.
Proof.
  eexists. split; [reflexivity|].
  rewrite map_map. cbn [fst]. rewrite map_id.
  split; [apply sortByTime_perm|]. split; [apply sortByTime_sorted|].
  apply List.Forall_forall. intros x Hx.
  apply in_map_iff in Hx as (l & <- & _). reflexivity.
Qed.

(** X3 (the dashboard answers). Whenever the three dates the handler
    computes are valid (the start and the end of the day of the instant, and
    the next Friday), GET /api/dashboard answers 200, whatever the request,
    the store and the spreadsheet service are, and leaves the store as it
    is; [nextWeighIn] is that Friday. Its items are made from the entries of
    the session's user (of ["demo"] without a session) whose time lies from
    the start up to, but not at, the end: each such entry once, in the order
    of their times, each with the food item its [foodItemId] names. *)
Theorem X3_getDashboard_answers (req : Request) (now : Z) (st : Store) (w : W)
    (a b : Z) (friday : string) :
  dayStart now = Some a -> dayEnd now = Some b ->
  nextFriday now = Some friday ->
  exists (d : Dashboard) (w' : W)
         (dayLogs : list (FoodLog * option FoodItem)),
    getDashboard req now st w = (Respond 200 (DashboardJson d), st, w')
    /\ nextWeighIn d = friday
    /\ items d = map itemOf dayLogs
    /\ Permutation (map fst dayLogs)
         (List.filter
            (fun l => String.eqb (fl_userId l) (default "demo" (requireUser req))
                      && (a <=? fl_occurredAt l)
                      && (fl_occurredAt l <? b)) (foodLogs st))
    /\ StronglySorted notLater (map fst dayLogs)
    /\ Forall (fun x => x.2 = foodItem_byId st (fl_foodItemId x.1)) dayLogs.
Proof.
  intros Ha Hb Hfri.
  destruct (foodLog_findMany_day st (default "demo" (requireUser req)) a b)
    as (dayLogs & Hlogs & Hperm & Hsort & Hitem).
  pose proof Hlogs as Hlogs'. rewrite <- Ha, <- Hb in Hlogs'.
  destruct (getDashboard_shape req now st w dayLogs friday Hlogs' Hfri)
    as (rem & fl & pr & w' & Hres).
  eexists _, w', dayLogs. split; [exact Hres|]. cbn [nextWeighIn items].
  auto.
Qed.

End DashboardListFacts.

Lemma X3_getDashboard_answers_witness :
  exists (d : Dashboard) (w' : Doc),
    getDashboard (H := sampleHost) (annRequest [] "") noon14 sampleStore
      downDoc = (Respond 200 (DashboardJson d), sampleStore, w')
    /\ map item_id (items d) = ["l1"].
Proof.
  destruct (@X3_getDashboard_answers sampleHost Doc memSheets (annRequest [] "")
              noon14 sampleStore downDoc 1710370800000%Z 1710457200000%Z
              "2024-03-15" ltac:(vm_compute; reflexivity)
              ltac:(vm_compute; reflexivity) ltac:(vm_compute; reflexivity))
    as (d & w' & dayLogs & Hres & _).
  exists d, w'. split; [exact Hres|].
  assert (E : (getDashboard (H := sampleHost) (annRequest [] "") noon14
                 sampleStore downDoc).1.1 = Respond 200 (DashboardJson d))
    by (rewrite Hres; reflexivity).
  vm_compute in E. injection E as <-. reflexivity.
Defined.

(** *** The adapter without credentials ([gsheets.ts]) *)

Section CredentialFacts.
Context `{Host} {W : Type} `{SheetsApi W}.

Lemma getSheetsClient_unconfigured (w : W) :
  truthyEnv GOOGLE_SERVICE_ACCOUNT_JSON = false ->
  truthyEnv GOOGLE_APPLICATION_CREDENTIALS = false ->
  getSheetsClient w = (Throw missingCredentials, w).
Proof.
  intros Hj Hk. unfold getSheetsClient. rewrite Hk.
  destruct GOOGLE_SERVICE_ACCOUNT_JSON as [j|]; [|reflexivity].
  cbn in Hj. apply negb_false_iff in Hj. rewrite Hj. reflexivity.
Qed.

(** X5 (no credentials, no call). When neither credential variable is set,
    every function of the adapter that uses the client throws the "Missing
    credentials" error and leaves the world of the spreadsheet service as it
    is: no call reaches the service. The guard of the handlers' mirror blocks then
    fails, so that no handler tries. *)
Theorem X5_no_credentials_no_call (sid tab name tpl dateIso food : string)
    (range : A1) (info : GeneralInfo) (today : Date) (b p : number)
    (user : option User) (account : SheetUser) (w : W) :
  truthyEnv GOOGLE_SERVICE_ACCOUNT_JSON = false ->
  truthyEnv GOOGLE_APPLICATION_CREDENTIALS = false ->
  readDailyBudget sid tab w = (Throw missingCredentials, w)
  /\ listSheetTitles sid w = (Throw missingCredentials, w)
  /\ duplicateUserTemplate sid name tpl w = (Throw missingCredentials, w)
  /\ ensureUserTab sid name tpl w = (Throw missingCredentials, w)
  /\ writeGeneralInfo sid tab info w = (Throw missingCredentials, w)
  /\ readRange sid range w = (Throw missingCredentials, w)
  /\ findBudgetToday sid tab today w = (Throw missingCredentials, w)
  /\ findBudgetRowIndex sid tab today w = (Throw missingCredentials, w)
  /\ upsertBudgetRow sid tab dateIso b p food w = (Throw missingCredentials, w)
  /\ appendProgressRow sid tab dateIso p w = (Throw missingCredentials, w)
  /\ readFoodList sid tab w = (Throw missingCredentials, w)
  /\ readBudgetRows sid tab w = (Throw missingCredentials, w)
  /\ findUserByEmail sid name tab w = (Throw missingCredentials, w)
  /\ appendUser sid account tab w = (Throw missingCredentials, w)
  /\ mirrorTarget user = None.
Proof.
  intros Hj Hk.
  pose proof (getSheetsClient_unconfigured w Hj Hk) as Hc.
  repeat split;
    try (unfold ensureUserTab, duplicateUserTemplate, findBudgetToday,
           findBudgetRowIndex, upsertBudgetRow, appendProgressRow,
           readFoodList, readBudgetRows, findUserByEmail, appendUser,
           writeGeneralInfo, readDailyBudget, listSheetTitles,
           getSheetIdByTitle, readRange, readRangeUnformatted, bind;
         rewrite Hc; reflexivity).
  unfold mirrorTarget.
  destruct GOOGLE_SHEETS_ID, user; try reflexivity.
  rewrite Hj, Hk. cbn [orb]. rewrite !andb_false_r. reflexivity.
Qed.

End CredentialFacts.

Lemma X5_no_credentials_no_call_witness :
  ensureUserTab (H := offlineHost) "sheet-1" "Ann" "UserTemplate" sampleDoc
  = (Throw missingCredentials, sampleDoc).
Proof.
  destruct (@X5_no_credentials_no_call offlineHost Doc memSheets "sheet-1" "Ann"
              "Ann" "UserTemplate" "2024-03-14" "Apple"
              (a1 "Ann" "D" 6 "H" 1000)
              {| gi_name := "Ann"; gi_heightCm := 170%float;
                 gi_startWeightKg := 64%float; gi_gender := "female";
                 gi_age := 30%float; gi_targetWeightKg := 60%float;
                 gi_targetDateIso := None; gi_dailyBudget := None |}
              (Some noon14) 110%float 6%float (Some ann)
              {| su_name := "Ann"; su_email := "ann@example.com";
                 su_passwordHash := "h" |} sampleDoc
              eq_refl eq_refl) as (_ & _ & _ & He & _).
  exact He.
Defined.

(** *** The two scans of the ledger, and a row written then read *)

Section ScanFacts.
Context `{Host}.
Local Open Scope Z_scope.

Lemma scans_agree_from (rows : list (list JsValue)) (today : Date) (i0 : Z) :
  match scanBudgetRowIndex rows today i0 with
  | Some n =>
      6 + i0 <= n < 6 + i0 + Z.of_nat (length rows)
      /\ exists r,
           rows !! Z.to_nat (n - 6 - i0) = Some r
           /\ cellIsDay (at_index r 0) today = true
           /\ scanBudgetToday rows today = Some (budgetRowOf r)
  | None => scanBudgetToday rows today = None
  end.
Proof.
  revert i0. induction rows as [|r rest IH]; intros i0; cbn [scanBudgetRowIndex
    scanBudgetToday]; [reflexivity|].
  destruct (cellIsDay (at_index r 0) today) eqn:E.
  - split; [cbn [length]; lia|]. exists r.
    replace (6 + i0 - 6 - i0) with 0 by lia. auto.
  - specialize (IH (i0 + 1)).
    destruct (scanBudgetRowIndex rest today (i0 + 1)) as [n|]; [|exact IH].
    destruct IH as (Hn & r0 & Hr0 & Hday & Hrow).
    split; [cbn [length]; lia|]. exists r0.
    replace (Z.to_nat (n - 6 - i0)) with (S (Z.to_nat (n - 6 - (i0 + 1))))
      by lia.
    auto.
Qed.

(** X6 (the two scans agree). Over the same rows, [findBudgetRowIndex] and
    [findBudgetToday] pick the same row: the index is [6] plus the position
    of the row whose values [findBudgetToday] returns, it lies within the
    rows read, and one scan finds nothing exactly when the other does. The
    index scan sees the date column alone, which changes nothing. *)
Theorem X6_scans_agree (rows : list (list JsValue)) (today : Date) :
  scanBudgetRowIndex (map (take 1) rows) today 0
    = scanBudgetRowIndex rows today 0
  /\ match scanBudgetRowIndex rows today 0 with
     | Some n =>
         6 <= n < 6 + Z.of_nat (length rows)
         /\ exists r,
              rows !! Z.to_nat (n - 6) = Some r
              /\ cellIsDay (at_index r 0) today = true
              /\ scanBudgetToday rows today = Some (budgetRowOf r)
     | None => scanBudgetToday rows today = None
     end.
Proof.
  split; [apply scanBudgetRowIndex_dates|].
  pose proof (scans_agree_from rows today 0) as Hs.
  destruct (scanBudgetRowIndex rows today 0) as [n|]; [|exact Hs].
  destruct Hs as (Hn & r & Hr & Hday & Hrow).
  split; [lia|]. exists r.
  replace (n - 6) with (n - 6 - 0) by lia. auto.
Qed.

Lemma sameDay_same_target (a b x : Date) :
  sameDay a b = true -> sameDay x b = sameDay x a.
Proof.
  intros Hab. apply sameDay_true in Hab
    as (y & m & d & Hya & Hyb & Hma & Hmb & Hda & Hdb).
  unfold sameDay. rewrite Hya, Hyb, Hma, Hmb, Hda, Hdb. reflexivity.
Qed.

Lemma cellIsDay_same_target (a b : Date) (v : JsValue) :
  sameDay a b = true -> cellIsDay v b = cellIsDay v a.
Proof.
  intros Hab. unfold cellIsDay.
  destruct (parseAnyDateValue v); [|reflexivity].
  apply sameDay_same_target. exact Hab.
Qed.

Lemma sameDay_valid_refl (t : Z) : sameDay (Some t) (Some t) = true.
Proof. apply sameDay_of_same_local_day. reflexivity. Qed.

End ScanFacts.

Section MemLedgerFacts.
Context `{Host}.
Local Open Scope Z_scope.

Lemma getSheetsClient_configured (d d' : Doc) :
  getSheetsClient d = (Ok tt, d) -> getSheetsClient d' = (Ok tt, d').
Proof.
  intros Hd. destruct (getSheetsClient_cases (W := Doc)) as [Hc|[e Hc]];
    [apply Hc|]. rewrite Hc in Hd. discriminate Hd.
Qed.

Lemma tabIndex_lookup (ts : list Tab) (title : string) (k : nat) :
  tabIndex ts title = Some k ->
  exists t, ts !! k = Some t /\ t_title t = title.
Proof.
  revert k. induction ts as [|t r IH]; intros k; cbn; [discriminate|].
  destruct (String.eqb_spec (t_title t) title) as [E|_].
  - intros [= <-]. exists t. auto.
  - destruct (tabIndex r title) as [j|]; cbn; [|discriminate].
    intros [= <-]. destruct (IH j eq_refl) as (t' & Ht' & Ett). eauto.
Qed.

Lemma tabIndex_insert (ts : list Tab) (title : string) (k : nat) (t' : Tab) :
  tabIndex ts title = Some k -> t_title t' = title ->
  tabIndex (<[k := t']> ts) title = Some k.
Proof.
  revert k. induction ts as [|t r IH]; intros k; cbn; [discriminate|].
  destruct (String.eqb_spec (t_title t) title) as [E|Hne].
  - intros [= <-] Ht'. cbn. rewrite Ht', String.eqb_refl. reflexivity.
  - destruct (tabIndex r title) as [j|] eqn:Ej; cbn; [|discriminate].
    intros [= <-] Ht'.
    change (<[S j := t']> (t :: r)) with (t :: <[j := t']> r).
    cbn [tabIndex].
    destruct (String.eqb_spec (t_title t) title) as [E|_]; [contradiction|].
    rewrite (IH j eq_refl Ht'). reflexivity.
Qed.

Lemma lookup_insert_same {A} (l : list A) (k : nat) (x y : A) :
  l !! k = Some x -> <[k := y]> l !! k = Some y.
Proof.
  intros Hx. apply list_lookup_insert_eq. eapply lookup_lt_Some. exact Hx.
Qed.

(** What [upsertBudgetRow] leaves on the in-memory sheet. *)
Lemma upsertBudgetRow_mem (sid tab dateIso : string) (b p : number)
    (f : string) (d : Doc) (k : nat) (t : Tab) :
  let row := [JStr dateIso; JNum b; JStr f; JNum p; JNum (b - p)%float] in
  let day := Date_of_string dateIso in
  faults d = [] ->
  getSheetsClient d = (Ok tt, d) ->
  tabIndex (tabs d) tab = Some k ->
  tabs d !! k = Some t ->
  (length (t_ledger t) <= 995)%nat ->
  exists pre post,
    Forall (fun r => cellIsDay (at_index r 0) day = false) pre
    /\ (length (pre ++ row :: post) <= S (length (t_ledger t)))%nat
    /\ upsertBudgetRow sid tab dateIso b p f d
       = (Ok tt, setTab d k (withLedger t (pre ++ row :: post))).
Proof.
  intros row day Hq Hc Hk Ht Hlen.
  assert (Hread : values_get sid (a1 tab "D" 6 "D" 1000) UNFORMATTED_VALUE d
                  = (Ok (map (take 1) (t_ledger t)), d)).
  { cbn [values_get memSheets]. unfold mem_values_get.
    rewrite (call_quiet _ _ Hq). cbn [a1_tab]. rewrite Hk.
    change (regionOf (a1 tab "D" 6 "D" 1000)) with (Some LedgerDates).
    rewrite Ht, map_shown_unformatted, (take_all_bounded _ _ Hlen).
    reflexivity. }
  rewrite (upsertBudgetRow_call _ _ _ _ _ _ _ _ _ Hc Hread). cbv zeta.
  rewrite scanBudgetRowIndex_dates. fold day.
  pose proof (scanBudgetRowIndex_first (t_ledger t) day 0) as Hscan.
  destruct (scanBudgetRowIndex (t_ledger t) day 0) as [n|].
  - destruct Hscan as (pre & r & post & Hl & Hpre & Hm & ->).
    exists pre, post. split; [exact Hpre|].
    split; [rewrite Hl, !length_app; cbn [length]; lia|].
    cbn [values_update memSheets]. unfold mem_values_update.
    rewrite (call_quiet _ _ Hq). cbn [a1_tab]. rewrite Hk.
    rewrite regionOf_ledger_row by lia. rewrite Ht.
    replace (Z.to_nat (6 + (0 + Z.of_nat (length pre)) - 6))
      with (length pre) by lia.
    unfold putRow. rewrite Hl.
    destruct (Nat.ltb_spec (length pre) (length (pre ++ r :: post)))
      as [_|Hbad]; [|rewrite length_app in Hbad; cbn in Hbad; lia].
    rewrite insert_middle. reflexivity.
  - exists (t_ledger t), []. split; [exact Hscan|].
    split; [rewrite length_app; cbn [length]; lia|].
    cbn [values_append memSheets]. unfold mem_values_append.
    rewrite (call_quiet _ _ Hq). cbn [a1_tab]. rewrite Hk.
    change (regionOf (a1 tab "D" 6 "H" 6)) with (Some (LedgerRow 0)).
    rewrite Ht. reflexivity.
Qed.

Lemma at_index_map_head (g : JsValue -> JsValue) (r : list JsValue) :
  at_index (map g r) 0
  = match r with [] => JUndefined | v :: _ => g v end.
Proof. destruct r; reflexivity. Qed.

Lemma scanBudgetToday_rendered (g : JsValue -> JsValue) (today : Date)
    (pre post : list (list JsValue)) (row : list JsValue) (v : JsValue) :
  (forall v, cellIsDay (g v) today = cellIsDay v today) ->
  Forall (fun r => cellIsDay (at_index r 0) today = false) pre ->
  at_index row 0 = v -> row <> [] -> cellIsDay v today = true ->
  scanBudgetToday (map (map g) (pre ++ row :: post)) today
  = Some (budgetRowOf (map g row)).
Proof.
  intros Hg Hpre Hv Hne Hday.
  assert (Hcell : forall r, cellIsDay (at_index (map g r) 0) today
                            = cellIsDay (at_index r 0) today).
  { intros [|x r]; [reflexivity|]. cbn. apply Hg. }
  induction Hpre as [|r pre' Hr _ IH]; cbn [app map scanBudgetToday].
  - rewrite Hcell, Hv, Hday. reflexivity.
  - rewrite Hcell, Hr. exact IH.
Qed.

(** X7 (written, then found). On the in-memory sheet with fewer than 995
    ledger rows, when the ISO date given to [upsertBudgetRow] is a valid date
    and formatting does not change which day a cell shows, the row written
    is the row [findBudgetToday] returns afterwards for any instant of that
    day: the first row of the day is the one just written, as the service
    formats it. *)
Theorem X7_upsert_then_find (sid tab dateIso : string) (b p : number)
    (f : string) (d : Doc) (k : nat) (t : Tab) (t0 : Z) (today : Date) :
  faults d = [] ->
  getSheetsClient d = (Ok tt, d) ->
  tabIndex (tabs d) tab = Some k ->
  tabs d !! k = Some t ->
  (length (t_ledger t) < 995)%nat ->
  isEmptyStr dateIso = false ->
  Date_of_string dateIso = Some t0 ->
  sameDay (Some t0) today = true ->
  (forall v, cellIsDay (render d v) today = cellIsDay v today) ->
  exists d1 : Doc,
    upsertBudgetRow sid tab dateIso b p f d = (Ok tt, d1)
    /\ findBudgetToday sid tab today d1
       = (Ok (Some (budgetRowOf
                      (map (render d)
                         [JStr dateIso; JNum b; JStr f; JNum p;
                          JNum (b - p)%float]))), d1).
Proof.
  intros Hq Hc Hk Ht Hlen Hne Hdate Hsame Hrender.
  destruct (upsertBudgetRow_mem sid tab dateIso b p f d k t Hq Hc Hk Ht
              ltac:(lia)) as (pre & post & Hpre & Hlen' & Hup).
  eexists. split; [exact Hup|].
  set (row := [JStr dateIso; JNum b; JStr f; JNum p; JNum (b - p)%float]) in *.
  set (d1 := setTab d k (withLedger t (pre ++ row :: post))).
  assert (Hq1 : faults d1 = []) by exact Hq.
  unfold findBudgetToday, readRange, bind.
  rewrite (getSheetsClient_configured d d1 Hc).
  cbn [values_get memSheets]. unfold mem_values_get.
  rewrite (call_quiet _ _ Hq1). cbn [a1_tab].
  assert (Hk1 : tabIndex (tabs d1) tab = Some k).
  { unfold d1, setTab. cbn [tabs withTabs]. apply tabIndex_insert; [exact Hk|].
    cbn [t_title withLedger].
    destruct (tabIndex_lookup _ _ _ Hk) as (t' & Ht' & Ett). congruence. }
  rewrite Hk1.
  change (regionOf (a1 tab "D" 6 "H" 1000)) with (Some Ledger).
  assert (Ht1 : tabs d1 !! k = Some (withLedger t (pre ++ row :: post))).
  { unfold d1, setTab. cbn [tabs withTabs]. eapply lookup_insert_same, Ht. }
  rewrite Ht1. cbn [t_ledger withLedger].
  rewrite take_all_bounded by lia.
  unfold ret. do 2 f_equal.
  change (map (shown d1 FORMATTED_VALUE)) with (map (render d)).
  eapply (scanBudgetToday_rendered (render d) today pre post row
            (JStr dateIso)); [exact Hrender| |reflexivity|discriminate|].
  - eapply List.Forall_impl; [|exact Hpre]. intros r Hr. cbv beta in Hr.
    rewrite Hdate in Hr.
    rewrite (cellIsDay_same_target _ _ _ Hsame). exact Hr.
  - rewrite (cellIsDay_same_target _ _ _ Hsame).
    unfold cellIsDay. rewrite (parse_string_native _ _ Hne Hdate).
    apply sameDay_valid_refl.
Qed.

End MemLedgerFacts.

Lemma X7_upsert_then_find_witness :
  exists d1 : Doc,
    upsertBudgetRow (H := sampleHost) "sheet-1" "Ann" "2024-03-14" 110%float
      7%float "Apple | Rice" sampleDoc = (Ok tt, d1)
    /\ findBudgetToday (H := sampleHost) "sheet-1" "Ann" (Some noon14) d1
       = (Ok (Some {| date := "2024-03-14"; dailyBudget := 110%float;
                      food := "Apple | Rice"; price := 7%float;
                      surplus := 103%float |}), d1).
Proof.
  destruct (X7_upsert_then_find (H := sampleHost) "sheet-1" "Ann" "2024-03-14"
              110%float 7%float "Apple | Rice" sampleDoc 1 annTab
              1710374400000%Z (Some noon14)
              eq_refl eq_refl eq_refl eq_refl ltac:(vm_compute; lia) eq_refl
              ltac:(vm_compute; reflexivity) ltac:(vm_compute; reflexivity)
              ltac:(intros v; reflexivity))
    as (d1 & Hup & Hfind).
  exists d1. split; [exact Hup|].
  rewrite Hfind. vm_compute. reflexivity.
Defined.

(** *** Cloning the template on the in-memory sheet *)

Section CloneFacts.
Context `{Host}.
Local Open Scope Z_scope.

Lemma fold_max_bound (zs : list Z) (z : Z) :
  In z zs -> z <= fold_right Z.max 0 zs.
Proof.
  induction zs as [|a r IH]; cbn; [tauto|].
  intros [->|Hz]; [lia|]. specialize (IH Hz). lia.
Qed.

Lemma freshSheetId_new (ts : list Tab) (t : Tab) :
  In t ts -> t_id t <> freshSheetId ts.
Proof.
  intros Ht. unfold freshSheetId.
  pose proof (fold_max_bound (map t_id ts) (t_id t) (in_map _ _ _ Ht)). lia.
Qed.

(** Without a template tab nothing is cloned. *)
Lemma duplicateUserTemplate_no_template (sid name tpl : string) (d : Doc) :
  faults d = [] ->
  getSheetsClient d = (Ok tt, d) ->
  List.find (fun t => String.eqb (t_title t) tpl) (tabs d) = None ->
  duplicateUserTemplate sid name tpl d
    = (Throw ("Template sheet not found: " +:+ tpl), d).
Proof.
  intros Hq Hc Hnone. unfold duplicateUserTemplate, bind.
  rewrite (getSheetIdByTitle_mem _ _ _ Hq Hc), Hnone. reflexivity.
Qed.

(** X8 (the template is missing). On a sheet that answers, with credentials
    configured, [duplicateUserTemplate] throws "Template sheet not found"
    when no tab has the template's title, and so does [ensureUserTab] when in
    addition no tab counts as the user's; the document is left as it is. *)
Theorem X8_template_missing (sid name tpl : string) (d : Doc) :
  faults d = [] ->
  getSheetsClient d = (Ok tt, d) ->
  List.find (fun t => String.eqb (t_title t) tpl) (tabs d) = None ->
  duplicateUserTemplate sid name tpl d
    = (Throw ("Template sheet not found: " +:+ tpl), d)
  /\ (List.find (isUserTab (sanitizeSheetTitle name)) (docTitles d) = None ->
      ensureUserTab sid name tpl d
        = (Throw ("Template sheet not found: " +:+ tpl), d)).
Proof.
  intros Hq Hc Hnone.
  pose proof (duplicateUserTemplate_no_template sid name tpl d Hq Hc Hnone)
    as Hdup.
  split; [exact Hdup|]. intros Hf.
  rewrite (ensureUserTab_missing _ _ _ _ _ _ (listSheetTitles_mem sid d Hq Hc)
             Hf).
  exact Hdup.
Qed.

(** The clone of the template: the title chosen, the tab copied and the
    document that results. *)
Lemma duplicateUserTemplate_mem (sid name tpl : string) (d : Doc)
    (src0 : Tab) :
  faults d = [] ->
  getSheetsClient d = (Ok tt, d) ->
  List.find (fun t => String.eqb (t_title t) tpl) (tabs d) = Some src0 ->
  exists (t : string) (src : Tab),
    uniqueTitle sid (sanitizeSheetTitle name) d = (Ok t, d)
    /\ includes (docTitles d) t = false
    /\ isEmptyStr t = false
    /\ List.find (fun t' => t_id t' =? t_id src0) (tabs d) = Some src
    /\ duplicateUserTemplate sid name tpl d
       = (Ok t,
          withTabs d
            (take (insertAt d) (tabs d)
             ++ {| t_title := t; t_id := freshSheetId (tabs d);
                   t_info := t_info src; t_progress := t_progress src;
                   t_ledger := t_ledger src |}
             :: drop (insertAt d) (tabs d))).
Proof.
  intros Hq Hc Hsrc. set (base := sanitizeSheetTitle name).
  assert (Hid : t_id <$> List.find (fun t => String.eqb (t_title t) tpl) (tabs d)
                = Some (t_id src0)) by (rewrite Hsrc; reflexivity).
  destruct (find_by_id_of_title _ _ _ Hid) as [src Hbyid].
  destruct (uniqueTitle_free sid base d d (docTitles d)
              (listSheetTitles_mem sid d Hq Hc))
    as (t & Hu & Hfree & Hform).
  assert (Hne : isEmptyStr t = false).
  { destruct Hform as [->|(_ & i & _ & -> & _)].
    - apply sanitizeSheetTitle_nonempty.
    - unfold numbered. destruct base; reflexivity. }
  exists t, src. split; [exact Hu|]. split; [exact Hfree|].
  split; [exact Hne|]. split; [exact Hbyid|].
  assert (Hgot : getSheetIdByTitle sid tpl d = (Ok (Some (t_id src0)), d)).
  { rewrite (getSheetIdByTitle_mem _ _ _ Hq Hc), Hsrc. reflexivity. }
  rewrite (duplicateUserTemplate_clone _ _ _ _ _ _ _ _ Hgot Hu Hc).
  cbn [duplicateSheet memSheets]. unfold mem_duplicateSheet.
  rewrite (call_quiet _ _ Hq), Hbyid.
  rewrite (title_taken _ _ Hne). fold (docTitles d). rewrite Hfree.
  reflexivity.
Qed.

(** X9 (the clone). On a sheet that answers, with credentials configured and
    a template tab, [duplicateUserTemplate] succeeds: the title it returns is
    the one [uniqueTitle] chose, which no tab had; the document gains exactly
    one tab, a copy of a tab with the template's sheet id under that title
    and a sheet id no tab had, placed where the service inserts it; every
    former tab is kept as it was. *)
Theorem X9_duplicateUserTemplate_adds_one (sid name tpl : string) (d : Doc)
    (src0 : Tab) :
  faults d = [] ->
  getSheetsClient d = (Ok tt, d) ->
  List.find (fun t => String.eqb (t_title t) tpl) (tabs d) = Some src0 ->
  exists (t : string) (src copy : Tab),
    duplicateUserTemplate sid name tpl d
      = (Ok t, withTabs d (take (insertAt d) (tabs d) ++ copy
                           :: drop (insertAt d) (tabs d)))
    /\ In src (tabs d) /\ t_id src = t_id src0
    /\ copy = {| t_title := t; t_id := freshSheetId (tabs d);
                 t_info := t_info src; t_progress := t_progress src;
                 t_ledger := t_ledger src |}
    /\ Forall (fun t' => t_title t' <> t /\ t_id t' <> t_id copy) (tabs d)
    /\ (t = sanitizeSheetTitle name
        \/ exists i : N, (1 <= i)%N /\ t = numbered (sanitizeSheetTitle name) i).
Proof.
  intros Hq Hc Hsrc.
  destruct (duplicateUserTemplate_mem sid name tpl d src0 Hq Hc Hsrc)
    as (t & src & Hu & Hfree & Hne & Hbyid & Hres).
  exists t, src, {| t_title := t; t_id := freshSheetId (tabs d);
                    t_info := t_info src; t_progress := t_progress src;
                    t_ledger := t_ledger src |}.
  split; [exact Hres|].
  apply find_first in Hbyid as (pre & post & Htabs & _ & Hsame).
  split; [rewrite Htabs; apply in_or_app; right; left; reflexivity|].
  split; [apply Z.eqb_eq; exact Hsame|].
  split; [reflexivity|].
  split.
  { apply List.Forall_forall. intros t' Ht'. cbn [t_id]. split.
    - intros E.
      assert (Hin : includes (docTitles d) t = true).
      { unfold docTitles. rewrite <- (title_taken _ _ Hne).
        apply existsb_exists.
        exists t'. split; [exact Ht'|]. rewrite E. apply String.eqb_refl. }
      congruence.
    - apply freshSheetId_new. exact Ht'. }
  destruct (uniqueTitle_free sid (sanitizeSheetTitle name) d d (docTitles d)
              (listSheetTitles_mem sid d Hq Hc))
    as (t2 & Hu2 & _ & Hform).
  rewrite Hu in Hu2. injection Hu2 as <-.
  destruct Hform as [->|(_ & i & Hi & -> & _)]; [left; reflexivity|].
  right. exists i. auto.
Qed.

End CloneFacts.

Lemma X8_template_missing_witness :
  ensureUserTab (H := sampleHost) "sheet-1" "Bob" "Blank" sampleDoc
  = (Throw "Template sheet not found: Blank", sampleDoc).
Proof.
  destruct (X8_template_missing (H := sampleHost) "sheet-1" "Bob" "Blank"
              sampleDoc eq_refl eq_refl eq_refl) as [_ He].
  exact (He eq_refl).
Defined.

Lemma X9_duplicateUserTemplate_adds_one_witness :
  exists (t : string) (d1 : Doc),
    duplicateUserTemplate (H := sampleHost) "sheet-1" "Ann" "UserTemplate"
      sampleDoc = (Ok t, d1)
    /\ t = "Ann (1)" /\ length (tabs d1) = 3%nat.
Proof.
  destruct (X9_duplicateUserTemplate_adds_one (H := sampleHost) "sheet-1" "Ann"
              "UserTemplate" sampleDoc templateTab eq_refl eq_refl eq_refl)
    as (t & src & copy & Hres & _).
  exists t, (withTabs sampleDoc
               (take (insertAt sampleDoc) (tabs sampleDoc) ++ copy
                :: drop (insertAt sampleDoc) (tabs sampleDoc))).
  split; [exact Hres|].
  split; [|reflexivity].
  assert (E : (duplicateUserTemplate (H := sampleHost) "sheet-1" "Ann"
                 "UserTemplate" sampleDoc).1 = Ok "Ann (1)")
    by (vm_compute; reflexivity).
  rewrite Hres in E. injection E as E. exact E.
Defined.

(** *** The handlers on the store ([index.ts]) *)

Section DeleteFacts.
Context `{Host} {W : Type} `{SheetsApi W}.

Lemma NoDup_key_inj {A B} (f : A -> B) (l : list A) (x y : A) :
  NoDup (map f l) -> In x l -> In y l -> f x = f y -> x = y.
Proof.
  induction l as [|a r IH]; cbn; [tauto|].
  intros Hnd Hx Hy E. inversion Hnd as [|? ? Ha Hr]; subst.
  rewrite list_elem_of_In in Ha.
  destruct Hx as [->|Hx], Hy as [->|Hy]; [reflexivity| | |auto].
  - exfalso. apply Ha. rewrite E. apply in_map. exact Hy.
  - exfalso. apply Ha. rewrite <- E. apply in_map. exact Hx.
Qed.

Lemma find_some_id (ls : list FoodLog) (id : string) (e : FoodLog) :
  List.find (fun l => String.eqb (fl_id l) id) ls = Some e ->
  In e ls /\ fl_id e = id.
Proof.
  intros Hf. apply find_some in Hf as [Hin He].
  split; [exact Hin|]. apply String.eqb_eq. exact He.
Qed.

(** X10 (deleting is the owner's). With entry ids that are unique, DELETE
    /api/food-log/:id answers 404 and changes neither the store nor the
    sheet exactly when no entry with that id belongs to the requester (the
    session's user, ["demo"] without a session); otherwise it answers 200
    and the store loses that entry and nothing else. It never answers 500,
    and no request removes an entry of another user. *)
Theorem X10_deleteFoodLog_owner_only (req : Request) (st : Store) (w : W) :
  NoDup (map fl_id (foodLogs st)) ->
  let uid := default "demo" (requireUser req) in
  let mine (e : FoodLog) :=
    In e (foodLogs st) /\ fl_id e = param_id req /\ fl_userId e = uid in
  (deleteFoodLog req st w = (Respond 404 (ErrorJson "not found"), st, w)
   /\ forall e, ~ mine e)
  \/ exists (e : FoodLog) (st' : Store) (w' : W),
       mine e
       /\ deleteFoodLog req st w = (Respond 200 OkJson, st', w')
       /\ (forall l, In l (foodLogs st') <-> In l (foodLogs st) /\ l <> e)
       /\ users st' = users st /\ profiles st' = profiles st
       /\ foodItems st' = foodItems st /\ weightLogs st' = weightLogs st.
Proof.
  intros Hnd uid mine. unfold deleteFoodLog. fold uid.
  destruct (foodLog_findUnique st (param_id req)) as [entry|] eqn:Hf.
  - apply find_some_id in Hf as Hentry. destruct Hentry as [Hin Hid].
    destruct (String.eqb_spec (fl_userId entry) uid) as [Hu|Hu]; cbn [negb].
    + right. unfold foodLog_delete. rewrite Hf.
      eexists entry, _, _. split; [repeat split; assumption|].
      split; [reflexivity|]. cbn [foodLogs users profiles foodItems weightLogs].
      split; [|auto]. intros l. rewrite filter_In. split.
      * intros [Hl Hne]. split; [exact Hl|]. intros ->.
        rewrite Hid, String.eqb_refl in Hne. discriminate Hne.
      * intros [Hl Hne]. split; [exact Hl|].
        apply negb_true_iff, String.eqb_neq. intros E. apply Hne.
        apply (NoDup_key_inj fl_id (foodLogs st)); congruence.
    + left. split; [reflexivity|]. intros e (He & Heid & Heu).
      apply Hu. rewrite <- Heu. f_equal.
      apply (NoDup_key_inj fl_id (foodLogs st)); congruence.
  - left. split; [reflexivity|]. intros e (He & Heid & _).
    exact (find_none_id _ _ Hf e He Heid).
Qed.

End DeleteFacts.

Lemma X10_deleteFoodLog_owner_only_witness :
  exists (st' : Store) (w' : Doc),
    deleteFoodLog (H := sampleHost) (annRequest [] "l1") sampleStore sampleDoc
      = (Respond 200 OkJson, st', w')
    /\ foodLogs st' = [].
Proof.
  destruct (@X10_deleteFoodLog_owner_only sampleHost Doc memSheets
              (annRequest [] "l1") sampleStore sampleDoc
              ltac:(apply NoDup_singleton))
    as [[H404 _]|(e & st' & w' & _ & Hres & _)].
  - vm_compute in H404. discriminate H404.
  - exists st', w'. split; [exact Hres|].
    assert (E : foodLogs (deleteFoodLog (H := sampleHost) (annRequest [] "l1")
                            sampleStore sampleDoc).1.2 = [])
      by (vm_compute; reflexivity).
    rewrite Hres in E. exact E.
Defined.

Section WriteFacts.
Context `{Host} {W : Type} `{SheetsApi W}.
Local Open Scope Z_scope.

Lemma foodLog_create_invalid (uid fid : string) (portion cost : number)
    (st : Store) :
  exists msg, foodLog_create uid fid portion None cost st = (Throw msg, st).
Proof. eexists. reflexivity. Qed.

(** X11 (an unreadable time). When [occurred_at] is a non-empty string that
    the Date constructor cannot read, POST /api/food-log answers 500, writes
    nothing to the sheet and creates no entry; yet the food item is created
    or updated before the failure: for a signed-in user, a [duby] that the
    store takes for its DECIMAL column and a food name not seen before, the
    store has gained the item. *)
Theorem X11_postFoodLog_unreadable_time (req : Request) (now : Z) (st : Store)
    (w : W) (p : FoodLogInput) (s : string) :
  FoodLogSchema (body req) = Some p ->
  fl_occurred_at p = Some s -> isEmptyStr s = false ->
  Date_of_string s = None ->
  exists (msg : string) (st' : Store),
    postFoodLog req now st w = (Respond 500 (ErrorJson msg), st', w)
    /\ foodLogs st' = foodLogs st
    /\ (forall uid : string,
          requireUser req = Some uid -> uid <> "demo" ->
          Decimal_accepts (fl_duby p) = true ->
          foodItem_findFirst st (fl_name p) = None ->
          foodItem_byId st (freshId st) = None ->
          foodItems st'
          = foodItems st ++ [{| fi_id := freshId st; fi_name := fl_name p;
                                fi_duby := fl_duby p; fi_unit := fl_unit p |}]).
Proof.
  intros Hp Hs Hne Hbad. unfold postFoodLog. rewrite Hp.
  set (uid := default "demo" (requireUser req)).
  assert (Hwhen : (if truthyStr (fl_occurred_at p)
                   then match fl_occurred_at p with
                        | Some s => Date_of_string s
                        | None => Some now
                        end
                   else Some now) = None).
  { rewrite Hs. cbn [truthyStr]. rewrite Hne. exact Hbad. }
  unfold createFoodLog, bind, reading. rewrite Hwhen.
  destruct ((if String.eqb uid "demo" then user_upsertDemo else ret tt) st)
    as [[[]|e] sta] eqn:Ea.
  2:{ eexists _, _. split; [reflexivity|]. split.
      - destruct (String.eqb uid "demo").
        + eapply user_upsertDemo_logs. exact Ea.
        + injection Ea as _ <-. reflexivity.
      - intros u Hu Hnd. exfalso. subst uid. rewrite Hu in Ea. cbn in Ea.
        apply String.eqb_neq in Hnd. rewrite Hnd in Ea. discriminate Ea. }
  assert (La : foodLogs sta = foodLogs st).
  { destruct (String.eqb uid "demo").
    - eapply user_upsertDemo_logs. exact Ea.
    - injection Ea as <-. reflexivity. }
  assert (Hsame : forall u, requireUser req = Some u -> u <> "demo" ->
                            sta = st).
  { intros u Hu Hnd. subst uid. rewrite Hu in Ea. cbn in Ea.
    apply String.eqb_neq in Hnd. rewrite Hnd in Ea.
    injection Ea as <-. reflexivity. }
  destruct (foodItem_findFirst sta (fl_name p)) as [existing|] eqn:Efind.
  - destruct (foodItem_update (fi_id existing) (fl_duby p) (fl_unit p) sta)
      as [[updated|e] stb] eqn:Eb.
    + pose proof (foodItem_update_logs _ _ _ _ _ _ Eb) as Lb.
      cbn [ret]. eexists _, _. split; [reflexivity|].
      split; [congruence|].
      intros u Hu Hnd _ Hnew _. rewrite (Hsame u Hu Hnd) in Efind.
      congruence.
    + pose proof (foodItem_update_logs _ _ _ _ _ _ Eb) as Lb.
      eexists _, _. split; [reflexivity|]. split; [congruence|].
      intros u Hu Hnd _ Hnew _. rewrite (Hsame u Hu Hnd) in Efind.
      congruence.
  - destruct (foodItem_create (fl_name p) (fl_duby p) (fl_unit p) sta)
      as [[created|e] stb] eqn:Eb.
    + pose proof (foodItem_create_logs _ _ _ _ _ _ Eb) as Lb.
      cbn [ret]. eexists _, _. split; [reflexivity|].
      split; [congruence|].
      intros u Hu Hnd Hacc _ Hfree. rewrite (Hsame u Hu Hnd) in Eb.
      unfold foodItem_create in Eb. rewrite Hacc, Hfree in Eb.
      injection Eb as _ <-. reflexivity.
    + pose proof (foodItem_create_logs _ _ _ _ _ _ Eb) as Lb.
      eexists _, _. split; [reflexivity|]. split; [congruence|].
      intros u Hu Hnd Hacc _ Hfree. rewrite (Hsame u Hu Hnd) in Eb.
      unfold foodItem_create in Eb. rewrite Hacc, Hfree in Eb.
      discriminate Eb.
Qed.

(** X12 (the demo address is taken). Once a user other than ["demo"] holds the
    address demo@example.com, every request without a session to POST
    /api/food-log or POST /api/weight-log with a valid body answers 500: the
    upsert of the demo user breaks the unique index on the address. Nothing
    is stored and no call reaches the sheet. *)
Theorem X12_anonymous_needs_demo_address (req : Request) (now : Z) (st : Store)
    (w : W) :
  requireUser req = None ->
  user_findUnique st "demo" = None ->
  existsb (fun u => String.eqb (u_email u) "demo@example.com") (users st)
    = true ->
  (forall p, FoodLogSchema (body req) = Some p ->
     exists msg, postFoodLog req now st w = (Respond 500 (ErrorJson msg), st, w))
  /\ (forall p, WeightLogSchema (body req) = Some p ->
        exists msg,
          postWeightLog req now st w = (Respond 500 (ErrorJson msg), st, w)).
Proof.
  intros Hanon Hnodemo Htaken.
  assert (Hup : exists msg, user_upsertDemo st = (Throw msg, st)).
  { unfold user_upsertDemo. rewrite Hnodemo, Htaken. eauto. }
  destruct Hup as [msg Hup].
  split; intros p Hp.
  - unfold postFoodLog. rewrite Hp, Hanon. cbn [default].
    unfold createFoodLog, bind. rewrite String.eqb_refl, Hup. eauto.
  - unfold postWeightLog. rewrite Hp, Hanon. cbn [default].
    unfold createWeightLog, bind. rewrite String.eqb_refl, Hup. eauto.
Qed.

(** What a weight log that was created has added to the store. *)
Lemma createWeightLog_ok (p : WeightLogInput) (uid : string) (now : Z)
    (st st1 : Store) :
  createWeightLog p uid now st = (Ok tt, st1) ->
  exists l : WeightLog,
    weightLogs st1 = weightLogs st ++ [l]
    /\ wl_userId l = uid
    /\ wl_weightKg l = wl_weight_kg p
    /\ weightDate p now = Some (wl_date l)
    /\ foodLogs st1 = foodLogs st /\ foodItems st1 = foodItems st
    /\ profiles st1 = profiles st
    /\ (uid <> "demo" -> users st1 = users st).
Proof.
  intros Hc. unfold createWeightLog, bind in Hc.
  destruct ((if String.eqb uid "demo" then user_upsertDemo else ret tt) st)
    as [[[]|e] sta] eqn:Ea; [|discriminate Hc].
  assert (Hsta : weightLogs sta = weightLogs st /\ foodLogs sta = foodLogs st
                 /\ foodItems sta = foodItems st /\ profiles sta = profiles st
                 /\ (uid <> "demo" -> users sta = users st)).
  { destruct (String.eqb_spec uid "demo") as [E|E].
    - unfold user_upsertDemo in Ea.
      destruct (user_findUnique st "demo");
        [|destruct (existsb _ _)]; try discriminate Ea;
        injection Ea as <-; cbn; tauto.
    - injection Ea as <-. tauto. }
  destruct Hsta as (Lw & Lf & Li & Lp & Lu).
  unfold weightLog_create in Hc.
  destruct (weightDate p now) as [t|] eqn:Ed; [|discriminate Hc].
  destruct (Decimal_accepts (wl_weight_kg p)); cbn [negb] in Hc;
    [|discriminate Hc].
  destruct (user_findUnique sta uid); [|discriminate Hc].
  destruct (existsb _ _); [discriminate Hc|].
  injection Hc as <-. cbn [weightLogs foodLogs foodItems profiles users].
  eexists. split; [rewrite Lw; reflexivity|].
  cbn [wl_userId wl_weightKg wl_date].
  repeat split; assumption.
Qed.

(** X13 (a weight is logged). When POST /api/weight-log answers 201 the store
    has gained exactly one weight log, for the requester, with the posted
    weight, which is positive, dated at the instant of the request when no
    date was sent; the other tables are as before, but for the demo user
    that a request without a session may add. *)
Theorem X13_postWeightLog_appends (req : Request) (now : Z) (st st1 : Store)
    (w w1 : W) (p : WeightLogInput) :
  WeightLogSchema (body req) = Some p ->
  postWeightLog req now st w = (Respond 201 OkJson, st1, w1) ->
  exists l : WeightLog,
    weightLogs st1 = weightLogs st ++ [l]
    /\ wl_userId l = default "demo" (requireUser req)
    /\ wl_weightKg l = wl_weight_kg p
    /\ (0 <? wl_weightKg l)%float = true
    /\ (truthyStr (wl_date_in p) = false -> wl_date l = now)
    /\ foodLogs st1 = foodLogs st /\ foodItems st1 = foodItems st
    /\ profiles st1 = profiles st
    /\ (default "demo" (requireUser req) <> "demo" -> users st1 = users st).
Proof.
  intros Hp Hpost. unfold postWeightLog in Hpost. rewrite Hp in Hpost.
  set (uid := default "demo" (requireUser req)) in *.
  destruct (createWeightLog p uid now st) as [[[]|e] st'] eqn:Hc;
    [|discriminate Hpost].
  injection Hpost as <- _.
  destruct (createWeightLog_ok _ _ _ _ _ Hc)
    as (l & Hl & Hu & Hw & Hd & Hrest).
  exists l. split; [exact Hl|]. split; [exact Hu|]. split; [exact Hw|].
  split.
  { rewrite Hw. unfold WeightLogSchema, check in Hp.
    destruct (body req) as [o|]; [cbn in Hp|discriminate Hp].
    destruct (z_number (field o "weight_kg")) as [wk|];
      [cbn in Hp|discriminate Hp].
    destruct (0 <? wk)%float eqn:Hpos; [cbn in Hp|discriminate Hp].
    destruct (z_string_optional (field o "date")); [cbn in Hp|discriminate Hp].
    injection Hp as <-. exact Hpos. }
  split; [|exact Hrest].
  intros Hno. unfold weightDate in Hd. rewrite Hno in Hd. congruence.
Qed.

End WriteFacts.

Lemma X11_postFoodLog_unreadable_time_witness :
  exists (msg : string) (st' : Store),
    postFoodLog (H := sampleHost) teaRequest noon14 sampleStore sampleDoc
      = (Respond 500 (ErrorJson msg), st', sampleDoc)
    /\ foodLogs st' = foodLogs sampleStore
    /\ map fi_name (foodItems st') = ["Apple"; "Tea"].
Proof.
  destruct (@X11_postFoodLog_unreadable_time sampleHost Doc memSheets teaRequest
              noon14 sampleStore sampleDoc teaInput "soon"
              ltac:(vm_compute; reflexivity) eq_refl eq_refl eq_refl)
    as (msg & st' & Hres & Hlogs & Hitems).
  exists msg, st'. split; [exact Hres|]. split; [exact Hlogs|].
  rewrite (Hitems "u1" eq_refl ltac:(discriminate) eq_refl eq_refl eq_refl).
  reflexivity.
Defined.

Lemma X12_anonymous_needs_demo_address_witness :
  exists msg : string,
    postWeightLog (H := sampleHost) (anonRequest [("weight_kg", JNum 63.5%float)])
      noon14 danStore sampleDoc
    = (Respond 500 (ErrorJson msg), danStore, sampleDoc).
Proof.
  destruct (@X12_anonymous_needs_demo_address sampleHost Doc memSheets
              (anonRequest [("weight_kg", JNum 63.5%float)]) noon14 danStore
              sampleDoc eq_refl eq_refl eq_refl) as [_ Hw].
  exact (Hw weighInput ltac:(vm_compute; reflexivity)).
Defined.

Lemma X13_postWeightLog_appends_witness :
  exists l : WeightLog,
    weightLogs (postWeightLog (H := sampleHost) weighRequest noon14
                  sampleStore sampleDoc).1.2 = [l]
    /\ wl_userId l = "u1" /\ wl_weightKg l = 63.5%float
    /\ wl_date l = noon14.
Proof.
  destruct (@X13_postWeightLog_appends sampleHost Doc memSheets weighRequest
              noon14 sampleStore
              (postWeightLog (H := sampleHost) weighRequest noon14
                 sampleStore sampleDoc).1.2
              sampleDoc
              (postWeightLog (H := sampleHost) weighRequest noon14
                 sampleStore sampleDoc).2
              weighInput
              ltac:(vm_compute; reflexivity) ltac:(vm_compute; reflexivity))
    as (l & Hl & Hu & Hw & _ & Hd & _).
  exists l. split; [exact Hl|]. split; [exact Hu|]. split; [exact Hw|].
  apply Hd. reflexivity.
Defined.

(** *** The budget of a profile ([index.ts]) *)

Section BudgetRangeFacts.
Local Open Scope float_scope.

Lemma dailyOf_score (g : string) (a h w : number) (act : ActivityLevel) :
  dailyOf g a h w act = estimateWWPoints g a h w * 9 + 2.
Proof.
  unfold dailyOf, computeDailyDuby.
  pose proof (score_positive g a h w) as Hpos. cbv zeta in Hpos.
  rewrite Hpos. reflexivity.
Qed.

(** X14 (the range of the budget). Whatever the profile, the daily budget is
    a whole number from 83 to 236, nine times a score from 9 to 26 plus two;
    the activity level has no part in it. *)
Theorem X14_dailyOf_range (g : string) (a h w : number) (act act' : ActivityLevel) :
  (83 <=? dailyOf g a h w act) = true
  /\ (dailyOf g a h w act <=? 236) = true
  /\ isInteger (dailyOf g a h w act) = true
  /\ (9 <=? estimateWWPoints g a h w) = true
  /\ (estimateWWPoints g a h w <=? 26) = true
  /\ dailyOf g a h w act = dailyOf g a h w act'.
Proof.
  rewrite !dailyOf_score. unfold estimateWWPoints. cbv zeta.
  destruct (startsWith (toLowerCase g) "m");
    (destruct (90 <=? w); [|destruct (75 <=? w); [|destruct (60 <=? w)]]);
    (destruct (175 <=? h); [|destruct (160 <=? h)]);
    (destruct (a <? 26); [|destruct (a <? 37);
      [|destruct (a <? 47); [|destruct (a <? 58)]]]);
    vm_compute; repeat split; reflexivity.
Qed.

End BudgetRangeFacts.

Section ProfileFacts.
Context `{Host} {W : Type} `{SheetsApi W}.
Local Open Scope float_scope.

Lemma profile_upsert_ok (q : Profile) (st st' : Store) :
  profile_upsert q st = (Ok tt, st') ->
  (forall r, In r (profiles st') ->
     (pr_userId r = pr_userId q /\ r = q)
     \/ (pr_userId r <> pr_userId q /\ In r (profiles st)))
  /\ In q (profiles st')
  /\ (forall r, In r (profiles st) -> pr_userId r <> pr_userId q ->
        In r (profiles st'))
  /\ users st' = users st /\ foodItems st' = foodItems st
  /\ foodLogs st' = foodLogs st /\ weightLogs st' = weightLogs st.
Proof.
  unfold profile_upsert.
  destruct (match pr_targetDate q with Some None => true | _ => false end);
    [discriminate|].
  destruct (Decimal_accepts _ && Decimal_accepts _); cbn [negb];
    [|discriminate].
  destruct (existsb _ (profiles st)) eqn:Ex.
  - intros [= <-]. cbn [profiles users foodItems foodLogs weightLogs].
    split; [|split; [|split; [|auto]]].
    + intros r Hr. apply in_map_iff in Hr as (r0 & Hr0 & Hin).
      destruct (String.eqb_spec (pr_userId r0) (pr_userId q)) as [E|E].
      * left. subst r. auto.
      * right. subst r. auto.
    + apply existsb_exists in Ex as (r0 & Hin & E).
      apply in_map_iff. exists r0. rewrite E. auto.
    + intros r Hr Hne. apply in_map_iff. exists r.
      apply String.eqb_neq in Hne. rewrite Hne. auto.
  - destruct (user_findUnique st (pr_userId q)); [|discriminate].
    intros [= <-]. cbn [profiles users foodItems foodLogs weightLogs].
    split; [|split; [|split; [|auto]]].
    + intros r Hr. apply in_app_or in Hr as [Hr|[<-|[]]]; [|left; auto].
      right. split; [|exact Hr]. intros E.
      assert (Hex : existsb (fun r0 => String.eqb (pr_userId r0) (pr_userId q))
                      (profiles st) = true).
      { apply existsb_exists. exists r. rewrite E, String.eqb_refl. auto. }
      congruence.
    + apply in_or_app. right. left. reflexivity.
    + intros r Hr _. apply in_or_app. left. exact Hr.
Qed.

(** X15 (the profile that is stored). PUT /api/me/profile answers 401 without
    a valid session and changes nothing. When it answers 200 with a budget,
    the body was valid, the budget is nine times the score plus two, and the
    store holds the requester's profile with exactly the values sent and
    that budget: every profile row of the requester is that row, the rows of
    other users are kept, and no other table changes. *)
Theorem X15_putProfile_stores (req : Request) (st : Store) (w : W) :
  (requireUser req = None ->
   putProfile req st w = (Respond 401 (ErrorJson "unauthorized"), st, w))
  /\ forall (daily : number) (st1 : Store) (w1 : W),
       putProfile req st w = (Respond 200 (DailyJson daily), st1, w1) ->
       exists (uid : string) (p : ProfileInput),
         requireUser req = Some uid
         /\ ProfileSchema (body req) = Some p
         /\ daily = estimateWWPoints (gender p) (Api.age p) (height_cm p)
                      (current_weight_kg p) * 9 + 2
         /\ In (profileRow uid p daily) (profiles st1)
         /\ (forall r, In r (profiles st1) -> pr_userId r = uid ->
               r = profileRow uid p daily)
         /\ (forall r, pr_userId r <> uid ->
               (In r (profiles st1) <-> In r (profiles st)))
         /\ users st1 = users st /\ foodItems st1 = foodItems st
         /\ foodLogs st1 = foodLogs st /\ weightLogs st1 = weightLogs st.
Proof.
  split.
  { intros Hu. unfold putProfile. rewrite Hu. reflexivity. }
  intros daily st1 w1. unfold putProfile.
  destruct (requireUser req) as [uid|]; [|discriminate].
  destruct (ProfileSchema (body req)) as [p|]; [|discriminate].
  set (d := dailyOf _ _ _ _ _).
  destruct (profile_upsert (profileRow uid p d) st) as [[[]|e] st'] eqn:Hup;
    [|discriminate].
  intros [= <- <- _].
  apply profile_upsert_ok in Hup
    as (Hrows & Hin & Hkeep & Hu & Hi & Hl & Hw).
  exists uid, p. split; [reflexivity|]. split; [reflexivity|].
  split; [apply dailyOf_score|]. split; [exact Hin|].
  split.
  { intros r Hr E. destruct (Hrows r Hr) as [[_ ->]|[Hne _]];
      [reflexivity|]. contradiction. }
  split; [|auto].
  intros r Hne. split.
  - intros Hr. destruct (Hrows r Hr) as [[E _]|[_ Hold]];
      [contradiction|exact Hold].
  - intros Hr. apply Hkeep; assumption.
Qed.

End ProfileFacts.

Lemma X15_putProfile_stores_witness :
  exists (st1 : Store) (d1 : Doc) (p : ProfileInput),
    putProfile (H := sampleHost) profileRequest sampleStore sampleDoc
      = (Respond 200 (DailyJson 128%float), st1, d1)
    /\ In (profileRow "u1" p 128%float) (profiles st1)
    /\ users st1 = users sampleStore.
Proof.
  pose (out := putProfile (H := sampleHost) profileRequest sampleStore
                 sampleDoc).
  destruct (@X15_putProfile_stores sampleHost Doc memSheets profileRequest
              sampleStore sampleDoc) as [_ Hok].
  destruct (Hok 128%float out.1.2 out.2 ltac:(vm_compute; reflexivity))
    as (uid & p & Hu & _ & _ & Hin & _ & _ & Husers & _).
  injection Hu as <-.
  exists out.1.2, out.2, p. split; [vm_compute; reflexivity|].
  split; [exact Hin|exact Husers].
Defined.

(** *** The general-info row, written then read *)

Section InfoFacts.
Context `{Host}.
Local Open Scope Z_scope.

Lemma writeGeneralInfo_mem (sid tab : string) (info : GeneralInfo) (d : Doc)
    (k : nat) (t : Tab) :
  faults d = [] -> getSheetsClient d = (Ok tt, d) ->
  tabIndex (tabs d) tab = Some k -> tabs d !! k = Some t ->
  writeGeneralInfo sid tab info d
  = (Ok tt, setTab d k (withInfo t (infoRow info))).
Proof.
  intros Hq Hc Hk Ht. unfold writeGeneralInfo, bind. rewrite Hc.
  cbn [values_update memSheets]. unfold mem_values_update.
  rewrite (call_quiet _ _ Hq). cbn [a1_tab]. rewrite Hk.
  change (regionOf (a1 tab "A" 2 "H" 2)) with (Some InfoRow).
  rewrite Ht. reflexivity.
Qed.

Lemma readDailyBudget_mem (sid tab : string) (d : Doc) (k : nat) (t : Tab) :
  faults d = [] -> getSheetsClient d = (Ok tt, d) ->
  tabIndex (tabs d) tab = Some k -> tabs d !! k = Some t ->
  readDailyBudget sid tab d
  = (Ok (let cell := match t_info t !! 7%nat with
                     | Some v => render d v
                     | None => JUndefined
                     end in
         let n := StringToNumber
                    (ToString (match cell with
                               | JUndefined | JNull => JStr ""
                               | c => c
                               end)) in
         if is_nan n then 0%float else n), d).
Proof.
  intros Hq Hc Hk Ht. unfold readDailyBudget, bind. rewrite Hc.
  cbn [values_get memSheets]. unfold mem_values_get.
  rewrite (call_quiet _ _ Hq). cbn [a1_tab]. rewrite Hk.
  change (regionOf (a1 tab "H" 2 "H" 2)) with (Some InfoBudget).
  rewrite Ht. destruct (t_info t !! 7%nat); reflexivity.
Qed.

(** X16 (the budget written is the budget read). On the in-memory sheet,
    after [writeGeneralInfo] with a daily budget that is a number,
    [readDailyBudget] on the same tab returns that number, provided the cell
    H2 as the service shows it converts back to the number. Without a daily
    budget the cell is the empty string and the budget read is
    [Number('')], or 0 should that be NaN. *)
Theorem X16_budget_written_then_read (sid tab : string) (info : GeneralInfo)
    (d : Doc) (k : nat) (t : Tab) :
  faults d = [] -> getSheetsClient d = (Ok tt, d) ->
  tabIndex (tabs d) tab = Some k -> tabs d !! k = Some t ->
  exists d1 : Doc,
    writeGeneralInfo sid tab info d = (Ok tt, d1)
    /\ (forall b : number,
          gi_dailyBudget info = Some b -> is_nan b = false ->
          render d (JNum b) <> JUndefined -> render d (JNum b) <> JNull ->
          StringToNumber (ToString (render d (JNum b))) = b ->
          readDailyBudget sid tab d1 = (Ok b, d1))
    /\ (gi_dailyBudget info = None -> render d (JStr "") = JStr "" ->
        readDailyBudget sid tab d1
        = (Ok (if is_nan (StringToNumber "") then 0%float
               else StringToNumber ""), d1)).
Proof.
  intros Hq Hc Hk Ht.
  exists (setTab d k (withInfo t (infoRow info))).
  split; [apply writeGeneralInfo_mem; assumption|].
  set (d1 := setTab d k (withInfo t (infoRow info))).
  assert (Hq1 : faults d1 = []) by exact Hq.
  assert (Hk1 : tabIndex (tabs d1) tab = Some k).
  { unfold d1, setTab. cbn [tabs withTabs]. apply tabIndex_insert; [exact Hk|].
    cbn [t_title withInfo].
    destruct (tabIndex_lookup _ _ _ Hk) as (t' & Ht' & Ett). congruence. }
  assert (Ht1 : tabs d1 !! k = Some (withInfo t (infoRow info))).
  { unfold d1, setTab. cbn [tabs withTabs]. eapply lookup_insert_same, Ht. }
  pose proof (readDailyBudget_mem sid tab d1 k _ Hq1
                (getSheetsClient_configured d d1 Hc) Hk1 Ht1) as Hread.
  cbn [t_info withInfo] in Hread.
  change (render d1) with (render d) in Hread.
  split.
  - intros b Hb Hnan Hu Hn Hback. rewrite Hread. unfold infoRow. rewrite Hb.
    change ([JStr (gi_name info); JNum (gi_heightCm info);
             JNum (gi_startWeightKg info); JStr (gi_gender info);
             JNum (gi_age info); JNum (gi_targetWeightKg info);
             JStr match gi_targetDateIso info with
                  | Some s => s
                  | None => ""
                  end; JNum b] !! 7%nat) with (Some (JNum b)).
    cbv beta iota zeta.
    destruct (render d (JNum b)) eqn:Er; try contradiction;
      rewrite Hback, Hnan; reflexivity.
  - intros Hb Hshow. rewrite Hread. unfold infoRow. rewrite Hb.
    change ([JStr (gi_name info); JNum (gi_heightCm info);
             JNum (gi_startWeightKg info); JStr (gi_gender info);
             JNum (gi_age info); JNum (gi_targetWeightKg info);
             JStr match gi_targetDateIso info with
                  | Some s => s
                  | None => ""
                  end; JStr ""] !! 7%nat) with (Some (JStr "")).
    cbv beta iota zeta. rewrite Hshow. reflexivity.
Qed.

End InfoFacts.

Lemma X16_budget_written_then_read_witness :
  exists d1 : Doc,
    writeGeneralInfo (H := sampleHost) "sheet-1" "Ann"
      {| gi_name := "Ann"; gi_heightCm := 170%float;
         gi_startWeightKg := 64%float; gi_gender := "female";
         gi_age := 30%float; gi_targetWeightKg := 60%float;
         gi_targetDateIso := None; gi_dailyBudget := Some 119%float |}
      sampleDoc = (Ok tt, d1)
    /\ readDailyBudget (H := sampleHost) "sheet-1" "Ann" d1
       = (Ok 119%float, d1).
Proof.
  destruct (X16_budget_written_then_read (H := sampleHost) "sheet-1" "Ann"
              {| gi_name := "Ann"; gi_heightCm := 170%float;
                 gi_startWeightKg := 64%float; gi_gender := "female";
                 gi_age := 30%float; gi_targetWeightKg := 60%float;
                 gi_targetDateIso := None; gi_dailyBudget := Some 119%float |}
              sampleDoc 1 annTab eq_refl eq_refl eq_refl eq_refl)
    as (d1 & Hw & Hr & _).
  exists d1. split; [exact Hw|].
  apply Hr; [reflexivity|reflexivity|discriminate|discriminate|].
  vm_compute. reflexivity.
Defined.

(** *** The client's base address *)

Section ClientFacts.

Lemma substring_whole (p : string) : substring 0 (String.length p) p = p.
Proof. induction p as [|c p IH]; simpl; [reflexivity|]. f_equal. exact IH. Qed.

Lemma substring_append_tail (s p : string) :
  substring (String.length s) (String.length p) (s +:+ p) = p.
Proof.
  induction s as [|c r IH].
  - change ("" +:+ p) with p. apply substring_whole.
  - change (String c r +:+ p) with (String c (r +:+ p)). simpl. exact IH.
Qed.

Lemma endsWith_append (s p : string) : endsWith (s +:+ p) p = true.
Proof.
  unfold endsWith. rewrite length_append.
  replace (String.length s + String.length p - String.length p)%nat
    with (String.length s) by lia.
  rewrite substring_append_tail, String.eqb_refl.
  apply andb_true_intro. split; [apply Nat.leb_le; lia|reflexivity].
Qed.

Lemma stripTrailingSlashes_split (s : string) :
  exists tail : string,
    s = stripTrailingSlashes s +:+ tail /\ allSlashes tail = true.
Proof.
  induction s as [|c r (tail & Hr & Ht)]; [exists ""; auto|].
  cbn [stripTrailingSlashes].
  destruct (Ascii.eqb c "/" && allSlashes r) eqn:E.
  - exists (String c r). split; [reflexivity|]. exact E.
  - exists tail. split; [|exact Ht].
    change (String c r = String c (stripTrailingSlashes r +:+ tail)).
    f_equal. exact Hr.
Qed.

Lemma stripTrailingSlashes_clean (s : string) :
  endsWith (stripTrailingSlashes s) "/" = false.
Proof.
  induction s as [|c r IH]; [reflexivity|].
  cbn [stripTrailingSlashes].
  destruct (Ascii.eqb c "/" && allSlashes r) eqn:E; [reflexivity|].
  remember (stripTrailingSlashes r) as u eqn:Hu.
  destruct u as [|c' u'].
  - (* the rest was all slashes, or empty *)
    unfold endsWith. cbn.
    destruct (Ascii.eqb_spec c "/") as [->|Hne].
    + exfalso. change (Ascii.eqb "/" "/") with true in E. cbn [andb] in E.
      destruct (stripTrailingSlashes_split r) as (tail & Hr & Ht).
      rewrite <- Hu in Hr. change ("" +:+ tail) with tail in Hr.
      rewrite Hr, Ht in E. discriminate E.
    + destruct (String.eqb_spec (String c "") "/") as [Heq|_];
        [injection Heq as Heq; contradiction|reflexivity].
  - unfold endsWith in IH |- *.
    change (String.length (String c (String c' u')))
      with (S (String.length (String c' u'))).
    change (String.length "/") with 1%nat in *.
    replace (S (String.length (String c' u')) - 1)%nat
      with (S (String.length (String c' u') - 1)%nat) by (cbn; lia).
    change (substring (S (String.length (String c' u') - 1)) 1
              (String c (String c' u')))
      with (substring (String.length (String c' u') - 1) 1 (String c' u')).
    cbn [Nat.leb] in *. exact IH.
Qed.

(** X17 (the base address of the client). The address the client sends its
    requests to always ends with ["/api"]: a configured address that ends
    so is taken as it is, any other loses its trailing slashes and gains
    ["/api"], so that no slash precedes the ["/api"] that is added; an unset
    or empty variable gives the local default. Feeding the result back as
    the configured address changes nothing. *)
Theorem X17_baseURL_ends_with_api (env : option string) :
  endsWith (baseURL env) "/api" = true
  /\ baseURL (Some (baseURL env)) = baseURL env
  /\ (endsWith (rawBase env) "/api" = false ->
      exists body tail : string,
        rawBase env = body +:+ tail /\ allSlashes tail = true
        /\ endsWith body "/" = false
        /\ baseURL env = body +:+ "/api")
  /\ baseURL None = "http://localhost:4000/api"
  /\ baseURL (Some "") = "http://localhost:4000/api"
  /\ baseURL (Some "https://wb.example.org//") = "https://wb.example.org/api".
Proof.
  assert (Hends : endsWith (baseURL env) "/api" = true).
  { unfold baseURL. cbv zeta.
    destruct (endsWith (rawBase env) "/api") eqn:E; [exact E|].
    apply endsWith_append. }
  split; [exact Hends|]. split.
  { unfold baseURL at 1. cbv zeta.
    assert (Hraw : rawBase (Some (baseURL env)) = baseURL env).
    { unfold rawBase. destruct (baseURL env) eqn:Eb; [|reflexivity].
      discriminate Hends. }
    rewrite Hraw, Hends. reflexivity. }
  split.
  { intros Hno. destruct (stripTrailingSlashes_split (rawBase env))
      as (tail & Hr & Ht).
    exists (stripTrailingSlashes (rawBase env)), tail.
    split; [exact Hr|]. split; [exact Ht|].
    split; [apply stripTrailingSlashes_clean|].
    unfold baseURL. cbv zeta. rewrite Hno. reflexivity. }
  repeat split; vm_compute; reflexivity.
Qed.

End ClientFacts.

(** *** The food list ([gsheets.ts]) *)

Section FoodListFacts.
Context `{Host} {W : Type} `{SheetsApi W}.

Lemma take_filter_complete {A} (P : A -> bool) (n : nat) (l : list A) (x : A) :
  (length (take n (List.filter P l)) < n)%nat ->
  In x l -> P x = true -> In x (take n (List.filter P l)).
Proof.
  intros Hlen Hx HP.
  assert (Hall : take n (List.filter P l) = List.filter P l).
  { apply firstn_all2. rewrite length_take in Hlen. lia. }
  rewrite Hall. apply filter_In. auto.
Qed.

Lemma sublist_List_filter {A} (P : A -> bool) (l : list A) :
  sublist (List.filter P l) l.
Proof.
  induction l as [|a r IH]; cbn; [constructor|].
  destruct (P a); [apply sublist_skip|apply sublist_cons]; exact IH.
Qed.

Lemma length_List_filter {A} (P : A -> bool) (l : list A) :
  (length (List.filter P l) <= length l)%nat.
Proof. apply sublist_length, sublist_List_filter. Qed.

Lemma In_take {A} (n : nat) (l : list A) (x : A) : In x (take n l) -> In x l.
Proof.
  intros Hx. rewrite <- (firstn_skipn n l). apply in_or_app. left. exact Hx.
Qed.

(** X18 (the search of the food list). A query that is blank once trimmed
    gives no rows and makes no call. Otherwise [searchFood] reads the food
    list once and returns at most ten of its rows, in the order of the
    list, each with a name whose lower case holds the lower case of the
    trimmed query; when fewer than ten come back, every such row of the list
    is among them. *)
Theorem X18_searchFood_results (sid query sheet : string) (w : W) :
  let q := toLowerCase (trim query) in
  (isEmptyStr q = true -> searchFood sid query sheet w = (Ok [], w))
  /\ forall (rs : list FoodRow) (w' : W),
       isEmptyStr q = false ->
       searchFood sid query sheet w = (Ok rs, w') ->
       exists all : list FoodRow,
         readFoodList sid sheet w = (Ok all, w')
         /\ (length rs <= 10)%nat
         /\ sublist rs all
         /\ Forall (fun r => includesStr (toLowerCase (fr_name r)) q = true) rs
         /\ ((length rs < 10)%nat ->
             forall r, In r all ->
               includesStr (toLowerCase (fr_name r)) q = true -> In r rs).
Proof.
  intros q. split.
  { intros Hq. unfold searchFood. fold q. rewrite Hq. reflexivity. }
  intros rs w' Hq. unfold searchFood. fold q. rewrite Hq. unfold bind.
  destruct (readFoodList sid sheet w) as [[all|e] w1]; [|discriminate].
  intros [= <- <-]. exists all. split; [reflexivity|].
  split; [rewrite length_take; lia|].
  split.
  { etransitivity; [apply sublist_take|]. apply sublist_List_filter. }
  split.
  { apply List.Forall_forall. intros r Hr. apply In_take in Hr.
    apply filter_In in Hr as [_ Hr]. exact Hr. }
  intros Hlen r Hr Hm. apply take_filter_complete; assumption.
Qed.

(** X19 (the rows of the food list). [readFoodList] keeps the rows with three
    cells or more whose first cell is not blank, in their order. A kept row
    whose first cell is a string has that string, as it is, for its name, and
    the name is not blank. The filter and the conversion do not treat a
    falsy cell alike: a row that starts with the number 0 is kept (its cell
    reads "0") and comes out with the empty name. *)
Theorem X19_readFoodList_rows (sid sheet : string) (w w' : W)
    (rows : list FoodRow) :
  readFoodList sid sheet w = (Ok rows, w') ->
  exists raw : list (list JsValue),
    readRange sid (a1 sheet "A" 2 "C" openEnd) w = (Ok raw, w')
    /\ rows = map foodRowOf (List.filter keepsFoodRow raw)
    /\ (length rows <= length raw)%nat
    /\ (forall (r : list JsValue) (s : string),
          In r raw -> keepsFoodRow r = true -> at_index r 0 = JStr s ->
          In (foodRowOf r) rows /\ fr_name (foodRowOf r) = s
          /\ isEmptyStr (trim s) = false)
    /\ (NumberToString 0%float = "0" ->
        forall r : list JsValue,
          In r raw -> (3 <= length r)%nat -> at_index r 0 = JNum 0%float ->
          In (foodRowOf r) rows /\ fr_name (foodRowOf r) = "").
Proof.
  unfold readFoodList, bind.
  destruct (readRange sid _ w) as [[raw|e] w1]; [|discriminate].
  intros [= <- <-]. exists raw. split; [reflexivity|]. split; [reflexivity|].
  split.
  { rewrite length_map. apply length_List_filter. }
  split.
  - intros r s Hr Hk Hs. split; [apply in_map, filter_In; auto|].
    unfold foodRowOf, keepsFoodRow in *. cbn [fr_name].
    rewrite Hs in *. split; [apply ToString_JStr_or_empty|].
    apply andb_prop in Hk as [_ Hk]. apply negb_true_iff in Hk. exact Hk.
  - intros Hzero r Hr Hlen Hs.
    assert (Hk : keepsFoodRow r = true).
    { unfold keepsFoodRow. rewrite Hs. cbn [nullish ToString].
      rewrite Hzero. apply andb_true_intro.
      split; [apply Nat.leb_le; exact Hlen|reflexivity]. }
    split; [apply in_map, filter_In; auto|].
    unfold foodRowOf. cbn [fr_name]. rewrite Hs. reflexivity.
Qed.

(** X20 (today's row is a row of the ledger). Over the same rows read, the
    row [findBudgetToday] returns is one of the rows [readBudgetRows]
    returns, which are the conversions of the non-empty rows, in their
    order. *)
Theorem X20_readBudgetRows_holds_today (sid tab : string) (today : Date)
    (w w' : W) (rows : list BudgetRow) :
  readBudgetRows sid tab w = (Ok rows, w') ->
  exists raw : list (list JsValue),
    readRange sid (a1 tab "D" 6 "H" 1000) w = (Ok raw, w')
    /\ rows = map budgetRowOf (List.filter (fun r => (0 <? length r)%nat) raw)
    /\ findBudgetToday sid tab today w = (Ok (scanBudgetToday raw today), w')
    /\ forall row, scanBudgetToday raw today = Some row -> In row rows.
Proof.
  unfold readBudgetRows, findBudgetToday, bind.
  destruct (readRange sid _ w) as [[raw|e] w1]; [|discriminate].
  intros [= <- <-]. exists raw. split; [reflexivity|]. split; [reflexivity|].
  split; [reflexivity|].
  intros row Hrow.
  pose proof (scanBudgetToday_first raw today) as Hs. rewrite Hrow in Hs.
  destruct Hs as (pre & r & post & -> & _ & Hday & ->).
  apply in_map, filter_In. split; [apply in_or_app; right; left; reflexivity|].
  destruct r as [|v r]; [|reflexivity].
  unfold cellIsDay, parseAnyDateValue in Hday. cbn in Hday. discriminate Hday.
Qed.

(** X21 (the search endpoint stays quiet). GET /api/food/search answers the
    empty list, with no call to the sheet, when the spreadsheet id is not
    set or the query is missing or blank, whether credentials are
    configured or not; with a query and an id but no credentials it answers
    500 with the "Missing credentials" message. *)
Theorem X21_getFoodSearch_quiet (q : JsValue) (w : W) :
  (truthyEnv GOOGLE_SHEETS_ID = false -> getFoodSearch q w = (RowsJson [], w))
  /\ (isEmptyStr (toLowerCase (trim (ToString (orElse q (JStr ""))))) = true ->
      getFoodSearch q w = (RowsJson [], w))
  /\ (getFoodSearch JUndefined w = (RowsJson [], w))
  /\ (truthyEnv GOOGLE_SHEETS_ID = true ->
      isEmptyStr (toLowerCase (trim (ToString (orElse q (JStr ""))))) = false ->
      truthyEnv GOOGLE_SERVICE_ACCOUNT_JSON = false ->
      truthyEnv GOOGLE_APPLICATION_CREDENTIALS = false ->
      getFoodSearch q w = (FailJson 500 missingCredentials, w)).
Proof.
  assert (Hblank : isEmptyStr (toLowerCase (trim (ToString (orElse q (JStr "")))))
                   = true -> getFoodSearch q w = (RowsJson [], w)).
  { intros Hq. unfold getFoodSearch. cbv zeta.
    destruct GOOGLE_SHEETS_ID as [sid|]; [|reflexivity].
    destruct (isEmptyStr sid); [reflexivity|].
    unfold searchFood. rewrite Hq. reflexivity. }
  split.
  { intros Hid. unfold getFoodSearch. cbv zeta.
    destruct GOOGLE_SHEETS_ID as [sid|]; [|reflexivity].
    cbn in Hid. apply negb_false_iff in Hid. rewrite Hid. reflexivity. }
  split; [exact Hblank|]. split.
  { unfold getFoodSearch. cbv zeta.
    destruct GOOGLE_SHEETS_ID as [sid|]; [|reflexivity].
    destruct (isEmptyStr sid); reflexivity. }
  intros Hid Hq Hj Hk. unfold getFoodSearch. cbv zeta.
  destruct GOOGLE_SHEETS_ID as [sid|]; [|discriminate Hid].
  cbn in Hid. apply negb_true_iff in Hid. rewrite Hid.
  unfold searchFood. rewrite Hq. unfold bind, readFoodList, readRange, bind.
  rewrite (getSheetsClient_unconfigured w Hj Hk). reflexivity.
Qed.

End FoodListFacts.

Lemma X19_readFoodList_rows_witness :
  exists raw : list (list JsValue),
    readRange (H := sampleHost) "sheet-1" (a1 "FoodList" "A" 2 "C" openEnd)
      pantry = (Ok raw, pantry)
    /\ map fr_name (map (foodRowOf (H := sampleHost))
                      (List.filter (keepsFoodRow (H := sampleHost)) raw))
       = ["Apple"; "Rice"; "Pineapple juice"].
Proof.
  destruct (@X19_readFoodList_rows sampleHost Tables tableSheets "sheet-1"
              "FoodList" pantry pantry
              (map (foodRowOf (H := sampleHost))
                 (List.filter (keepsFoodRow (H := sampleHost))
                    (foodList pantry)))
              ltac:(vm_compute; reflexivity))
    as (raw & Hread & _).
  exists raw. split; [exact Hread|].
  assert (E : readRange (H := sampleHost) "sheet-1"
                (a1 "FoodList" "A" 2 "C" openEnd) pantry
              = (Ok (foodList pantry), pantry)) by (vm_compute; reflexivity).
  rewrite E in Hread. injection Hread as <-. vm_compute. reflexivity.
Defined.

Lemma X20_readBudgetRows_holds_today_witness :
  exists (rows : list BudgetRow) (row : BudgetRow),
    readBudgetRows (H := sampleHost) "sheet-1" "Ann" sampleDoc
      = (Ok rows, sampleDoc)
    /\ findBudgetToday (H := sampleHost) "sheet-1" "Ann" (Some noon14)
         sampleDoc = (Ok (Some row), sampleDoc)
    /\ In row rows.
Proof.
  destruct (@X20_readBudgetRows_holds_today sampleHost Doc memSheets "sheet-1"
              "Ann" (Some noon14) sampleDoc sampleDoc
              (map (budgetRowOf (H := sampleHost)) (t_ledger annTab))
              ltac:(vm_compute; reflexivity))
    as (raw & Hread & Hrows & Hfind & Hin).
  assert (E : readRange (H := sampleHost) "sheet-1"
                (a1 "Ann" "D" 6 "H" 1000) sampleDoc
              = (Ok (t_ledger annTab), sampleDoc)) by (vm_compute; reflexivity).
  rewrite E in Hread. injection Hread as <-.
  eexists _, _. split; [vm_compute; reflexivity|].
  split; [rewrite Hfind; vm_compute; reflexivity|].
  apply Hin. vm_compute. reflexivity.
Defined.

Lemma X18_searchFood_results_witness :
  exists rs all : list FoodRow,
    searchFood (H := sampleHost) "sheet-1" " APPLE" "FoodList" pantry
      = (Ok rs, pantry)
    /\ map fr_name rs = ["Apple"; "Pineapple juice"]
    /\ readFoodList (H := sampleHost) "sheet-1" "FoodList" pantry
       = (Ok all, pantry)
    /\ sublist rs all.
Proof.
  pose (rs := [{| fr_name := "Apple"; fr_duby := 1%float; fr_unit := "piece" |};
               {| fr_name := "Pineapple juice"; fr_duby := 3%float;
                  fr_unit := "glass" |}]).
  pose proof (@X18_searchFood_results sampleHost Tables tableSheets "sheet-1"
                " APPLE" "FoodList" pantry) as Hs.
  cbv zeta in Hs. destruct Hs as [_ Hs].
  destruct (Hs rs pantry ltac:(vm_compute; reflexivity)
              ltac:(vm_compute; reflexivity))
    as (all & Hread & _ & Hsub & _).
  exists rs, all. split; [vm_compute; reflexivity|].
  split; [reflexivity|]. split; [exact Hread|exact Hsub].
Defined.

Lemma X21_getFoodSearch_quiet_witness :
  getFoodSearch (H := keylessHost) (JStr "apple") pantry
  = (FailJson 500 missingCredentials, pantry).
Proof.
  destruct (@X21_getFoodSearch_quiet keylessHost Tables tableSheets (JStr "apple")
              pantry) as (_ & _ & _ & Hfail).
  exact (Hfail eq_refl ltac:(vm_compute; reflexivity) eq_refl eq_refl).
Defined.

(** *** Accounts *)

Section SheetUserFacts.
Context `{Host} {W : Type} `{SheetsApi W}.

Lemma scanUsers_first (rows : list (list JsValue)) (email : string) :
  let hit (r : list JsValue) :=
    negb (isEmptyStr (su_email (sheetUserOf r)))
    && String.eqb (su_email (sheetUserOf r)) (toLowerCase email) in
  match scanUsers rows email with
  | Some u =>
      exists pre r post,
        rows = pre ++ r :: post /\ Forall (fun r' => hit r' = false) pre
        /\ hit r = true /\ u = sheetUserOf r
  | None => Forall (fun r => hit r = false) rows
  end.
Proof.
  intros hit. induction rows as [|r rest IH]; cbn [scanUsers]; [constructor|].
  fold (hit r). destruct (hit r) eqn:E.
  - exists [], r, rest. repeat split; auto.
  - destruct (scanUsers rest email) as [u|].
    + destruct IH as (pre & r0 & post & -> & Hpre & Hr0 & ->).
      exists (r :: pre), r0, post. repeat split; auto.
    + constructor; assumption.
Qed.

(** X22 (looking a user up in the sheet). [findUserByEmail] reads the table
    once and returns the first row whose address, trimmed and lowered, is
    not empty and equals the lowered query; the user it returns carries
    that lowered address. The letter case of the query plays no part, and a
    query that is empty matches no row, not even one with an empty
    address. *)
Theorem X22_findUserByEmail_first (sid email sheet : string) (w w' : W)
    (found : option SheetUser) :
  findUserByEmail sid email sheet w = (Ok found, w') ->
  exists raw : list (list JsValue),
    readRange sid (a1 sheet "A" 2 "C" openEnd) w = (Ok raw, w')
    /\ match found with
       | Some u =>
           su_email u = toLowerCase email /\ isEmptyStr (su_email u) = false
           /\ exists pre r post,
                raw = pre ++ r :: post /\ u = sheetUserOf r
                /\ Forall (fun r' => su_email (sheetUserOf r')
                                     <> toLowerCase email
                                     \/ toLowerCase email = "") pre
       | None =>
           Forall (fun r => su_email (sheetUserOf r) <> toLowerCase email
                            \/ toLowerCase email = "") raw
       end
    /\ (forall email' : string,
          toLowerCase email' = toLowerCase email ->
          findUserByEmail sid email' sheet w = (Ok found, w'))
    /\ (toLowerCase email = "" -> found = None).
Proof.
  unfold findUserByEmail, bind.
  destruct (readRange sid _ w) as [[raw|e] w1] eqn:Hread; [|discriminate].
  intros [= <- <-]. exists raw. split; [reflexivity|].
  assert (Hmiss : forall r,
    negb (isEmptyStr (su_email (sheetUserOf r)))
    && String.eqb (su_email (sheetUserOf r)) (toLowerCase email) = false ->
    su_email (sheetUserOf r) <> toLowerCase email \/ toLowerCase email = "").
  { intros r Hr. apply andb_false_iff in Hr as [Hr|Hr].
    - apply negb_false_iff in Hr.
      destruct (String.eqb_spec (su_email (sheetUserOf r)) (toLowerCase email))
        as [E|E]; [|left; exact E].
      right. rewrite <- E. destruct (su_email (sheetUserOf r));
        [reflexivity|discriminate Hr].
    - left. apply String.eqb_neq. exact Hr. }
  pose proof (scanUsers_first raw email) as Hs. cbv zeta in Hs.
  split; [|split].
  - destruct (scanUsers raw email) as [u|].
    + destruct Hs as (pre & r & post & -> & Hpre & Hr & ->).
      apply andb_prop in Hr as [Hne Heq].
      apply negb_true_iff in Hne. apply String.eqb_eq in Heq.
      split; [exact Heq|]. split; [exact Hne|].
      exists pre, r, post. split; [reflexivity|]. split; [reflexivity|].
      eapply List.Forall_impl; [|exact Hpre].
      intros r' Hr'. exact (Hmiss r' Hr').
    + eapply List.Forall_impl; [|exact Hs].
      intros r' Hr'. exact (Hmiss r' Hr').
  - intros email' Hsame. unfold ret. cbv beta iota. do 2 f_equal.
    clear -Hsame. induction raw as [|r rest IH]; cbn [scanUsers];
      [reflexivity|]. rewrite Hsame, IH. reflexivity.
  - intros Hempty. destruct (scanUsers raw email) as [u|]; [|reflexivity].
    destruct Hs as (pre & r & post & _ & _ & Hr & _).
    apply andb_prop in Hr as [Hne Heq]. apply String.eqb_eq in Heq.
    rewrite Heq, Hempty in Hne. discriminate Hne.
Qed.

End SheetUserFacts.

Lemma X22_findUserByEmail_first_witness :
  findUserByEmail (H := sampleHost) "sheet-1" "ANN@example.COM" "Users" pantry
  = (Ok (Some {| su_name := "Ann"; su_email := "ann@example.com";
                 su_passwordHash := "salt:secret1" |}), pantry).
Proof.
  destruct (@X22_findUserByEmail_first sampleHost Tables tableSheets "sheet-1"
              "ann@example.com" "Users" pantry pantry
              (Some {| su_name := "Ann"; su_email := "ann@example.com";
                       su_passwordHash := "salt:secret1" |})
              ltac:(vm_compute; reflexivity)) as (raw & _ & _ & Hcase & _).
  apply Hcase. vm_compute. reflexivity.
Defined.

Section AccountFacts.
Context `{Host} `{Secrets} {W : Type} `{SheetsApi W}.
Local Open Scope Z_scope.

Lemma user_findByEmail_none (st : Store) (email : string) :
  user_findByEmail st email = None ->
  forall u, In u (users st) -> u_email u <> email.
Proof.
  intros Hf u Hu E. apply find_none_Forall in Hf.
  rewrite List.Forall_forall in Hf. specialize (Hf u Hu). cbv beta in Hf.
  rewrite E, String.eqb_refl in Hf. discriminate Hf.
Qed.

Lemma user_findUnique_none (st : Store) (id : string) :
  user_findUnique st id = None ->
  forall u, In u (users st) -> u_id u <> id.
Proof.
  intros Hf u Hu E. apply find_none_Forall in Hf.
  rewrite List.Forall_forall in Hf. specialize (Hf u Hu). cbv beta in Hf.
  rewrite E, String.eqb_refl in Hf. discriminate Hf.
Qed.

Lemma NoDup_snoc_key {A B} (f : A -> B) (l : list A) (x : A) :
  NoDup (map f l) -> (forall y, In y l -> f y <> f x) ->
  NoDup (map f (l ++ [x])).
Proof.
  intros Hnd Hnew. rewrite map_app. cbn [map].
  apply NoDup_app. split; [exact Hnd|]. split; [|apply NoDup_singleton].
  intros b Hb Hx. apply list_elem_of_In in Hb.
  apply in_map_iff in Hb as (y & <- & Hy).
  apply list_elem_of_In in Hx. destruct Hx as [E|[]].
  exact (Hnew y Hy (eq_sym E)).
Qed.

Lemma user_create_ok (name email hash : string) (st st' : Store) (u : User) :
  user_create name email hash st = (Ok u, st') ->
  u = {| u_id := freshId st; u_name := name; u_email := email;
         u_passwordHash := hash |}
  /\ st' = withUsers st (users st ++ [u]) (idSeed st + 1)%N
  /\ user_findByEmail st email = None
  /\ user_findUnique st (freshId st) = None.
Proof.
  unfold user_create.
  destruct (user_findByEmail st email); [discriminate|].
  destruct (user_findUnique st (freshId st)); [discriminate|].
  intros [= <- <-]. auto.
Qed.

(** A registration answered 201, with the store alone. *)
Lemma register_created (req : Request) (salt : string) (now : Z)
    (st st1 : Store) (w w1 : W) (p : RegisterInput) (json : AuthJson)
    (cookie : CookieAction) :
  sheetsAuth = None ->
  RegisterSchema (body req) = Some p ->
  register req salt now st w = (Answer 201 json cookie, st1, w1) ->
  json = AuthUser (freshId st) (rg_name p) (rg_email p)
  /\ cookie = SetSession (jwt_sign now (freshId st))
  /\ user_findByEmail st (rg_email p) = None
  /\ users st1
     = users st ++ [{| u_id := freshId st; u_name := rg_name p;
                       u_email := rg_email p;
                       u_passwordHash := bcrypt_hash salt (rg_password p) |}].
Proof.
  intros Hno Hp. unfold register. rewrite Hno, Hp.
  destruct (user_findByEmail st (rg_email p)) as [u0|] eqn:Hfind;
    [discriminate|].
  destruct (user_create _ _ _ st) as [[user|e] st'] eqn:Hc; [|discriminate].
  intros [= <- <- <- _].
  apply user_create_ok in Hc as (-> & -> & _ & _).
  cbn [users withUsers]. auto.
Qed.

(** X23 (registering, with the store alone). Without a spreadsheet
    configured, POST /api/auth/register never touches the sheet. It answers
    201 only for a valid body whose address no user holds: the store then
    gains exactly one user, with a new id, the name and address sent and
    the hash of the password, and the session cookie is the token signed
    for that id. Any other answer (400, 409 for an address in use) leaves
    the store as it is and sets no cookie. Addresses and ids that were
    unique stay unique. *)
Theorem X23_register_store_only (req : Request) (salt : string) (now : Z)
    (st st1 : Store) (w w1 : W) (r : AuthResponse) :
  sheetsAuth = None ->
  register req salt now st w = (r, st1, w1) ->
  w1 = w
  /\ match r with
     | Answer status json cookie =>
         (status = 201 /\
          exists p : RegisterInput,
            RegisterSchema (body req) = Some p
            /\ json = AuthUser (freshId st) (rg_name p) (rg_email p)
            /\ cookie = SetSession (jwt_sign now (freshId st))
            /\ (forall u, In u (users st) ->
                  u_email u <> rg_email p /\ u_id u <> freshId st)
            /\ users st1
               = users st ++ [{| u_id := freshId st; u_name := rg_name p;
                                 u_email := rg_email p;
                                 u_passwordHash :=
                                   bcrypt_hash salt (rg_password p) |}]
            /\ (NoDup (map u_email (users st)) ->
                NoDup (map u_email (users st1)))
            /\ (NoDup (map u_id (users st)) -> NoDup (map u_id (users st1))))
         \/ ((status = 400 \/ status = 409) /\ cookie = KeepCookie
             /\ st1 = st
             /\ (status = 409 ->
                 exists p u, RegisterSchema (body req) = Some p
                             /\ In u (users st) /\ u_email u = rg_email p))
     | Rejected _ => st1 = st
     end.
Proof.
  intros Hno. unfold register. rewrite Hno.
  destruct (RegisterSchema (body req)) as [p|] eqn:Hp.
  2:{ intros [= <- <- <-]. split; [reflexivity|]. right.
      split; [auto|]. split; [reflexivity|]. split; [reflexivity|].
      discriminate. }
  destruct (user_findByEmail st (rg_email p)) as [u0|] eqn:Hfind.
  { intros [= <- <- <-]. split; [reflexivity|]. right.
    split; [auto|]. split; [reflexivity|]. split; [reflexivity|].
    intros _. exists p, u0. split; [reflexivity|].
    apply find_some in Hfind as [Hin He]. apply String.eqb_eq in He. auto. }
  destruct (user_create _ _ _ st) as [[user|e] st'] eqn:Hc.
  2:{ intros [= <- <- <-]. split; [reflexivity|].
      unfold user_create in Hc. rewrite Hfind in Hc.
      destruct (user_findUnique st (freshId st)); [|discriminate Hc].
      injection Hc as _ <-. reflexivity. }
  intros [= <- <- <-]. split; [reflexivity|]. left. split; [reflexivity|].
  apply user_create_ok in Hc as (-> & -> & _ & Hid).
  exists p. split; [reflexivity|]. split; [reflexivity|].
  split; [reflexivity|].
  assert (Hnew : forall u, In u (users st) ->
                   u_email u <> rg_email p /\ u_id u <> freshId st).
  { intros u Hu. split; [exact (user_findByEmail_none _ _ Hfind u Hu)|].
    exact (user_findUnique_none _ _ Hid u Hu). }
  split; [exact Hnew|]. cbn [users withUsers]. split; [reflexivity|].
  split; intros Hnd; apply NoDup_snoc_key; try exact Hnd;
    intros y Hy; apply Hnew; exact Hy.
Qed.

(** X24 (signing in, with the store alone). Without a spreadsheet configured,
    POST /api/auth/login changes neither the store nor the sheet. It sets
    the session cookie only in an answer 200, and only when a user holds the
    address sent and the password compares true with that user's hash; the
    cookie is then the token signed for that user's id. For a valid body an
    unknown address and a wrong password get one and the same answer, 401
    with no cookie. *)
Theorem X24_login_store_only (req : Request) (now : Z) (st st1 : Store)
    (w w1 : W) (r : AuthResponse) :
  sheetsAuth = None ->
  login req now st w = (r, st1, w1) ->
  st1 = st /\ w1 = w
  /\ (forall status json cookie,
        r = Answer status json cookie -> cookie <> KeepCookie ->
        status = 200
        /\ exists (p : LoginInput) (u : User),
             LoginSchema (body req) = Some p
             /\ In u (users st) /\ u_email u = lg_email p
             /\ bcrypt_compare (lg_password p) (u_passwordHash u) = true
             /\ json = userJson u
             /\ cookie = SetSession (jwt_sign now (u_id u)))
  /\ (forall p : LoginInput,
        LoginSchema (body req) = Some p ->
        user_findByEmail st (lg_email p) = None
        \/ (exists u, user_findByEmail st (lg_email p) = Some u
                      /\ bcrypt_compare (lg_password p) (u_passwordHash u)
                         = false) ->
        r = Answer 401 (AuthError "invalid credentials") KeepCookie).
Proof.
  intros Hno. unfold login. rewrite Hno. cbv zeta.
  destruct (LoginSchema (body req)) as [p|] eqn:Hp.
  2:{ intros [= <- <- <-]. split; [reflexivity|]. split; [reflexivity|].
      split; [|discriminate]. intros s j c [= <- <- <-] Hc. contradiction. }
  destruct (user_findByEmail st (lg_email p)) as [u|] eqn:Hfind.
  2:{ intros [= <- <- <-]. split; [reflexivity|]. split; [reflexivity|].
      split; [intros s j c [= <- <- <-] Hc; contradiction|].
      intros p' [= <-] _. reflexivity. }
  destruct (bcrypt_compare (lg_password p) (u_passwordHash u)) eqn:Hcmp;
    cbn [negb]; intros [= <- <- <-];
    (split; [reflexivity|]); (split; [reflexivity|]); split.
  - intros s j c [= <- <- <-] _. split; [reflexivity|].
    exists p, u. apply find_some in Hfind as [Hin He].
    apply String.eqb_eq in He. auto 10.
  - intros p' [= <-] [Hbad|(u' & Hu' & Hbad)]; congruence.
  - intros s j c [= <- <- <-] Hc. contradiction.
  - intros p' [= <-] _. reflexivity.
Qed.

(** X25 (registered, then signed in). Without a spreadsheet configured, when
    the hash of a password compares true with that password and a token
    signed for the new id is not empty and verifies to that id: after a
    registration answered 201,
    signing in with the same address and password answers 200 for the same
    user, and a request that brings back the cookie of either answer is
    taken for that user by [requireUser]. *)
Theorem X25_register_then_login (req req' : Request) (salt : string) (now now' : Z)
    (st st1 : Store) (w w1 w' : W) (p : RegisterInput)
    (id name email : string) (cookie : CookieAction) :
  sheetsAuth = None ->
  (forall pw, bcrypt_compare pw (bcrypt_hash salt pw) = true) ->
  (forall t, jwt_verify (jwt_sign t id) = Some id) ->
  (forall t, isEmptyStr (jwt_sign t id) = false) ->
  RegisterSchema (body req) = Some p ->
  register req salt now st w = (Answer 201 (AuthUser id name email) cookie,
                                st1, w1) ->
  LoginSchema (body req')
    = Some {| lg_email := rg_email p; lg_password := rg_password p |} ->
  login req' now' st1 w'
    = (Answer 200 (AuthUser id name email) (SetSession (jwt_sign now' id)),
       st1, w')
  /\ cookie = SetSession (jwt_sign now id)
  /\ forall (t : Z) (fields : option (list (string * JsValue)))
            (route : string),
       requireUser {| session := Some (jwt_sign t id); body := fields;
                      param_id := route |} = Some id.
Proof.
  intros Hno Hcmp Hjwt Htok Hp Hreg Hp'.
  destruct (register_created _ _ _ _ _ _ _ _ _ _ Hno Hp Hreg)
    as (Hjson & Hcookie & Hfree & Husers).
  injection Hjson as -> -> ->.
  pose proof (user_findByEmail_none _ _ Hfree) as Hnew.
  set (u := {| u_id := freshId st; u_name := rg_name p; u_email := rg_email p;
               u_passwordHash := bcrypt_hash salt (rg_password p) |}) in *.
  assert (Hfind : user_findByEmail st1 (rg_email p) = Some u).
  { unfold user_findByEmail. rewrite Husers.
    apply find_app_first; [|apply String.eqb_refl].
    apply List.Forall_forall. intros v Hv. apply String.eqb_neq.
    apply Hnew. exact Hv. }
  split.
  { unfold login. rewrite Hno, Hp'. cbv zeta. cbn [lg_email lg_password].
    rewrite Hfind. cbn [u_passwordHash u]. rewrite Hcmp. reflexivity. }
  split; [exact Hcookie|].
  intros t fields route. unfold requireUser. cbn [session].
  rewrite Htok, Hjwt. unfold freshId. reflexivity.
Qed.

End AccountFacts.

Lemma X23_register_store_only_witness :
  exists st1 : Store,
    register (H := offlineHost) bobRegisters "salt" noon14 sampleStore
      sampleDoc
    = (Answer 201 (AuthUser "c2" "Bob" "bob@example.com") (SetSession "c2"),
       st1, sampleDoc)
    /\ map u_email (users st1) = ["ann@example.com"; "bob@example.com"].
Proof.
  pose (out := register (H := offlineHost) bobRegisters "salt" noon14
                 sampleStore sampleDoc).
  destruct (@X23_register_store_only offlineHost sampleSecrets Doc memSheets
              bobRegisters "salt" noon14 sampleStore out.1.2 sampleDoc out.2
              out.1.1 eq_refl ltac:(vm_compute; reflexivity))
    as [_ Hcase].
  exists out.1.2. split; [vm_compute; reflexivity|].
  change out.1.1 with (Answer 201 (AuthUser "c2" "Bob" "bob@example.com")
                         (SetSession "c2")) in Hcase.
  destruct Hcase as [(_ & p & _ & _ & _ & _ & Husers & _)|([E|E] & _)];
    [|discriminate E|discriminate E].
  vm_compute. reflexivity.
Defined.

Lemma X24_login_store_only_witness :
  login (H := offlineHost) bobSignsIn noon14 sampleStore sampleDoc
  = (Answer 401 (AuthError "invalid credentials") KeepCookie, sampleStore,
     sampleDoc).
Proof.
  pose (out := login (H := offlineHost) bobSignsIn noon14 sampleStore
                 sampleDoc).
  destruct (@X24_login_store_only offlineHost sampleSecrets Doc memSheets
              bobSignsIn noon14 sampleStore out.1.2 sampleDoc out.2 out.1.1
              eq_refl ltac:(vm_compute; reflexivity))
    as (Hst & Hw & _ & Hrefused).
  vm_compute. reflexivity.
Defined.

Lemma X25_register_then_login_witness :
  exists st1 : Store,
    login (H := offlineHost) bobSignsIn (noon14 + 5) st1 sampleDoc
    = (Answer 200 (AuthUser "c2" "Bob" "bob@example.com") (SetSession "c2"),
       st1, sampleDoc)
    /\ requireUser (H := offlineHost)
         {| session := Some "c2"; body := None; param_id := "" |}
       = Some "c2".
Proof.
  pose (out := register (H := offlineHost) bobRegisters "salt" noon14
                 sampleStore sampleDoc).
  assert (Hcmp : forall pw,
            bcrypt_compare (Secrets := sampleSecrets) pw
              (bcrypt_hash (Secrets := sampleSecrets) "salt" pw) = true).
  { intros pw. cbn [bcrypt_compare bcrypt_hash sampleSecrets].
    change ("salt" +:+ ":" +:+ pw) with ("salt" +:+ (":" +:+ pw)).
    apply endsWith_append. }
  destruct (@X25_register_then_login offlineHost sampleSecrets Doc memSheets
              bobRegisters bobSignsIn "salt" noon14 (noon14 + 5)%Z
              sampleStore out.1.2 sampleDoc sampleDoc sampleDoc
              {| rg_name := "Bob"; rg_email := "bob@example.com";
                 rg_password := "hunter22" |}
              "c2" "Bob" "bob@example.com" (SetSession "c2")
              eq_refl Hcmp ltac:(reflexivity) ltac:(reflexivity)
              ltac:(vm_compute; reflexivity) ltac:(vm_compute; reflexivity)
              ltac:(vm_compute; reflexivity))
    as (Hlogin & _ & Hreq).
  exists out.1.2. split; [exact Hlogin|]. exact (Hreq 0%Z None "").
Defined.

Section SheetAccountFacts.
Context `{Host} `{Secrets} {W : Type} `{SheetsApi W}.
Local Open Scope Z_scope.

Lemma scanUsers_hit (rows : list (list JsValue)) (email : string)
    (r : list JsValue) :
  In r rows ->
  isEmptyStr (su_email (sheetUserOf r)) = false ->
  su_email (sheetUserOf r) = toLowerCase email ->
  exists u, scanUsers rows email = Some u.
Proof.
  intros Hr Hne He.
  pose proof (scanUsers_first rows email) as Hs. cbv zeta in Hs.
  destruct (scanUsers rows email) as [u|]; [eauto|].
  rewrite List.Forall_forall in Hs. specialize (Hs r Hr). cbv beta in Hs.
  rewrite Hne, He, String.eqb_refl in Hs. discriminate Hs.
Qed.

(** X26 (registering, with the sheet). With a spreadsheet configured,
    POST /api/auth/register looks the address up in the sheet alone. An
    address that a row of the Users table holds, in whatever letter case
    and with blanks around it, is refused with 409: nothing is appended and
    the store is left as it is. An address the sheet does not hold is
    appended and then upserted into the store by its exact spelling: when
    the store already has a user with that address, the answer is 201 for
    that user's id, whose name and password hash are replaced. *)
Theorem X26_register_with_sheet (req : Request) (salt : string) (now : Z)
    (st : Store) (w w1 : W) (sid : string) (p : RegisterInput)
    (raw : list (list JsValue)) :
  sheetsAuth = Some sid ->
  RegisterSchema (body req) = Some p ->
  readRange sid (a1 "Users" "A" 2 "C" openEnd) w = (Ok raw, w1) ->
  ((exists r, In r raw
              /\ isEmptyStr (su_email (sheetUserOf r)) = false
              /\ su_email (sheetUserOf r) = toLowerCase (rg_email p)) ->
   register req salt now st w
   = (Answer 409 (AuthError "Email already in use") KeepCookie, st, w1))
  /\ (forall (w2 : W) (u : User),
        scanUsers raw (rg_email p) = None ->
        appendUser sid {| su_name := rg_name p; su_email := rg_email p;
                          su_passwordHash :=
                            bcrypt_hash salt (rg_password p) |} "Users" w1
          = (Ok tt, w2) ->
        user_findByEmail st (rg_email p) = Some u ->
        exists (st1 : Store) (w3 : W),
          register req salt now st w
          = (Answer 201 (AuthUser (u_id u) (rg_name p) (u_email u))
               (SetSession (jwt_sign now (u_id u))), st1, w3)
          /\ (forall v, In v (users st1) -> u_email v = rg_email p ->
                u_id v = u_id u /\ u_name v = rg_name p
                /\ u_passwordHash v = bcrypt_hash salt (rg_password p))
          /\ length (users st1) = length (users st)).
Proof.
  intros Hsid Hp Hread. split.
  - intros (r & Hr & Hne & He).
    destruct (scanUsers_hit raw (rg_email p) r Hr Hne He) as [u Hu].
    unfold register. rewrite Hp, Hsid. cbv zeta.
    unfold findUserByEmail, bind. rewrite Hread. unfold ret. rewrite Hu.
    reflexivity.
  - intros w2 u Hnone Happ Hfind.
    unfold register. rewrite Hp, Hsid. cbv zeta.
    unfold findUserByEmail, bind. rewrite Hread. unfold ret. rewrite Hnone.
    rewrite Happ. unfold user_upsertByEmail. rewrite Hfind.
    eexists _, _. split; [reflexivity|].
    cbn [users withUsers]. split; [|apply length_map].
    intros v Hv Hve. apply in_map_iff in Hv as (v0 & Hv0 & _).
    destruct (String.eqb (u_email v0) (rg_email p)) eqn:E.
    + subst v. cbn. auto.
    + subst v. apply String.eqb_neq in E. contradiction.
Qed.

(** X27 (signing in, with the sheet). With a spreadsheet configured, the
    sheet decides who may sign in, by the lowered address; the store is
    then upserted by the address exactly as it was typed. So a user of the
    sheet who signs in with a spelling of the address that the store does
    not hold gets a new user of the store, with a new id, whatever users
    the store holds under other spellings. *)
Theorem X27_login_with_sheet_new_spelling (req : Request) (now : Z) (st : Store)
    (w w1 : W) (sid : string) (p : LoginInput) (u : SheetUser) :
  sheetsAuth = Some sid ->
  LoginSchema (body req) = Some p ->
  findUserByEmail sid (lg_email p) "Users" w = (Ok (Some u), w1) ->
  bcrypt_compare (lg_password p) (su_passwordHash u) = true ->
  user_findByEmail st (lg_email p) = None ->
  user_findUnique st (freshId st) = None ->
  login req now st w
  = (Answer 200 (AuthUser (freshId st) (su_name u) (lg_email p))
       (SetSession (jwt_sign now (freshId st))),
     withUsers st
       (users st ++ [{| u_id := freshId st; u_name := su_name u;
                        u_email := lg_email p;
                        u_passwordHash := su_passwordHash u |}])
       (idSeed st + 1)%N, w1)
  /\ su_email u = toLowerCase (lg_email p).
Proof.
  intros Hsid Hp Hfind Hcmp Hnone Hid. split.
  - unfold login. rewrite Hp, Hsid. cbv zeta. rewrite Hfind, Hcmp.
    cbn [negb]. unfold user_upsertByEmail, user_create.
    rewrite Hnone, Hid. reflexivity.
  - unfold findUserByEmail, bind in Hfind.
    destruct (readRange sid _ w) as [[raw|e] w2]; [|discriminate Hfind].
    injection Hfind as Hscan _.
    pose proof (scanUsers_first raw (lg_email p)) as Hs. cbv zeta in Hs.
    rewrite Hscan in Hs. destruct Hs as (pre & r & post & _ & _ & Hr & ->).
    apply andb_prop in Hr as [_ Hr]. apply String.eqb_eq. exact Hr.
Qed.

End SheetAccountFacts.

Section MeFacts.
Context `{Host} {W : Type} `{SheetsApi W}.
Local Open Scope Z_scope.

Lemma latestOf_snoc (best : option WeightLog) (ls : list WeightLog)
    (l : WeightLog) :
  latestOf best (ls ++ [l])
  = match latestOf best ls with
    | Some b => if wl_date b <? wl_date l then Some l else Some b
    | None => Some l
    end.
Proof.
  revert best. induction ls as [|a r IH]; intros best; cbn [app latestOf].
  - destruct best as [b|]; [destruct (wl_date b <? wl_date l)|]; reflexivity.
  - apply IH.
Qed.

Lemma latestOf_In (best : option WeightLog) (ls : list WeightLog)
    (b : WeightLog) :
  latestOf best ls = Some b -> best = Some b \/ In b ls.
Proof.
  revert best. induction ls as [|a r IH]; intros best; cbn [latestOf];
    [auto|].
  intros Hl. apply IH in Hl as [Hl|Hl]; [|right; right; exact Hl].
  destruct best as [b0|].
  - destruct (wl_date b0 <? wl_date a).
    + injection Hl as <-. right. left. reflexivity.
    + left. exact Hl.
  - injection Hl as <-. right. left. reflexivity.
Qed.

(** X28 (the last weight). After POST /api/weight-log has answered 201 to a
    signed-in user at an instant later than the dates of all the weight logs
    that user had, with no date in the body, GET /api/me of the same session
    answers 200 and reports as [lastWeightKg] the posted weight as the
    DECIMAL column gives it back. *)
Theorem X28_last_weight_is_reported (req : Request) (now : Z) (st st1 : Store)
    (w w1 : W) (p : WeightLogInput) (uid : string) :
  requireUser req = Some uid ->
  WeightLogSchema (body req) = Some p ->
  truthyStr (wl_date_in p) = false ->
  (forall l, In l (weightLogs st) -> wl_userId l = uid -> wl_date l < now) ->
  postWeightLog req now st w = (Respond 201 OkJson, st1, w1) ->
  exists me : Me,
    getMe req st1 = Answer 200 (MeJson me) KeepCookie
    /\ me_lastWeightKg me = Some (Decimal_read (wl_weight_kg p))
    /\ me_id me = u_id <$> user_findUnique st1 uid.
Proof.
  intros Hu Hp Hno Hlater Hpost.
  unfold postWeightLog in Hpost. rewrite Hp, Hu in Hpost.
  change (default "demo" (Some uid)) with uid in Hpost. cbv zeta in Hpost.
  destruct (createWeightLog p uid now st) as [[[]|e] st'] eqn:Hc;
    [|discriminate Hpost].
  injection Hpost as <- _.
  destruct (createWeightLog_ok _ _ _ _ _ Hc)
    as (l & Hl & Hlu & Hlw & Hld & _).
  unfold weightDate in Hld. rewrite Hno in Hld. injection Hld as Hld.
  unfold getMe. rewrite Hu. eexists. split; [reflexivity|].
  cbn [me_lastWeightKg me_id]. split; [|reflexivity].
  unfold weightLog_findLatest. rewrite Hl, List.filter_app.
  cbn [List.filter]. rewrite Hlu, String.eqb_refl, latestOf_snoc.
  destruct (latestOf None _) as [b|] eqn:Eb; [|cbn; congruence].
  apply latestOf_In in Eb as [Eb|Eb]; [discriminate Eb|].
  apply filter_In in Eb as [Hb Hbu]. apply String.eqb_eq in Hbu.
  specialize (Hlater b Hb Hbu).
  destruct (Z.ltb_spec (wl_date b) (wl_date l)) as [_|Hbad]; [|lia].
  cbn. congruence.
Qed.

End MeFacts.

Lemma X28_last_weight_is_reported_witness :
  exists me : Me,
    getMe (H := sampleHost) weighRequest
      (postWeightLog (H := sampleHost) weighRequest noon14 sampleStore
         sampleDoc).1.2
    = Answer 200 (MeJson me) KeepCookie
    /\ me_lastWeightKg me = Some 63.5%float.
Proof.
  pose (out := postWeightLog (H := sampleHost) weighRequest noon14
                 sampleStore sampleDoc).
  destruct (@X28_last_weight_is_reported sampleHost Doc memSheets weighRequest
              noon14 sampleStore out.1.2 sampleDoc out.2 weighInput "u1"
              eq_refl ltac:(vm_compute; reflexivity) eq_refl
              ltac:(intros l [])
              ltac:(vm_compute; reflexivity))
    as (me & Hme & Hw & _).
  exists me. split; [exact Hme|]. rewrite Hw. vm_compute. reflexivity.
Defined.

Lemma X26_register_with_sheet_witness :
  register (H := sampleHost) annRegisters "salt" noon14 sampleStore pantry
  = (Answer 409 (AuthError "Email already in use") KeepCookie, sampleStore,
     pantry).
Proof.
  destruct (@X26_register_with_sheet sampleHost sampleSecrets Tables tableSheets
              annRegisters "salt" noon14 sampleStore pantry pantry "sheet-1"
              {| rg_name := "Ann"; rg_email := "ANN@EXAMPLE.COM";
                 rg_password := "secret1" |}
              (usersTable pantry)
              eq_refl ltac:(vm_compute; reflexivity)
              ltac:(vm_compute; reflexivity)) as [Hused _].
  apply Hused.
  exists [JStr "Ann"; JStr "Ann@Example.com "; JStr "salt:secret1"].
  split; [left; reflexivity|]. split; vm_compute; reflexivity.
Defined.

Lemma X27_login_with_sheet_new_spelling_witness :
  exists st1 : Store,
    login (H := sampleHost) annSignsIn noon14 sampleStore pantry
    = (Answer 200 (AuthUser "c2" "Ann" "Ann@Example.com") (SetSession "c2"),
       st1, pantry)
    /\ map u_id (users st1) = ["u1"; "c2"].
Proof.
  destruct (@X27_login_with_sheet_new_spelling sampleHost sampleSecrets Tables
              tableSheets annSignsIn noon14 sampleStore pantry pantry
              "sheet-1"
              {| lg_email := "Ann@Example.com"; lg_password := "secret1" |}
              {| su_name := "Ann"; su_email := "ann@example.com";
                 su_passwordHash := "salt:secret1" |}
              eq_refl ltac:(vm_compute; reflexivity)
              ltac:(vm_compute; reflexivity) ltac:(vm_compute; reflexivity)
              eq_refl eq_refl) as [Hlogin _].
  eexists. split; [exact Hlogin|]. reflexivity.
Defined.

(** *** From the profile to the dashboard, through the sheet *)

Section ComposeFacts.
Context `{Host}.
Local Open Scope Z_scope.

(** After a call of [ensureUserTab] that returned a title, the title is the
    first of the document that counts as the user's. *)
Lemma ensureUserTab_mem_found (sid name tpl : string) (d da : Doc)
    (tab : string) :
  faults d = [] ->
  ensureUserTab sid name tpl d = (Ok tab, da) ->
  faults da = [] /\ render da = render d
  /\ getSheetsClient da = (Ok tt, da)
  /\ List.find (isUserTab (sanitizeSheetTitle name)) (docTitles da) = Some tab.
Proof.
  intros Hq Hfirst. set (base := sanitizeSheetTitle name) in *.
  destruct (getSheetsClient_cases (W := Doc)) as [Hc|[e Hc]].
  2:{ exfalso. unfold ensureUserTab, listSheetTitles, bind in Hfirst.
      rewrite Hc in Hfirst. discriminate Hfirst. }
  pose proof (listSheetTitles_mem sid d Hq (Hc d)) as Hl.
  destruct (List.find (isUserTab base) (docTitles d)) as [t0|] eqn:Hf.
  - rewrite (ensureUserTab_found _ _ _ _ _ _ _ Hl Hf) in Hfirst.
    injection Hfirst as <- <-. auto.
  - rewrite (ensureUserTab_missing _ _ _ _ _ _ Hl Hf) in Hfirst.
    destruct (List.find (fun t => String.eqb (t_title t) tpl) (tabs d))
      as [src0|] eqn:Hsrc.
    2:{ rewrite (duplicateUserTemplate_no_template sid name tpl d Hq (Hc d)
                   Hsrc) in Hfirst.
        discriminate Hfirst. }
    destruct (duplicateUserTemplate_mem sid name tpl d src0 Hq (Hc d)
                Hsrc) as (t & src & Hu & _ & _ & _ & Hres).
    rewrite Hres in Hfirst. injection Hfirst as <- <-.
    split; [exact Hq|]. split; [reflexivity|]. split; [apply Hc|].
    pose proof (find_none_Forall _ _ Hf) as Hnone.
    assert (Hfree : includes (docTitles d) base = false).
    { destruct (includes (docTitles d) base) eqn:E; [|reflexivity].
      apply includes_In in E. rewrite List.Forall_forall in Hnone.
      pose proof (Hnone _ E) as Hno. rewrite isUserTab_base in Hno.
      discriminate Hno. }
    assert (Ht : t = base).
    { fold base in Hu. unfold uniqueTitle, bind in Hu. rewrite Hl, Hfree in Hu.
      cbn [negb] in Hu. injection Hu as <-. reflexivity. }
    subst t. unfold docTitles. cbn [tabs withTabs].
    rewrite map_app, List.filter_app. cbn [map List.filter t_title].
    assert (Hb : isEmptyStr base = false)
      by apply sanitizeSheetTitle_nonempty.
    rewrite Hb. cbn [negb].
    apply find_app_first; [|apply isUserTab_base].
    apply List.Forall_forall. intros x Hx.
    rewrite List.Forall_forall in Hnone. apply Hnone.
    unfold docTitles. rewrite <- (firstn_skipn (insertAt d) (tabs d)).
    rewrite map_app, List.filter_app. apply in_or_app. left. exact Hx.
Qed.

Lemma tabIndex_of_title (ts : list Tab) (title : string) :
  In title (map t_title ts) ->
  exists k t, tabIndex ts title = Some k /\ ts !! k = Some t.
Proof.
  induction ts as [|t r IH]; cbn; [tauto|].
  intros Hin. destruct (String.eqb_spec (t_title t) title) as [E|Hne].
  - exists 0%nat, t. auto.
  - destruct Hin as [E|Hin]; [contradiction|].
    destruct (IH Hin) as (k & t' & Hk & Ht'). exists (S k), t'.
    rewrite Hk. auto.
Qed.

Lemma docTitles_setTab (d : Doc) (k : nat) (t t' : Tab) :
  tabs d !! k = Some t -> t_title t' = t_title t ->
  docTitles (setTab d k t') = docTitles d.
Proof.
  intros Ht Htitle. unfold docTitles, setTab. cbn [tabs withTabs]. f_equal.
  rewrite list_fmap_insert, Htitle.
  apply list_insert_id. rewrite list_lookup_fmap, Ht. reflexivity.
Qed.

End ComposeFacts.

Section ProfileDashboardFacts.
Context `{Host}.
Local Open Scope Z_scope.

Lemma getDashboard_sheet {W : Type} `{SheetsApi W} (req : Request) (now : Z)
    (st : Store) (w w' : W) (dayLogs : list (FoodLog * option FoodItem))
    (friday : string) (rem pr : number) (fl : string) :
  foodLog_findMany st (default "demo" (requireUser req)) (dayStart now)
    (dayEnd now) = Ok dayLogs ->
  nextFriday now = Some friday ->
  dashboardSheet
    (match requireUser req with
     | Some u => user_findUnique st u
     | None => None
     end) now
    (String.concat " | " (map item_food (map itemOf dayLogs)))
    (fold_left (fun s l => (s + item_price l)%float) (map itemOf dayLogs)
       0%float) w
  = (Ok (rem, fl, pr), w') ->
  getDashboard req now st w
  = (Respond 200 (DashboardJson
       {| remainingDubyToday := rem;
          entries := [{| entry_time := slice 0 10 (isoOfTime now);
                         entry_food := fl; entry_dubyCost := pr |}];
          items := map itemOf dayLogs;
          nextWeighIn := friday |}), st, w').
Proof.
  intros Hlogs Hfri Hsheet. unfold getDashboard.
  rewrite Hlogs, Hfri, Hsheet. reflexivity.
Qed.

Lemma dailyOf_number (g : string) (a h w : number) (act : ActivityLevel) :
  is_nan (dailyOf g a h w act) = false.
Proof.
  rewrite dailyOf_score. unfold estimateWWPoints. cbv zeta.
  destruct (startsWith (toLowerCase g) "m");
    (destruct (90 <=? w)%float;
       [|destruct (75 <=? w)%float; [|destruct (60 <=? w)%float]]);
    (destruct (175 <=? h)%float; [|destruct (160 <=? h)%float]);
    (destruct (a <? 26)%float; [|destruct (a <? 37)%float;
      [|destruct (a <? 47)%float; [|destruct (a <? 58)%float]]]);
    vm_compute; reflexivity.
Qed.

(** X29 (the saved budget reaches the dashboard). On the in-memory sheet that
    answers, for a signed-in user whose tab [ensureUserTab] finds or makes:
    after PUT /api/me/profile has answered 200 with a budget, a GET
    /api/dashboard of the same session, on a day for which the tab's ledger
    has no row, answers 200 and reports as [remainingDubyToday] that budget
    less the sum of the prices of the day's items, provided the cell H2 as
    the service shows it converts back to the budget. *)
Theorem X29_saved_budget_reaches_dashboard (req : Request) (now : Z)
    (st st1 : Store) (d da d1 : Doc) (uid sid name tab : string) (u : User)
    (daily : number) :
  faults d = [] ->
  requireUser req = Some uid ->
  user_findUnique st uid = Some u ->
  mirrorTarget (Some u) = Some (sid, name) ->
  ensureUserTab sid name "UserTemplate" d = (Ok tab, da) ->
  putProfile req st d = (Respond 200 (DailyJson daily), st1, d1) ->
  render d (JNum daily) <> JUndefined -> render d (JNum daily) <> JNull ->
  StringToNumber (ToString (render d (JNum daily))) = daily ->
  Z.abs now <= 8640000000000000 - 7 * msPerDay ->
  findBudgetToday sid tab (Some now) d1 = (Ok None, d1) ->
  exists dd : Dashboard,
    getDashboard req now st1 d1 = (Respond 200 (DashboardJson dd), st1, d1)
    /\ remainingDubyToday dd
       = (daily - fold_left (fun s l => s + item_price l) (items dd) 0)%float.
Proof.
  intros Hq Hu Huser Htarget Htab Hput Hshow1 Hshow2 Hback Hnow Hnone.
  destruct (ensureUserTab_mem_found _ _ _ _ _ _ Hq Htab)
    as (Hqa & Hrender & Hca & Hfound).
  assert (Hin : In tab (map t_title (tabs da))).
  { apply find_some in Hfound as [Hin _]. unfold docTitles in Hin.
    apply filter_In in Hin as [Hin _]. exact Hin. }
  destruct (tabIndex_of_title _ _ Hin) as (k & t & Hk & Ht).
  (* the profile handler *)
  unfold putProfile in Hput. rewrite Hu in Hput.
  destruct (ProfileSchema (body req)) as [p|]; [|discriminate Hput].
  rewrite Huser in Hput.
  set (dly := dailyOf _ _ _ _ _) in Hput.
  destruct (profile_upsert (profileRow uid p dly) st) as [[[]|e] st'] eqn:Hup;
    [|discriminate Hput].
  unfold swallow, profileMirror in Hput. rewrite Htarget in Hput.
  unfold bind in Hput. rewrite Htab in Hput.
  rewrite (writeGeneralInfo_mem _ _ _ _ _ _ Hqa Hca Hk Ht) in Hput.
  cbn [snd] in Hput. injection Hput as Hdaily <- <-.
  set (info := {| gi_name := name; gi_heightCm := height_cm p |}) in *.
  set (d1 := setTab da k (withInfo t (infoRow info))) in *.
  apply profile_upsert_ok in Hup as (_ & _ & _ & Husers & _).
  assert (Huser1 : user_findUnique st' uid = Some u).
  { unfold user_findUnique. rewrite Husers. exact Huser. }
  assert (Hq1 : faults d1 = []) by exact Hqa.
  assert (Hc1 : getSheetsClient d1 = (Ok tt, d1))
    by exact (getSheetsClient_configured da d1 Hca).
  assert (Hk1 : tabIndex (tabs d1) tab = Some k).
  { unfold d1, setTab. cbn [tabs withTabs]. apply tabIndex_insert; [exact Hk|].
    cbn [t_title withInfo].
    destruct (tabIndex_lookup _ _ _ Hk) as (t' & Ht' & Ett). congruence. }
  assert (Ht1 : tabs d1 !! k = Some (withInfo t (infoRow info))).
  { unfold d1, setTab. cbn [tabs withTabs]. eapply lookup_insert_same, Ht. }
  assert (Htab1 : ensureUserTab sid name "UserTemplate" d1 = (Ok tab, d1)).
  { eapply ensureUserTab_found;
      [exact (listSheetTitles_mem sid d1 Hq1 Hc1)|].
    unfold d1.
    rewrite (docTitles_setTab da k t (withInfo t (infoRow info)) Ht eq_refl).
    exact Hfound. }
  assert (Hread : readDailyBudget sid tab d1 = (Ok daily, d1)).
  { rewrite (readDailyBudget_mem sid tab d1 k _ Hq1 Hc1 Hk1 Ht1).
    cbn [t_info withInfo]. unfold infoRow, info. cbn [gi_dailyBudget].
    match goal with
    | |- context [?l !! 7%nat] =>
        change (l !! 7%nat) with (Some (JNum dly))
    end.
    cbv beta iota zeta.
    change (render d1) with (render da). rewrite Hrender, Hdaily.
    destruct (render d (JNum daily)) eqn:Er; try contradiction;
      rewrite Hback; rewrite <- Hdaily; unfold dly;
      rewrite dailyOf_number; reflexivity. }
  (* the dashboard *)
  destruct (dayStart_dayEnd_in_range now ltac:(unfold msPerDay in *; lia))
    as [Hs He].
  pose proof (nextFriday_in_range now Hnow) as Hfri.
  destruct (foodLog_findMany_day st' (default "demo" (requireUser req))
              (Day (LocalTime now) * msPerDay - LocalTZA)
              (Day (LocalTime now) * msPerDay - LocalTZA + msPerDay))
    as (dayLogs & Hlogs & _).
  rewrite <- Hs, <- He in Hlogs.
  eexists. split.
  - eapply getDashboard_sheet; [exact Hlogs|exact Hfri|].
    rewrite Hu, Huser1. unfold dashboardSheet. rewrite Htarget.
    unfold bind. rewrite Htab1, Hnone, Hread. reflexivity.
  - reflexivity.
Qed.

End ProfileDashboardFacts.

Lemma X29_saved_budget_reaches_dashboard_witness :
  exists (st1 : Store) (d1 : Doc) (dd : Dashboard),
    putProfile (H := sampleHost) profileRequest sampleStore sampleDoc
      = (Respond 200 (DailyJson 128%float), st1, d1)
    /\ getDashboard (H := sampleHost) profileRequest
         (noon14 + 2 * msPerDay) st1 d1
       = (Respond 200 (DashboardJson dd), st1, d1)
    /\ remainingDubyToday dd = 128%float.
Proof.
  pose (out := putProfile (H := sampleHost) profileRequest sampleStore
                 sampleDoc).
  destruct (X29_saved_budget_reaches_dashboard (H := sampleHost) profileRequest
              (noon14 + 2 * msPerDay)%Z sampleStore out.1.2 sampleDoc
              sampleDoc out.2 "u1" "sheet-1" "Ann" "Ann" ann 128%float
              eq_refl eq_refl eq_refl eq_refl
              ltac:(vm_compute; reflexivity) ltac:(vm_compute; reflexivity)
              ltac:(discriminate) ltac:(discriminate)
              ltac:(vm_compute; reflexivity) ltac:(vm_compute; discriminate)
              ltac:(vm_compute; reflexivity)) as (dd & Hdash & Hrem).
  exists out.1.2, out.2, dd. split; [vm_compute; reflexivity|].
  split; [exact Hdash|].
  rewrite Hrem.
  assert (Hitems : items dd = []).
  { assert (E : (getDashboard (H := sampleHost) profileRequest
                   (noon14 + 2 * msPerDay) out.1.2 out.2).1.1
                = Respond 200 (DashboardJson dd))
      by (rewrite Hdash; reflexivity).
    vm_compute in E. injection E as <-. reflexivity. }
  rewrite Hitems. vm_compute. reflexivity.
Defined.

(** *** The day the mirror writes, read back *)

Section MirrorDayFacts.
Context `{Host}.
Local Open Scope Z_scope.

(** X30 (the day the mirror writes). The ledger mirror dates its row with the
    first ten characters of the ISO string of the local midnight of the
    entry's day. An engine reads such a date as midnight UTC of the day the
    ISO string names. Read back so by [parseAnyDateValue], the row falls on
    the local day of the entry exactly when the local time zone is UTC: in
    any other zone (of an offset under a day) it falls on the day before,
    and the scans for the entry's day pass it by. *)
Theorem X30_mirror_day_reads_back (now a : Z) :
  Z.abs LocalTZA < msPerDay ->
  dayStart now = Some a ->
  let dateIso := slice 0 10 (isoOfTime a) in
  isEmptyStr dateIso = false ->
  Date_parse dateIso = Some (Day a * msPerDay) ->
  Z.abs a <= 8640000000000000 - msPerDay ->
  (cellIsDay (JStr dateIso) (Some now) = true <-> LocalTZA = 0)
  /\ (LocalTZA <> 0 ->
      exists t0 : Z,
        parseAnyDateValue (JStr dateIso) = Some (Some t0)
        /\ Day (LocalTime t0) = Day (LocalTime now) - 1).
Proof.
  intros Htz Hs dateIso Hne Hparse Ha.
  assert (Hav : a = Day (LocalTime now) * msPerDay - LocalTZA).
  { rewrite dayStart_value in Hs. unfold TimeClip in Hs.
    destruct (_ <? _); [discriminate Hs|]. congruence. }
  assert (Hdate : Date_of_string dateIso = Some (Day a * msPerDay)).
  { unfold Date_of_string. rewrite Hparse, bind_Some.
    apply TimeClip_in_range. unfold Day, msPerDay in *.
    Z.div_mod_to_equations; lia. }
  pose proof (parse_string_native _ _ Hne Hdate) as Hcell.
  assert (Hday : Day (LocalTime (Day a * msPerDay))
                 = if LocalTZA =? 0 then Day (LocalTime now)
                   else Day (LocalTime now) - 1).
  { destruct (Z.eqb_spec LocalTZA 0) as [E|E];
      rewrite Hav; unfold Day, LocalTime, msPerDay in *.
    - rewrite E. Z.div_mod_to_equations; lia.
    - Z.div_mod_to_equations; lia. }
  split.
  - unfold cellIsDay. rewrite Hcell, sameDay_iff_Day, Hday.
    destruct (Z.eqb_spec LocalTZA 0) as [E|E]; [tauto|].
    split; [lia|contradiction].
  - intros Hnz. exists (Day a * msPerDay). split; [exact Hcell|].
    rewrite Hday. destruct (Z.eqb_spec LocalTZA 0); [contradiction|].
    reflexivity.
Qed.

End MirrorDayFacts.

Lemma X30_mirror_day_reads_back_witness :
  exists t0 : Z,
    parseAnyDateValue (H := sampleHost) (JStr "2024-03-13")
      = Some (Some t0)
    /\ Day (LocalTime (H := sampleHost) t0)
       = (Day (LocalTime (H := sampleHost) noon14) - 1)%Z.
Proof.
  destruct (X30_mirror_day_reads_back (H := sampleHost) noon14 1710370800000%Z
              ltac:(vm_compute; reflexivity) ltac:(vm_compute; reflexivity)
              ltac:(vm_compute; reflexivity) ltac:(vm_compute; reflexivity)
              ltac:(vm_compute; discriminate)) as [_ Hoff].
  exact (Hoff ltac:(discriminate)).
Defined.
